(** * tylerbot: the habit/log store and the weekly grid

    A shallow embedding of [src/db.py] (the SQLite access layer) and of the
    pure and storage-facing parts of [src/bot.py] (week range, grid
    rendering, the title handler and the command handlers), followed by the
    properties of the specification.

    Conventions.
    - A Python [str] is the list of its code points ([text]).
    - A [datetime.date] is its proleptic Gregorian ordinal
      ([date.toordinal()]), valid between 1 (0001-01-01) and 3652059
      (9999-12-31); arithmetic outside that range raises [OverflowError],
      rendered here as [None].
    - A table is the list of its rows in rowid order, with the value that
      [sqlite_sequence] keeps for its AUTOINCREMENT key next to it.
    - [CURRENT_TIMESTAMP] is an input of every inserting operation ([now]).
    - A call that raises is [None]; a store call that raises leaves the
      store as it was (its transaction is rolled back).  A Python [int] is a
      [Z]; SQLite takes it only when it fits in 64 signed bits
      ([OverflowError] otherwise), and takes a [str] only when it encodes
      as UTF-8 ([UnicodeEncodeError] for a lone surrogate).  A table whose
      AUTOINCREMENT key has reached the largest row id takes no further
      row ([sqlite3.OperationalError]).  SQLite's build-time limits (the
      number of parameters of one statement, the length of a value) are
      outside the model. *)

From Stdlib Require Import Ascii String.
From stdpp Require Import base numbers option list sorting gmap strings pretty.

(** ** Python strings *)

Module Text.

Definition text := list N.

(** An ASCII literal of the source as a [text]. *)
Definition lit (s : string) : text :=
  (λ a, Ascii.N_of_ascii a) <$> String.list_ascii_of_string s.

(** [str.isspace] for one code point (the Unicode white-space table of
    CPython). *)
Definition isspace (c : N) : bool :=
  ((9 <=? c) && (c <=? 13) || (28 <=? c) && (c <=? 32)
   || (c =? 133) || (c =? 160) || (c =? 5760)
   || (8192 <=? c) && (c <=? 8202)
   || (c =? 8232) || (c =? 8233) || (c =? 8239) || (c =? 8287)
   || (c =? 12288))%N.

Fixpoint lstrip (s : text) : text :=
  match s with
  | [] => []
  | c :: s' => if isspace c then lstrip s' else s
  end.

Definition rstrip (s : text) : text := reverse (lstrip (reverse s)).

(** [s.strip()] *)
Definition strip (s : text) : text := rstrip (lstrip s).

(** [sep.join(parts)] *)
Fixpoint join (sep : text) (parts : list text) : text :=
  match parts with
  | [] => []
  | [p] => p
  | p :: ps => p ++ sep ++ join sep ps
  end.

(** [format(s, str(w))]: left-justified in a field of width [w]. *)
Definition ljust (w : nat) (s : text) : text :=
  s ++ replicate (w - length s) 32%N.

(** ["%0wd" % n] for a non-negative [n]. *)
Definition zfill (w : nat) (n : N) : text :=
  let ds := lit (pretty n) in replicate (w - length ds) 48%N ++ ds.

(** [str(n)] for an [int]. *)
Definition str_int (n : Z) : text := lit (pretty n).

(** Comparison of two TEXT values under SQLite's BINARY collation: code
    point by code point, a proper prefix first. *)
Fixpoint text_leb (a b : text) : bool :=
  match a, b with
  | [], _ => true
  | _ :: _, [] => false
  | x :: a', y :: b' => (x <? y)%N || ((x =? y)%N && text_leb a' b')
  end.

End Text.

Export Text.

(** ** Python dates *)

Module Date.

Local Open Scope Z_scope.

Definition date := Z.

Definition MAXORDINAL : Z := 3652059.

Definition valid_date (d : date) : Prop := 1 ≤ d ≤ MAXORDINAL.

Definition is_leap (year : Z) : bool :=
  (year mod 4 =? 0) && (negb (year mod 100 =? 0) || (year mod 400 =? 0)).

Definition days_before_year (year : Z) : Z :=
  let y := year - 1 in y * 365 + y / 4 - y / 100 + y / 400.

Definition DAYS_IN_MONTH : list Z :=
  [-1; 31; 28; 31; 30; 31; 30; 31; 31; 30; 31; 30; 31].

Definition DAYS_BEFORE_MONTH : list Z :=
  [-1; 0; 31; 59; 90; 120; 151; 181; 212; 243; 273; 304; 334].

Definition days_before_month (year month : Z) : Z :=
  DAYS_BEFORE_MONTH !!! Z.to_nat month
  + (if (2 <? month) && is_leap year then 1 else 0).

Definition days_in_month (year month : Z) : Z :=
  if (month =? 2) && is_leap year then 29
  else DAYS_IN_MONTH !!! Z.to_nat month.

Definition ymd2ord (year month day : Z) : Z :=
  days_before_year year + days_before_month year month + day.

(** [date(year, month, day)]; [None] is [ValueError]. *)
Definition mkdate (year month day : Z) : option date :=
  if (1 <=? year) && (year <=? 9999) && (1 <=? month) && (month <=? 12)
     && (1 <=? day) && (day <=? days_in_month year month)
  then Some (ymd2ord year month day) else None.

(** The year, month and day of an ordinal. *)
Definition ord2ymd (ordinal : Z) : Z * Z * Z :=
  let n := ordinal - 1 in
  let n400 := n / 146097 in
  let n := n mod 146097 in
  let year := n400 * 400 + 1 in
  let n100 := n / 36524 in
  let n := n mod 36524 in
  let n4 := n / 1461 in
  let n := n mod 1461 in
  let n1 := n / 365 in
  let n := n mod 365 in
  let year := year + n100 * 100 + n4 * 4 + n1 in
  if (n1 =? 4) || (n100 =? 4) then (year - 1, 12, 31)
  else
    let leapyear := (n1 =? 3) && (negb (n4 =? 24) || (n100 =? 3)) in
    let month := Z.shiftr (n + 50) 5 in
    let preceding :=
      DAYS_BEFORE_MONTH !!! Z.to_nat month
      + (if (2 <? month) && leapyear then 1 else 0) in
    if n <? preceding then
      let month := month - 1 in
      let preceding :=
        preceding - (DAYS_IN_MONTH !!! Z.to_nat month
                     + (if (month =? 2) && leapyear then 1 else 0)) in
      (year, month, n - preceding + 1)
    else (year, month, n - preceding + 1).

Definition year (d : date) : Z := (ord2ymd d).1.1.
Definition month (d : date) : Z := (ord2ymd d).1.2.
Definition day (d : date) : Z := (ord2ymd d).2.

(** [d.weekday()]: Monday is 0, Sunday is 6. *)
Definition weekday (d : date) : Z := (d + 6) mod 7.

(** [d + timedelta(days=n)]; [None] is [OverflowError]. *)
Definition add_days (d : date) (n : Z) : option date :=
  let o := d + n in
  if (0 <? o) && (o <=? MAXORDINAL) then Some o else None.

(** [d - timedelta(days=n)] *)
Definition sub_days (d : date) (n : Z) : option date := add_days d (- n).

(** [d.isoformat()] *)
Definition isoformat (d : date) : text :=
  zfill 4 (Z.to_N (year d)) ++ lit "-" ++ zfill 2 (Z.to_N (month d))
  ++ lit "-" ++ zfill 2 (Z.to_N (day d)).

Definition DAY_ABBR : list text :=
  [lit "Mon"; lit "Tue"; lit "Wed"; lit "Thu"; lit "Fri"; lit "Sat"; lit "Sun"].

Definition MONTH_ABBR : list text :=
  [lit ""; lit "Jan"; lit "Feb"; lit "Mar"; lit "Apr"; lit "May"; lit "Jun";
   lit "Jul"; lit "Aug"; lit "Sep"; lit "Oct"; lit "Nov"; lit "Dec"].

(** [d.strftime("%a")] in the C locale, the one the process runs in
    (nothing calls [setlocale]). *)
Definition strftime_a (d : date) : text :=
  DAY_ABBR !!! Z.to_nat (weekday d).

(** [d.strftime("%d %b")] in the C locale. *)
Definition strftime_d_b (d : date) : text :=
  zfill 2 (Z.to_N (day d)) ++ lit " " ++ MONTH_ABBR !!! Z.to_nat (month d).

End Date.

Export Date.

(** ** The SQLite store ([src/db.py]) *)

Module User.
Record row := { id : Z; tg_user_id : Z; tg_username : option text;
                created_at : Z }.
End User.

Module Habit.
Record row := { id : Z; user_id : Z; title : text; is_active : Z;
                created_at : Z }.
End Habit.

Module Log.
Record row := { id : Z; habit_id : Z; log_date : text; done : Z;
                created_at : Z }.
End Log.

(** The three tables of [init_db], each with the counter SQLite keeps for
    its [AUTOINCREMENT] key.  Foreign keys are declared but not enforced
    (no [PRAGMA foreign_keys] is issued), so no operation checks them. *)
Record db := {
  users : list User.row;
  seq_users : Z;
  habits : list Habit.row;
  seq_habits : Z;
  habit_logs : list Log.row;
  seq_habit_logs : Z
}.

Definition empty_db : db :=
  {| users := []; seq_users := 0; habits := []; seq_habits := 0;
     habit_logs := []; seq_habit_logs := 0 |}.

(** [init_db]: [CREATE TABLE IF NOT EXISTS] on a database file that is
    either fresh ([None]) or already holds the tables. *)
Definition init_db (file : option db) : db := default empty_db file.

(** *** What SQLite takes from Python *)

(** An [int] is bound to a statement only when it fits in 64 signed
    bits; binding a larger one raises [OverflowError]. *)
Definition in_int64 (z : Z) : Prop :=
  (-9223372036854775808 ≤ z ≤ 9223372036854775807)%Z.

#[global] Instance in_int64_dec (z : Z) : Decision (in_int64 z).
Proof. unfold in_int64. apply _. Defined.

(** A [str] is bound only when it encodes as UTF-8: its code points are
    Unicode scalar values, none a surrogate ([UnicodeEncodeError]
    otherwise). *)
Definition encodable (t : text) : Prop :=
  Forall (λ c, (c < 55296 ∨ 57343 < c ≤ 1114111)%N) t.

#[global] Instance encodable_dec (t : text) : Decision (encodable t).
Proof. unfold encodable. apply _. Defined.

(** A [str | None] parameter: [None] is bound as [NULL]. *)
Definition bindable (o : option text) : Prop := from_option encodable True o.

#[global] Instance bindable_dec (o : option text) : Decision (bindable o).
Proof. destruct o; simpl; apply _. Defined.

(** *** Row ids *)

Definition MAX_ROWID : Z := 9223372036854775807.

(** The rowid an [AUTOINCREMENT] key gives to the next inserted row: one
    more than the largest rowid ever handed out in the table. *)
Definition next_rowid (seq : Z) (ids : list Z) : Z :=
  (Z.max seq (foldr Z.max 0 ids) + 1)%Z.

(** An [AUTOINCREMENT] table that has handed out the largest rowid takes
    no further [INSERT]: the statement fails with [SQLITE_FULL]
    ([sqlite3.OperationalError]). *)
Definition has_room (seq : Z) (ids : list Z) : Prop :=
  (next_rowid seq ids ≤ MAX_ROWID)%Z.

#[global] Instance has_room_dec (seq : Z) (ids : list Z) :
  Decision (has_room seq ids).
Proof. unfold has_room. apply _. Defined.

Definition set_tg_username (v : option text) (r : User.row) : User.row :=
  {| User.id := User.id r; User.tg_user_id := User.tg_user_id r;
     User.tg_username := v; User.created_at := User.created_at r |}.

Definition set_is_active (v : Z) (r : Habit.row) : Habit.row :=
  {| Habit.id := Habit.id r; Habit.user_id := Habit.user_id r;
     Habit.title := Habit.title r; Habit.is_active := v;
     Habit.created_at := Habit.created_at r |}.

Definition set_done (v : Z) (r : Log.row) : Log.row :=
  {| Log.id := Log.id r; Log.habit_id := Log.habit_id r;
     Log.log_date := Log.log_date r; Log.done := v;
     Log.created_at := Log.created_at r |}.

Definition with_users (s : db) (rows : list User.row) (seq : Z) : db :=
  {| users := rows; seq_users := seq;
     habits := habits s; seq_habits := seq_habits s;
     habit_logs := habit_logs s; seq_habit_logs := seq_habit_logs s |}.

Definition with_habits (s : db) (rows : list Habit.row) (seq : Z) : db :=
  {| users := users s; seq_users := seq_users s;
     habits := rows; seq_habits := seq;
     habit_logs := habit_logs s; seq_habit_logs := seq_habit_logs s |}.

Definition with_habit_logs (s : db) (rows : list Log.row) (seq : Z) : db :=
  {| users := users s; seq_users := seq_users s;
     habits := habits s; seq_habits := seq_habits s;
     habit_logs := rows; seq_habit_logs := seq |}.

(** *** [upsert_user] *)

(** The two statements of [upsert_user] once their parameters are bound
    and the table has a rowid to offer: [INSERT ... ON CONFLICT(tg_user_id)
    DO UPDATE SET tg_username = excluded.tg_username], then [SELECT id ...
    fetchone()].  The candidate rowid is drawn before the uniqueness
    check, so the counter advances on the update path as well.  [None] is
    the [TypeError] of subscripting a missing row. *)
Definition upsert_user_stmt (now : Z) (tg_user_id : Z)
    (tg_username : option text) (s : db) : option (Z * db) :=
  let rowid := next_rowid (seq_users s) (User.id <$> users s) in
  let same r := bool_decide (User.tg_user_id r = tg_user_id) in
  let rows :=
    if existsb same (users s)
    then (λ r, if same r then set_tg_username tg_username r else r)
           <$> users s
    else users s ++ [ {| User.id := rowid; User.tg_user_id := tg_user_id;
                         User.tg_username := tg_username;
                         User.created_at := now |} ] in
  row ← List.find same rows;
  Some (User.id row, with_users s rows rowid).

(** [upsert_user]: binding [tg_user_id] raises [OverflowError] outside 64
    bits, binding [tg_username] raises [UnicodeEncodeError] on a lone
    surrogate, and the [INSERT] fails when the table has no rowid left;
    in each case nothing is written. *)
Definition upsert_user (now : Z) (tg_user_id : Z) (tg_username : option text)
    (s : db) : option (Z * db) :=
  if decide (in_int64 tg_user_id ∧ bindable tg_username
             ∧ has_room (seq_users s) (User.id <$> users s))
  then upsert_user_stmt now tg_user_id tg_username s
  else None.

(** *** [add_habit] *)

(** The [INSERT] of [add_habit] once bound: the stripped title goes in
    under a new rowid, which is [cursor.lastrowid]. *)
Definition insert_habit (now : Z) (user_id : Z) (title : text) (s : db)
    : Z * db :=
  let rowid := next_rowid (seq_habits s) (Habit.id <$> habits s) in
  (rowid,
   with_habits s
     (habits s ++ [ {| Habit.id := rowid; Habit.user_id := user_id;
                       Habit.title := strip title; Habit.is_active := 1;
                       Habit.created_at := now |} ])
     rowid).

(** [add_habit]: the title is stripped, its length is not looked at.
    Binding [user_id] raises [OverflowError] outside 64 bits, binding the
    stripped title raises [UnicodeEncodeError] on a lone surrogate, and the
    [INSERT] fails when the table has no rowid left. *)
Definition add_habit (now : Z) (user_id : Z) (title : text) (s : db)
    : option (Z * db) :=
  if decide (in_int64 user_id ∧ encodable (strip title)
             ∧ has_room (seq_habits s) (Habit.id <$> habits s))
  then Some (insert_habit now user_id title s)
  else None.

(** *** [list_habits] *)

(** The order of [ORDER BY id ASC]. *)
Definition id_asc (a b : Habit.row) : Prop := (Habit.id a ≤ Habit.id b)%Z.

#[global] Instance id_asc_dec : RelDecision id_asc.
Proof. intros a b. unfold id_asc. apply _. Defined.

(** The rows of the [SELECT] of [list_habits]: the [(id, title)] columns
    of the user's active habits, [ORDER BY id ASC]. *)
Definition select_habits (user_id : Z) (s : db) : list (Z * text) :=
  (λ h, (Habit.id h, Habit.title h))
    <$> merge_sort id_asc
          (filter (λ h, Habit.user_id h = user_id ∧ Habit.is_active h = 1%Z)
                  (habits s)).

(** [list_habits]: binding [user_id] raises [OverflowError] outside 64
    bits. *)
Definition list_habits (user_id : Z) (s : db) : option (list (Z * text)) :=
  if decide (in_int64 user_id) then Some (select_habits user_id s) else None.

(** *** [mark_done] and [mark_done_for_user] *)

(** What [INSERT INTO habit_logs (habit_id, log_date, done) VALUES (h, d,
    1) ON CONFLICT(habit_id, log_date) DO UPDATE SET done = 1] does with
    one row when the table has a rowid to offer. *)
Definition upsert_log (now : Z) (habit_id : Z) (log_date : text) (s : db)
    : db :=
  let rowid := next_rowid (seq_habit_logs s) (Log.id <$> habit_logs s) in
  let same r :=
    bool_decide (Log.habit_id r = habit_id ∧ Log.log_date r = log_date) in
  let rows :=
    if existsb same (habit_logs s)
    then (λ r, if same r then set_done 1 r else r) <$> habit_logs s
    else habit_logs s ++ [ {| Log.id := rowid; Log.habit_id := habit_id;
                              Log.log_date := log_date; Log.done := 1;
                              Log.created_at := now |} ] in
  with_habit_logs s rows rowid.

(** One row of that [INSERT]: it fails when the table has no rowid left,
    on the update path too, since the rowid is drawn first. *)
Definition insert_log (now : Z) (habit_id : Z) (log_date : text) (s : db)
    : option db :=
  if decide (has_room (seq_habit_logs s) (Log.id <$> habit_logs s))
  then Some (upsert_log now habit_id log_date s)
  else None.

(** [mark_done]: binding [habit_id] raises [OverflowError] outside 64
    bits; otherwise one row is upserted, so [rowcount] is 1. *)
Definition mark_done (now : Z) (habit_id : Z) (target_date : date) (s : db)
    : option (bool * db) :=
  if decide (in_int64 habit_id) then
    s' ← insert_log now habit_id (isoformat target_date) s;
    let rowcount := 1%Z in
    Some (bool_decide (0 < rowcount)%Z, s')
  else None.

(** [mark_done_for_user]: binding [habit_id] or [user_id] raises
    [OverflowError] outside 64 bits; the rows to insert are selected from
    [habits]; [rowcount] is the number of rows inserted or updated. *)
Definition mark_done_for_user (now : Z) (user_id habit_id : Z)
    (target_date : date) (s : db) : option (bool * db) :=
  if decide (in_int64 habit_id ∧ in_int64 user_id) then
    let selected :=
      filter (λ h, Habit.id h = habit_id ∧ Habit.user_id h = user_id
                   ∧ Habit.is_active h = 1%Z) (habits s) in
    let rowcount := length selected in
    s' ← foldl (λ acc h,
                  acc ≫= insert_log now (Habit.id h) (isoformat target_date))
               (Some s) selected;
    Some (bool_decide (0 < rowcount), s')
  else None.

(** *** [weekly_status] *)

(** [weekly_status]: without habit ids the empty mapping, before the days
    are looked at; else [IndexError] on an empty list of days, and
    [OverflowError] when a habit id does not fit in 64 bits. *)
Definition weekly_status (habit_ids : list Z) (week_dates : list date)
    (s : db) : option (gmap (Z * text) Z) :=
  match habit_ids with
  | [] => Some ∅
  | _ =>
    first ← head week_dates;
    final ← last week_dates;
    if decide (Forall in_int64 habit_ids) then
      let rows :=
        filter (λ r, Log.habit_id r ∈ habit_ids
                     ∧ text_leb (isoformat first) (Log.log_date r)
                     ∧ text_leb (Log.log_date r) (isoformat final))
               (habit_logs s) in
      Some (foldl (λ m r, <[(Log.habit_id r, Log.log_date r) := Log.done r]> m)
                  ∅ rows)
    else None
  end.

(** *** Operations that [bot.py] imports from [db] but whose definitions
    are not part of the sources at hand *)

Inductive toggle_result := Marked | Removed | NotFound.

(** The habit exists, belongs to the user and is active. *)
Definition owned_active (user_id habit_id : Z) (h : Habit.row) : Prop :=
  Habit.id h = habit_id ∧ Habit.user_id h = user_id ∧ Habit.is_active h = 1%Z.

(** The state of a (habit, date) pair: [Done] is a row with [done = 1]. *)
Definition is_done (habit_id : Z) (log_date : text) (s : db) : bool :=
  existsb (λ r, bool_decide (Log.habit_id r = habit_id
                             ∧ Log.log_date r = log_date ∧ Log.done r = 1%Z))
          (habit_logs s).

(** Modelled from the spec: [toggle_done_for_user] is imported by
    [bot.py] and absent from [db.py].  Section 4.3: verify that the habit
    exists, is active and belongs to the user, otherwise [NotFound]; if the
    pair is undone, upsert a row with [done = 1] and return [Marked]; if it
    is done, delete the row and return [Removed]. *)
Definition toggle_done_for_user (now : Z) (user_id habit_id : Z)
    (target_date : date) (s : db) : toggle_result * db :=
  let d := isoformat target_date in
  if existsb (λ h, bool_decide (owned_active user_id habit_id h)) (habits s)
  then
    if is_done habit_id d s
    then (Removed,
          with_habit_logs s
            (filter (λ r, ¬ (Log.habit_id r = habit_id ∧ Log.log_date r = d))
                    (habit_logs s))
            (seq_habit_logs s))
    else (Marked, upsert_log now habit_id d s)
  else (NotFound, s).

(** Modelled from the spec: [deactivate_habit_for_user] is imported by
    [bot.py] and absent from [db.py].  Section 4.2: flips [is_active] to
    false only if the habit exists, belongs to the user and is currently
    active; returns whether a row was changed. *)
Definition deactivate_habit_for_user (user_id habit_id : Z) (s : db)
    : bool * db :=
  let hit h := bool_decide (owned_active user_id habit_id h) in
  let rowcount := length (filter (λ h, owned_active user_id habit_id h)
                                 (habits s)) in
  (bool_decide (0 < rowcount),
   with_habits s ((λ h, if hit h then set_is_active 0 h else h) <$> habits s)
               (seq_habits s)).
(** ** The week view and the title handler ([src/bot.py]) *)

(** [week_dates]: the Monday on or before [today] and the six days after
    it; [None] when one of them falls outside the range of [date]. *)
Definition week_dates (today : date) : option (list date) :=
  monday ← sub_days today (weekday today);
  mapM (λ i, add_days monday i) (seqZ 0 7).

Definition DONE_CELL : N := 129001.     (* U+1F7E9, green square *)
Definition UNDONE_CELL : N := 128997.   (* U+1F7E5, red square *)
Definition NL : text := [10%N].

(** [statuses.get(key, 0) == 1] *)
Definition cell (statuses : gmap (Z * text) Z) (habit_id : Z) (d : date) : N :=
  if bool_decide (default 0%Z (statuses !! (habit_id, isoformat d)) = 1%Z)
  then DONE_CELL else UNDONE_CELL.

(** One line of the grid: the title cut and padded to 15 columns, a
    space, one cell per day. *)
Definition habit_line (statuses : gmap (Z * text) Z) (days : list date)
    (h : Z * text) : text :=
  let habit_id := h.1 in
  let title := h.2 in
  let cells := cell statuses habit_id <$> days in
  ljust 15 (take 15 title) ++ lit " " ++ cells.

(** The first letter of each day's abbreviation, after one space. *)
Definition day_header (days : list date) : text :=
  lit " " ++ join (lit " ") ((λ d, take 1 (strftime_a d)) <$> days).

(** [build_week_table]; [None] is the [IndexError] of [days[0]] on an
    empty list of days. *)
Definition build_week_table (habits : list (Z * text))
    (statuses : gmap (Z * text) Z) (days : list date) : option text :=
  first ← head days;
  final ← last days;
  let lines :=
    [ lit "Week " ++ strftime_d_b first ++ lit " - " ++ strftime_d_b final;
      ljust 16 [] ++ day_header days ] in
  let lines := lines ++ (habit_line statuses days <$> habits) in
  Some (join NL lines).

(** A message handed to [message.answer]. *)
Record sent := { body : text; with_main_menu : bool; parse_mode : option text }.

Definition plain (b : text) : sent :=
  {| body := b; with_main_menu := false; parse_mode := None |}.

(** [send_week_view]; [None] when listing the habits or building the view
    raises. *)
Definition send_week_view (today : date) (user_id : Z) (s : db)
    : option (list sent) :=
  habits ← list_habits user_id s;
  match habits with
  | [] => Some [plain (lit "No habits yet. Use /add first.")]
  | _ =>
    days ← week_dates today;
    statuses ← weekly_status (fst <$> habits) days s;
    table ← build_week_table habits statuses days;
    Some [ {| body := lit "<pre>" ++ table ++ lit "</pre>";
              with_main_menu := false; parse_mode := Some (lit "HTML") |} ]
  end.

(** The conversation state kept by the dispatcher for one user. *)
Inductive fsm_state := no_state | waiting_for_title.

(** What one run of a handler leaves behind. *)
Record handled := {
  db_after : db;
  state_after : fsm_state;
  answers : list sent;
  raised : bool
}.

(** [handle_habit_title], run in state [waiting_for_title] on a message of
    the user [(from_id, username)] with text [message_text].  Each store
    call commits on its own, so a later call that raises leaves what the
    earlier ones wrote. *)
Definition handle_habit_title (now now' : Z) (today : date) (from_id : Z)
    (username : option text) (message_text : option text) (s : db)
    : handled :=
  match upsert_user now from_id username s with
  | None => {| db_after := s; state_after := waiting_for_title;
               answers := []; raised := true |}
  | Some (user_id, s1) =>
    let title := strip (default [] message_text) in
    if bool_decide (length title < 2) then
      {| db_after := s1; state_after := waiting_for_title;
         answers := [plain (lit "Habit name is too short. Try again.")];
         raised := false |}
    else
      match add_habit now' user_id title s1 with
      | None => {| db_after := s1; state_after := waiting_for_title;
                   answers := []; raised := true |}
      | Some (habit_id, s2) =>
        let added :=
          {| body := lit "Added habit #" ++ str_int habit_id ++ lit ": "
                     ++ title;
             with_main_menu := true; parse_mode := None |} in
        match send_week_view today user_id s2 with
        | Some view => {| db_after := s2; state_after := no_state;
                          answers := added :: view; raised := false |}
        | None => {| db_after := s2; state_after := no_state;
                     answers := [added]; raised := true |}
        end
      end
  end.

(** ** Reachable states *)

(** The calls that change the store. *)
Inductive op :=
  | UpsertUser (tg_user_id : Z) (tg_username : option text)
  | AddHabit (user_id : Z) (title : text)
  | MarkDone (habit_id : Z) (target_date : date)
  | MarkDoneForUser (user_id habit_id : Z) (target_date : date)
  | ToggleDone (user_id habit_id : Z) (target_date : date)
  | Deactivate (user_id habit_id : Z).

(** One call on the store; a call that raises leaves the store as it
    was. *)
Definition step (now : Z) (o : op) (s : db) : db :=
  match o with
  | UpsertUser tg name => default s (snd <$> upsert_user now tg name s)
  | AddHabit u t => default s (snd <$> add_habit now u t s)
  | MarkDone h d => default s (snd <$> mark_done now h d s)
  | MarkDoneForUser u h d => default s (snd <$> mark_done_for_user now u h d s)
  | ToggleDone u h d => (toggle_done_for_user now u h d s).2
  | Deactivate u h => (deactivate_habit_for_user u h s).2
  end.

Inductive reachable : db → Prop :=
  | reach_init : reachable (init_db None)
  | reach_step now o s : reachable s → reachable (step now o s).

(** The invariants of the tables: keys are unique, at most one log row
    per (habit, date), and a log row is always a done row. *)
Definition log_key (r : Log.row) : Z * text := (Log.habit_id r, Log.log_date r).

Record db_wf (s : db) : Prop := {
  wf_user_ids : NoDup (User.id <$> users s);
  wf_tg_ids : NoDup (User.tg_user_id <$> users s);
  wf_habit_ids : NoDup (Habit.id <$> habits s);
  wf_log_ids : NoDup (Log.id <$> habit_logs s);
  wf_log_keys : NoDup (log_key <$> habit_logs s);
  wf_log_done : Forall (λ r, Log.done r = 1%Z) (habit_logs s)
}.

(** At most one log row per (habit, date). *)
Definition logs_unique (s : db) : Prop := NoDup (log_key <$> habit_logs s).

#[global] Instance db_wf_dec (s : db) : Decision (db_wf s).
Proof.
  destruct (decide (NoDup (User.id <$> users s)
                    ∧ NoDup (User.tg_user_id <$> users s)
                    ∧ NoDup (Habit.id <$> habits s)
                    ∧ NoDup (Log.id <$> habit_logs s)
                    ∧ NoDup (log_key <$> habit_logs s)
                    ∧ Forall (λ r, Log.done r = 1%Z) (habit_logs s)))
    as [H|H].
  - left. destruct H as (?&?&?&?&?&?). by split.
  - right. intros [? ? ? ? ? ?]. apply H. by split_and!.
Defined.

(** What an SQLite file holds in the [INTEGER] columns that the program
    reads: values of 64 signed bits. *)
Record db_fits (s : db) : Prop := {
  fits_user_ids : Forall in_int64 (User.id <$> users s);
  fits_habit_ids : Forall in_int64 (Habit.id <$> habits s);
  fits_habit_users : Forall in_int64 (Habit.user_id <$> habits s);
  fits_log_habits : Forall in_int64 (Log.habit_id <$> habit_logs s)
}.

#[global] Instance db_fits_dec (s : db) : Decision (db_fits s).
Proof.
  destruct (decide (Forall in_int64 (User.id <$> users s)
                    ∧ Forall in_int64 (Habit.id <$> habits s)
                    ∧ Forall in_int64 (Habit.user_id <$> habits s)
                    ∧ Forall in_int64 (Log.habit_id <$> habit_logs s)))
    as [H|H].
  - left. destruct H as (?&?&?&?). by split.
  - right. intros [? ? ? ?]. apply H. by split_and!.
Defined.

(** [SELECT * FROM users WHERE tg_user_id = ?], first row. *)
Definition lookup_user (tg_user_id : Z) (s : db) : option User.row :=
  List.find (λ r, bool_decide (User.tg_user_id r = tg_user_id)) (users s).

(** A run of the store: the calls, each with the clock reading it saw. *)
Definition run (calls : list (Z * op)) (s : db) : db :=
  foldl (λ acc c, step c.1 c.2 acc) s calls.

(** A small store used in the examples: one user, one habit. *)
Definition sample_db : db :=
  step 20 (AddHabit 1 (lit "Water 2L"))
    (step 10 (UpsertUser 1001 (Some (lit "ann"))) (init_db None)).

(** ** Auxiliary notions for the calendar and for the order of texts *)

Section calendar.
Local Open Scope Z_scope.

(** The month and the day of the month of the [n]-th day of a year (from
    0), as the tail of [ord2ymd] computes them. *)
Definition month_day (leapyear : bool) (n : Z) : Z * Z :=
  let month := Z.shiftr (n + 50) 5 in
  let preceding :=
    DAYS_BEFORE_MONTH !!! Z.to_nat month
    + (if (2 <? month) && leapyear then 1 else 0) in
  if n <? preceding then
    let month := month - 1 in
    let preceding :=
      preceding - (DAYS_IN_MONTH !!! Z.to_nat month
                   + (if (month =? 2) && leapyear then 1 else 0)) in
    (month, n - preceding + 1)
  else (month, n - preceding + 1).

Definition year_length (leapyear : bool) : Z := if leapyear then 366 else 365.

Definition month_day_key (leapyear : bool) (n : Z) : Z :=
  (month_day leapyear n).1 * 32 + (month_day leapyear n).2.

(** A bounded check: [P] holds on the [n] integers from [lo] on. *)
Definition all_in_range (P : Z → bool) (lo : Z) (n : positive) : bool :=
  (Pos.iter (λ st : Z * bool, (st.1 + 1, st.2 && P st.1)) (lo, true) n).2.

Definition month_day_ok (leapyear : bool) (n : Z) : bool :=
  let '(m, d) := month_day leapyear n in
  (1 <=? m) && (m <=? 12) && (1 <=? d) && (d <=? 31)
  && (negb (n + 1 <? year_length leapyear)
      || (month_day_key leapyear n <? month_day_key leapyear (n + 1))).

End calendar.

(** The strict order that goes with [text_leb]. *)
Fixpoint text_ltb (a b : text) : bool :=
  match a, b with
  | _, [] => false
  | [], _ :: _ => true
  | x :: a', y :: b' => (x <? y)%N || ((x =? y)%N && text_ltb a' b')
  end.

Definition zfill_ok (w : nat) (n : Z) : bool :=
  text_ltb (zfill w (Z.to_N n)) (zfill w (Z.to_N (n + 1)))
  && bool_decide (length (zfill w (Z.to_N n)) = w)
  && bool_decide (length (zfill w (Z.to_N (n + 1))) = w).

(** ** The command handlers ([src/bot.py]) *)

Definition DONE_PREFIX : text := lit "done:".
Definition DELETE_PREFIX : text := lit "delete:".

(** One [kb.button(text=..., callback_data=...)] call. *)
Record button := { label : text; callback_data : text }.

(** What a handler sends: a message, with the main menu or not, or a
    message under which an inline keyboard hangs, one button per row
    ([kb.adjust(1)]). *)
Inductive reply :=
  | Plain (m : sent)
  | Inline (body : text) (buttons : list button).

(** What one run of a command handler leaves behind. *)
Record result := {
  store : db;
  fsm : fsm_state;
  replies : list reply;
  failed : bool
}.

Definition DONE_MARK : N := 9989.     (* U+2705 *)
Definition UNDONE_MARK : N := 11036.  (* U+2B1C *)
Definition CROSS_MARK : N := 10060.   (* U+274C *)

(** [build_done_keyboard]: the buttons of the [/done] keyboard, from
    today's statuses; [None] when reading the statuses raises. *)
Definition build_done_keyboard (today : date) (habits : list (Z * text))
    (s : db) : option (list button) :=
  let today_iso := isoformat today in
  statuses ← weekly_status (fst <$> habits) [today] s;
  Some ((λ h : Z * text,
           let habit_id := h.1 in
           let title := h.2 in
           let is_done :=
             bool_decide (default 0%Z (statuses !! (habit_id, today_iso)) = 1%Z) in
           let marker := if is_done then [DONE_MARK] else [UNDONE_MARK] in
           {| label := marker ++ lit " " ++ title;
              callback_data := DONE_PREFIX ++ str_int habit_id |})
          <$> habits).

Definition START_TEXT : text :=
  lit "Habit tracker bot." ++ NL ++ NL
  ++ lit "Commands:" ++ NL
  ++ lit "/add - add a new habit" ++ NL
  ++ lit "/done - mark a habit done today" ++ NL
  ++ lit "/delete - delete a habit" ++ NL
  ++ lit "/week - weekly matrix".

(** A store call of the handler raised: the handler stops there, having
    sent what it had sent. *)
Definition aborted (s : db) (st : fsm_state) : result :=
  {| store := s; fsm := st; replies := []; failed := true |}.

(** [start] *)
Definition start (now : Z) (from_id : Z) (username : option text)
    (st : fsm_state) (s : db) : result :=
  match upsert_user now from_id username s with
  | None => aborted s st
  | Some (_, s1) =>
    {| store := s1; fsm := st;
       replies := [Plain {| body := START_TEXT; with_main_menu := true;
                            parse_mode := None |}];
       failed := false |}
  end.

(** [add_command] *)
Definition add_command (now : Z) (from_id : Z) (username : option text)
    (st : fsm_state) (s : db) : result :=
  match upsert_user now from_id username s with
  | None => aborted s st
  | Some (_, s1) =>
    {| store := s1; fsm := waiting_for_title;
       replies := [Plain (plain (lit "Send habit name (example: Water 2L)"))];
       failed := false |}
  end.

(** [done_command] *)
Definition done_command (now : Z) (today : date) (from_id : Z)
    (username : option text) (st : fsm_state) (s : db) : result :=
  match upsert_user now from_id username s with
  | None => aborted s st
  | Some (user_id, s1) =>
    match list_habits user_id s1 with
    | None => aborted s1 st
    | Some [] =>
      {| store := s1; fsm := st;
         replies := [Plain (plain (lit "No habits yet. Use /add first."))];
         failed := false |}
    | Some habits =>
      match build_done_keyboard today habits s1 with
      | None => aborted s1 st
      | Some kb =>
        {| store := s1; fsm := st;
           replies := [Inline (lit "Toggle done for today (tap again to undo):")
                              kb];
           failed := false |}
      end
    end
  end.

(** [delete_command] *)
Definition delete_command (now : Z) (from_id : Z) (username : option text)
    (st : fsm_state) (s : db) : result :=
  match upsert_user now from_id username s with
  | None => aborted s st
  | Some (user_id, s1) =>
    match list_habits user_id s1 with
    | None => aborted s1 st
    | Some [] =>
      {| store := s1; fsm := st;
         replies := [Plain (plain (lit "No habits to delete."))];
         failed := false |}
    | Some habits =>
      let kb :=
        (λ h : Z * text,
           {| label := [CROSS_MARK] ++ lit " " ++ h.2;
              callback_data := DELETE_PREFIX ++ str_int h.1 |}) <$> habits in
      {| store := s1; fsm := st;
         replies := [Inline (lit "Pick a habit to delete:") kb];
         failed := false |}
    end
  end.

(** [week_command] *)
Definition week_command (now : Z) (today : date) (from_id : Z)
    (username : option text) (st : fsm_state) (s : db) : result :=
  match upsert_user now from_id username s with
  | None => aborted s st
  | Some (user_id, s1) =>
    match send_week_view today user_id s1 with
    | None => aborted s1 st
    | Some view =>
      {| store := s1; fsm := st; replies := Plain <$> view; failed := false |}
    end
  end.

(** The small store after its habit was marked done on 2024-01-01. *)
Definition sample_marked : db :=
  step 30 (MarkDoneForUser 1 1 738886%Z) sample_db.

(** A store of two users: the first has the habits 1 (Water 2L), 3 (Read,
    deleted) and 4 (Walk), the second the habit 2 (Run). *)
Definition sample_shared : db :=
  step 60 (Deactivate 1 3)
    (step 50 (AddHabit 1 (lit "Walk"))
      (step 40 (AddHabit 1 (lit "Read"))
        (step 35 (AddHabit 2 (lit "Run"))
          (step 32 (UpsertUser 1002 (Some (lit "bob"))) sample_db)))).

(** A [/] opens a command: the dispatcher tries the handlers in the order
    of their registration, and those of [/start] and [/add] come before the
    title handler, whatever the conversation state. *)
Definition SLASH : N := 47.

(** The text of a message that no command filter takes: it is not empty
    (a filter reads the caption in place of an empty text) and its first
    word does not begin with [/]. *)
Definition not_a_command (t : text) : Prop :=
  t ≠ [] ∧ head (strip t) ≠ Some SLASH.

#[global] Instance not_a_command_dec (t : text) : Decision (not_a_command t).
Proof. unfold not_a_command. apply _. Defined.

(** * Properties *)

Example iso_2024_01_01 :
  isoformat <$> mkdate 2024 1 1 = Some (lit "2024-01-01").
Proof. vm_compute. reflexivity. Qed.

Example iso_max : isoformat MAXORDINAL = lit "9999-12-31".
Proof. vm_compute. reflexivity. Qed.

Example strip_example : strip (lit "  Water 2L  ") = lit "Water 2L".
Proof. vm_compute. reflexivity. Qed.

Example week_of_2024_01_07 :
  option_map (map isoformat) (mkdate 2024 1 7 ≫= week_dates)
  = Some (map lit ["2024-01-01"; "2024-01-02"; "2024-01-03"; "2024-01-04";
                   "2024-01-05"; "2024-01-06"; "2024-01-07"]).
Proof. vm_compute. reflexivity. Qed.

(** ** Fresh row ids *)

Lemma foldr_max_ge (ids : list Z) (i : Z) :
  i ∈ ids → (i ≤ foldr Z.max 0 ids)%Z.
Proof.
  induction ids as [|j ids IH]; intros Hi.
  - by apply elem_of_nil in Hi.
  - apply elem_of_cons in Hi as [->|Hi]; simpl; [lia|].
    specialize (IH Hi). lia.
Qed.

Lemma next_rowid_above (seq : Z) (ids : list Z) (i : Z) :
  i ∈ ids → (i < next_rowid seq ids)%Z.
Proof.
  intros Hi%foldr_max_ge. unfold next_rowid. lia.
Qed.

Lemma next_rowid_fresh (seq : Z) (ids : list Z) : next_rowid seq ids ∉ ids.
Proof. intros Hi%(next_rowid_above seq). lia. Qed.

Lemma next_rowid_positive (seq : Z) (ids : list Z) :
  (0 < next_rowid seq ids)%Z.
Proof.
  unfold next_rowid.
  assert (0 ≤ foldr Z.max 0 ids)%Z by (induction ids; simpl; lia). lia.
Qed.

Lemma NoDup_snoc {A} (l : list A) (x : A) : x ∉ l → NoDup l → NoDup (l ++ [x]).
Proof.
  intros Hx Hl. apply NoDup_app. split_and!; [done| |apply NoDup_singleton].
  intros y Hy ->%list_elem_of_singleton. done.
Qed.

Lemma existsb_elem_of {A} (f : A → bool) (l : list A) :
  existsb f l = true ↔ ∃ x, x ∈ l ∧ f x = true.
Proof.
  rewrite existsb_exists. by setoid_rewrite list_elem_of_In.
Qed.

Lemma existsb_none {A} (f : A → bool) (l : list A) :
  existsb f l = false ↔ ∀ x, x ∈ l → f x = false.
Proof.
  induction l as [|y l IH]; simpl.
  - split; [|done]. intros _ x Hx. by apply elem_of_nil in Hx.
  - rewrite orb_false_iff, IH. split.
    + intros [Hy Hl] x [->|Hx]%elem_of_cons; auto.
    + intros H. split; [apply H; left|intros x Hx; apply H; by right].
Qed.

(** ** The log upsert *)

Section upsert_log.
Context (now habit_id : Z) (log_date : text) (s : db).

Let same (r : Log.row) : bool :=
  bool_decide (Log.habit_id r = habit_id ∧ Log.log_date r = log_date).

Lemma upsert_log_other_tables :
  users (upsert_log now habit_id log_date s) = users s
  ∧ seq_users (upsert_log now habit_id log_date s) = seq_users s
  ∧ habits (upsert_log now habit_id log_date s) = habits s
  ∧ seq_habits (upsert_log now habit_id log_date s) = seq_habits s.
Proof. done. Qed.

(** Insert path: no row with the key, one row is appended. *)
Lemma upsert_log_insert :
  (habit_id, log_date) ∉ log_key <$> habit_logs s →
  habit_logs (upsert_log now habit_id log_date s)
  = habit_logs s
    ++ [ {| Log.id := next_rowid (seq_habit_logs s) (Log.id <$> habit_logs s);
            Log.habit_id := habit_id; Log.log_date := log_date;
            Log.done := 1; Log.created_at := now |} ].
Proof.
  intros Hnew. unfold upsert_log. simpl.
  replace (existsb _ (habit_logs s)) with false; [done|].
  symmetry. apply existsb_none. intros r Hr.
  apply bool_decide_eq_false. intros [<- <-].
  apply Hnew, list_elem_of_fmap. by exists r.
Qed.

(** Update path: the row with the key gets [done = 1], in place. *)
Lemma upsert_log_update :
  (habit_id, log_date) ∈ log_key <$> habit_logs s →
  habit_logs (upsert_log now habit_id log_date s)
  = (λ r, if same r then set_done 1 r else r) <$> habit_logs s.
Proof.
  intros (r & Hk & Hr)%list_elem_of_fmap. unfold upsert_log. simpl.
  replace (existsb _ (habit_logs s)) with true; [done|].
  symmetry. apply existsb_elem_of. exists r. split; [done|].
  apply bool_decide_eq_true. unfold log_key in Hk. by inversion Hk.
Qed.

(** A row that is already done is left as it is by the update. *)
Lemma upsert_log_confirm :
  (habit_id, log_date) ∈ log_key <$> habit_logs s →
  Forall (λ r, Log.done r = 1%Z) (habit_logs s) →
  habit_logs (upsert_log now habit_id log_date s) = habit_logs s.
Proof.
  intros Hin Hdone. rewrite upsert_log_update by done.
  rewrite <- (list_fmap_id (habit_logs s)) at 2.
  apply Forall_fmap_ext_1. eapply Forall_impl; [exact Hdone|].
  intros [i h d dn c] Hr; simpl in *. subst dn. by destruct (same _).
Qed.

Lemma upsert_log_keys :
  log_key <$> habit_logs (upsert_log now habit_id log_date s)
  = if bool_decide ((habit_id, log_date) ∈ log_key <$> habit_logs s)
    then log_key <$> habit_logs s
    else (log_key <$> habit_logs s) ++ [(habit_id, log_date)].
Proof.
  case_bool_decide as Hin.
  - rewrite upsert_log_update by done. rewrite <- list_fmap_compose.
    apply Forall_fmap_ext_1, Forall_forall. intros r _. simpl.
    by destruct (same r).
  - rewrite upsert_log_insert by done. by rewrite fmap_app.
Qed.

Lemma upsert_log_ids :
  Log.id <$> habit_logs (upsert_log now habit_id log_date s)
  = if bool_decide ((habit_id, log_date) ∈ log_key <$> habit_logs s)
    then Log.id <$> habit_logs s
    else (Log.id <$> habit_logs s)
         ++ [next_rowid (seq_habit_logs s) (Log.id <$> habit_logs s)].
Proof.
  case_bool_decide as Hin.
  - rewrite upsert_log_update by done. rewrite <- list_fmap_compose.
    apply Forall_fmap_ext_1, Forall_forall. intros r _. simpl.
    by destruct (same r).
  - rewrite upsert_log_insert by done. by rewrite fmap_app.
Qed.

Lemma upsert_log_all_done :
  Forall (λ r, Log.done r = 1%Z) (habit_logs s) →
  Forall (λ r, Log.done r = 1%Z) (habit_logs (upsert_log now habit_id log_date s)).
Proof.
  intros Hdone.
  destruct (decide ((habit_id, log_date) ∈ log_key <$> habit_logs s)) as [Hin|Hin].
  - by rewrite upsert_log_confirm.
  - rewrite upsert_log_insert by done. apply Forall_app. split; [done|].
    by repeat constructor.
Qed.

(** After the upsert the pair has a row, and it is a done row. *)
Lemma upsert_log_marks :
  ∃ r, r ∈ habit_logs (upsert_log now habit_id log_date s)
       ∧ Log.habit_id r = habit_id ∧ Log.log_date r = log_date
       ∧ Log.done r = 1%Z.
Proof.
  destruct (decide ((habit_id, log_date) ∈ log_key <$> habit_logs s)) as [Hin|Hin].
  - rewrite upsert_log_update by done.
    apply list_elem_of_fmap in Hin as (r & Hk & Hr).
    unfold log_key in Hk. inversion Hk; subst.
    exists (set_done 1 r). split_and!; try done.
    apply list_elem_of_fmap. exists r. split; [|done].
    unfold same. by rewrite bool_decide_eq_true_2.
  - rewrite upsert_log_insert by done. eexists. split.
    + apply elem_of_app. right. apply list_elem_of_singleton. reflexivity.
    + done.
Qed.

Lemma upsert_log_wf : db_wf s → db_wf (upsert_log now habit_id log_date s).
Proof.
  intros [H1 H2 H3 H4 H5 H6]. split; try done.
  - rewrite upsert_log_ids. case_bool_decide; [done|].
    apply NoDup_snoc; [apply next_rowid_fresh|done].
  - rewrite upsert_log_keys. case_bool_decide; [done|].
    by apply NoDup_snoc.
  - by apply upsert_log_all_done.
Qed.

End upsert_log.

Lemma upsert_log_idem (now now' habit_id : Z) (log_date : text) (s : db) :
  habit_logs (upsert_log now' habit_id log_date (upsert_log now habit_id log_date s))
  = habit_logs (upsert_log now habit_id log_date s).
Proof.
  set (s1 := upsert_log now habit_id log_date s).
  assert (Hin : (habit_id, log_date) ∈ log_key <$> habit_logs s1).
  { destruct (upsert_log_marks now habit_id log_date s) as (r & Hr & <- & <- & _).
    apply list_elem_of_fmap. by exists r. }
  rewrite upsert_log_update by done.
  rewrite <- (list_fmap_id (habit_logs s1)) at 2.
  apply Forall_fmap_ext_1, Forall_forall. intros r Hr.
  case_bool_decide as Hsame; [|done].
  enough (Log.done r = 1%Z) as Hd by (destruct r; simpl in *; by subst).
  subst s1.
  destruct (decide ((habit_id, log_date) ∈ log_key <$> habit_logs s)) as [Hold|Hold].
  - rewrite upsert_log_update in Hr by done.
    apply list_elem_of_fmap in Hr as (r0 & -> & _).
    destruct (bool_decide _) eqn:E; [done|].
    apply bool_decide_eq_false in E. done.
  - rewrite upsert_log_insert in Hr by done.
    apply elem_of_app in Hr as [Hr| ->%list_elem_of_singleton]; [|done].
    exfalso. apply Hold, list_elem_of_fmap. exists r. split; [|done].
    unfold log_key. by destruct Hsame as [-> ->].
Qed.

(** A filter that pins a unique key selects at most one row. *)
Lemma filter_unique_key {A} (f : A → Z) (P : A → Prop)
    `{!∀ x, Decision (P x)} (k : Z) (l : list A) :
  NoDup (f <$> l) → (∀ x, P x → f x = k) →
  filter P l = [] ∨ ∃ x, x ∈ l ∧ P x ∧ filter P l = [x].
Proof.
  intros Hnd HP. induction l as [|x l IH]; [by left|].
  rewrite fmap_cons in Hnd. apply NoDup_cons in Hnd as [Hx Hnd].
  destruct (decide (P x)) as [Px|Px].
  - right. exists x. split_and!; [left|done|].
    rewrite filter_cons_True by done. f_equal.
    destruct (filter P l) as [|y l'] eqn:E; [done|].
    assert (y ∈ filter P l) as [Py Hy]%list_elem_of_filter by (rewrite E; left).
    exfalso. apply Hx, list_elem_of_fmap. exists y.
    by rewrite (HP x Px), (HP y Py).
  - rewrite filter_cons_False by done.
    destruct (IH Hnd) as [E|(y & Hy & Py & E)]; [by left|].
    right. exists y. split_and!; [by right|done|done].
Qed.

Lemma insert_log_room (now habit_id : Z) (log_date : text) (s : db) :
  has_room (seq_habit_logs s) (Log.id <$> habit_logs s) →
  insert_log now habit_id log_date s
  = Some (upsert_log now habit_id log_date s).
Proof. intros H. unfold insert_log. by rewrite decide_True. Qed.

Lemma insert_log_full (now habit_id : Z) (log_date : text) (s : db) :
  ¬ has_room (seq_habit_logs s) (Log.id <$> habit_logs s) →
  insert_log now habit_id log_date s = None.
Proof. intros H. unfold insert_log. by rewrite decide_False. Qed.

Lemma insert_log_Some (now habit_id : Z) (log_date : text) (s s' : db) :
  insert_log now habit_id log_date s = Some s' →
  has_room (seq_habit_logs s) (Log.id <$> habit_logs s)
  ∧ s' = upsert_log now habit_id log_date s.
Proof.
  unfold insert_log. destruct (decide _); [|done]. intros [= <-]. done.
Qed.

Lemma mark_done_Some (now habit_id : Z) (d : date) (s : db) (b : bool)
    (s' : db) :
  mark_done now habit_id d s = Some (b, s') →
  in_int64 habit_id
  ∧ has_room (seq_habit_logs s) (Log.id <$> habit_logs s)
  ∧ b = true ∧ s' = upsert_log now habit_id (isoformat d) s.
Proof.
  unfold mark_done. destruct (decide _) as [Hh|]; [|done].
  intros (s1 & [Hroom ->]%insert_log_Some & [= <- <-])%bind_Some. done.
Qed.

Lemma mark_done_for_user_cases (now user_id habit_id : Z) (target_date : date)
    (s : db) :
  NoDup (Habit.id <$> habits s) → in_int64 habit_id → in_int64 user_id →
  ((¬ ∃ h, h ∈ habits s ∧ owned_active user_id habit_id h)
   ∧ mark_done_for_user now user_id habit_id target_date s = Some (false, s))
  ∨ ((∃ h, h ∈ habits s ∧ owned_active user_id habit_id h)
     ∧ mark_done_for_user now user_id habit_id target_date s
       = (λ s', (true, s'))
           <$> insert_log now habit_id (isoformat target_date) s).
Proof.
  intros Hnd Hh Hu. unfold mark_done_for_user. rewrite decide_True by done.
  destruct (filter_unique_key Habit.id
              (λ h, Habit.id h = habit_id ∧ Habit.user_id h = user_id
                    ∧ Habit.is_active h = 1%Z) habit_id (habits s) Hnd)
    as [E|(h & Hin & Ph & E)]; [by intros ? [? _]| |].
  - left. rewrite E. split; [|done].
    intros (h & Hin & Ph).
    assert (h ∈ @nil Habit.row) as Hn; [|by apply elem_of_nil in Hn].
    rewrite <- E. by apply list_elem_of_filter.
  - right. rewrite E. split; [by exists h|]. cbn [foldl length mbind option_bind].
    destruct Ph as [-> _].
    by destruct (insert_log now habit_id (isoformat target_date) s).
Qed.

Lemma mark_done_for_user_Some (now user_id habit_id : Z) (d : date) (s : db)
    (b : bool) (s' : db) :
  mark_done_for_user now user_id habit_id d s = Some (b, s') →
  users s' = users s ∧ seq_users s' = seq_users s
  ∧ habits s' = habits s ∧ seq_habits s' = seq_habits s.
Proof.
  unfold mark_done_for_user. destruct (decide _); [|done].
  intros (s1 & H & [= _ <-])%bind_Some. revert H.
  generalize (filter (λ h, Habit.id h = habit_id ∧ Habit.user_id h = user_id
                           ∧ Habit.is_active h = 1%Z) (habits s)).
  intros sel. revert s. induction sel as [|h sel IH]; intros s.
  - by intros [= <-].
  - cbn [foldl mbind option_bind].
    destruct (insert_log now (Habit.id h) (isoformat d) s) as [s2|] eqn:E.
    + intros H%IH. apply insert_log_Some in E as [_ ->]. exact H.
    + intros H. exfalso. revert H. clear.
      induction sel as [|? ? IH]; [done|exact IH].
Qed.

Lemma mark_done_for_user_ids (now user_id habit_id : Z) (d : date) (s : db)
    (b : bool) (s' : db) :
  mark_done_for_user now user_id habit_id d s = Some (b, s') →
  in_int64 habit_id ∧ in_int64 user_id.
Proof. unfold mark_done_for_user. by destruct (decide _). Qed.

(** C10, as the code has it.  [mark_done] asks nothing about the habit:
    for every habit id that fits in 64 signed bits, with or without a
    [habits] row, active or not, whoever owns it, and for every date, when
    [habit_logs] still has a row id to give, it returns true and leaves a
    [habit_logs] row for the pair with [done = 1] (appended when the pair
    had no row, updated in place when it had one); the other tables are
    not touched. *)
Theorem mark_done_unscoped (now habit_id : Z) (target_date : date) (s : db) :
  in_int64 habit_id →
  has_room (seq_habit_logs s) (Log.id <$> habit_logs s) →
  ∃ s', mark_done now habit_id target_date s = Some (true, s')
    ∧ (∃ r, r ∈ habit_logs s'
            ∧ Log.habit_id r = habit_id
            ∧ Log.log_date r = isoformat target_date
            ∧ Log.done r = 1%Z)
    ∧ habit_logs s'
      = (if bool_decide ((habit_id, isoformat target_date)
                         ∈ log_key <$> habit_logs s)
         then (λ r, if bool_decide (Log.habit_id r = habit_id
                                    ∧ Log.log_date r = isoformat target_date)
                    then set_done 1 r else r) <$> habit_logs s
         else habit_logs s
              ++ [ {| Log.id := next_rowid (seq_habit_logs s)
                                           (Log.id <$> habit_logs s);
                      Log.habit_id := habit_id;
                      Log.log_date := isoformat target_date;
                      Log.done := 1; Log.created_at := now |} ])
    ∧ users s' = users s
    ∧ habits s' = habits s.
Proof.
  intros Hh Hroom. exists (upsert_log now habit_id (isoformat target_date) s).
  split_and!; try done.
  - unfold mark_done. rewrite decide_True by done.
    by rewrite insert_log_room.
  - apply upsert_log_marks.
  - case_bool_decide.
    + by apply upsert_log_update.
    + by apply upsert_log_insert.
Qed.

(** C10 as stated fails: a habit id that does not fit in 64 signed bits is
    refused when it is bound ([OverflowError]); nothing is returned and no
    row is written. *)
Lemma mark_done_refuses_wide_id :
  mark_done 0 9223372036854775808 738521%Z empty_db = None
  ∧ habit_logs (step 0 (MarkDone 9223372036854775808 738521%Z) empty_db) = [].
Proof. split; vm_compute; reflexivity. Qed.

(** [mark_done] for a habit id that no [habits] row carries. *)
Example mark_done_without_habit :
  habits empty_db = []
  ∧ mark_done 0 42 738521%Z empty_db
    = Some (true,
            with_habit_logs empty_db
              [ {| Log.id := 1; Log.habit_id := 42;
                   Log.log_date := lit "2023-01-01";
                   Log.done := 1; Log.created_at := 0 |} ] 1).
Proof. vm_compute. done. Qed.

(** ** The user upsert *)

Lemma find_snoc_fresh {A} (f : A → bool) (l : list A) (x : A) :
  (∀ y, y ∈ l → f y = false) → f x = true → List.find f (l ++ [x]) = Some x.
Proof.
  intros Hl Hx. induction l as [|y l IH]; simpl.
  - by rewrite Hx.
  - rewrite (Hl y) by left. apply IH. intros z Hz. apply Hl. by right.
Qed.

Lemma find_snoc_found {A} (f : A → bool) (l : list A) (x y : A) :
  List.find f l = Some y → List.find f (l ++ [x]) = Some y.
Proof.
  induction l as [|z l IH]; simpl; [done|]. by destruct (f z).
Qed.

Lemma find_fmap_stable {A} (f : A → bool) (g : A → A) (l : list A) :
  (∀ x, f (g x) = f x) → List.find f (g <$> l) = g <$> List.find f l.
Proof.
  intros Hfg. induction l as [|x l IH]; simpl; [done|].
  rewrite Hfg. by destruct (f x).
Qed.

Lemma find_existsb {A} (f : A → bool) (l : list A) :
  existsb f l = true → ∃ x, List.find f l = Some x ∧ x ∈ l ∧ f x = true.
Proof.
  induction l as [|y l IH]; simpl; [done|].
  destruct (f y) eqn:E; simpl.
  - intros _. exists y. split_and!; [done|left|done].
  - intros (x & ? & ? & ?)%IH. exists x. split_and!; [done|by right|done].
Qed.

Section upsert_user_stmt.
Context (now tg : Z) (name : option text) (s : db).

Let same (r : User.row) : bool := bool_decide (User.tg_user_id r = tg).
Let rowid : Z := next_rowid (seq_users s) (User.id <$> users s).

Lemma same_set_tg_username (v : option text) (r : User.row) :
  same (if same r then set_tg_username v r else r) = same r.
Proof. by destruct (same r) eqn:E. Qed.

(** First contact: a row is appended under a fresh id. *)
Lemma upsert_user_stmt_insert :
  tg ∉ User.tg_user_id <$> users s →
  upsert_user_stmt now tg name s
  = Some (rowid,
          with_users s
            (users s ++ [ {| User.id := rowid; User.tg_user_id := tg;
                             User.tg_username := name;
                             User.created_at := now |} ])
            rowid).
Proof.
  intros Hnew. unfold upsert_user_stmt.
  assert (Hnone : ∀ r, r ∈ users s → same r = false).
  { intros r Hr. apply bool_decide_eq_false. intros <-.
    apply Hnew, list_elem_of_fmap. by exists r. }
  replace (existsb _ (users s)) with false
    by (symmetry; by apply existsb_none).
  rewrite find_snoc_fresh; [done|done|].
  by apply bool_decide_eq_true.
Qed.

(** Later contacts: the row keeps its place and id, the name is
    replaced. *)
Lemma upsert_user_stmt_update :
  tg ∈ User.tg_user_id <$> users s →
  ∃ r, List.find same (users s) = Some r ∧ r ∈ users s
       ∧ User.tg_user_id r = tg
       ∧ upsert_user_stmt now tg name s
         = Some (User.id r,
                 with_users s
                   ((λ r, if same r then set_tg_username name r else r)
                      <$> users s)
                   rowid).
Proof.
  intros (r0 & E0 & Hr0)%list_elem_of_fmap. unfold upsert_user_stmt.
  assert (Hex : existsb same (users s) = true).
  { apply existsb_elem_of. exists r0. split; [done|].
    by apply bool_decide_eq_true. }
  destruct (find_existsb _ _ Hex) as (r & Hfind & Hr & Hsame).
  exists r. split_and!; [done|done|by apply bool_decide_eq_true in Hsame|].
  fold same. rewrite Hex.
  rewrite (find_fmap_stable same
             (λ r, if same r then set_tg_username name r else r))
    by apply same_set_tg_username.
  rewrite Hfind. simpl. by rewrite Hsame.
Qed.

Lemma upsert_user_stmt_total : is_Some (upsert_user_stmt now tg name s).
Proof.
  destruct (decide (tg ∈ User.tg_user_id <$> users s)) as [Hin|Hin].
  - destruct (upsert_user_stmt_update Hin) as (r & _ & _ & _ & ->). done.
  - by rewrite upsert_user_stmt_insert.
Qed.

Lemma upsert_user_stmt_other_tables (uid : Z) (s' : db) :
  upsert_user_stmt now tg name s = Some (uid, s') →
  habits s' = habits s ∧ seq_habits s' = seq_habits s
  ∧ habit_logs s' = habit_logs s ∧ seq_habit_logs s' = seq_habit_logs s.
Proof.
  unfold upsert_user_stmt. intros H. apply bind_Some in H as (r & _ & H).
  by inversion H.
Qed.

Lemma upsert_user_stmt_wf (uid : Z) (s' : db) :
  db_wf s → upsert_user_stmt now tg name s = Some (uid, s') → db_wf s'.
Proof.
  intros [H1 H2 H3 H4 H5 H6] E.
  destruct (decide (tg ∈ User.tg_user_id <$> users s)) as [Hin|Hin].
  - destruct (upsert_user_stmt_update Hin) as (r & _ & _ & _ & E').
    rewrite E' in E. inversion E; subst. split; try done; simpl.
    + rewrite <- list_fmap_compose.
      erewrite (Forall_fmap_ext_1 _ User.id); [done|].
      apply Forall_forall. intros x _. simpl. by destruct (same x).
    + rewrite <- list_fmap_compose.
      erewrite (Forall_fmap_ext_1 _ User.tg_user_id); [done|].
      apply Forall_forall. intros x _. simpl. by destruct (same x).
  - rewrite upsert_user_stmt_insert in E by done. inversion E; subst.
    split; try done; simpl; rewrite fmap_app; simpl.
    + apply NoDup_snoc; [apply next_rowid_fresh|done].
    + by apply NoDup_snoc.
Qed.

End upsert_user_stmt.

Lemma upsert_user_bound (now tg : Z) (name : option text) (s : db) :
  in_int64 tg → bindable name →
  has_room (seq_users s) (User.id <$> users s) →
  upsert_user now tg name s = upsert_user_stmt now tg name s.
Proof. intros. unfold upsert_user. by rewrite decide_True. Qed.

Lemma upsert_user_Some (now tg : Z) (name : option text) (s : db)
    (uid : Z) (s' : db) :
  upsert_user now tg name s = Some (uid, s') →
  in_int64 tg ∧ bindable name
  ∧ has_room (seq_users s) (User.id <$> users s)
  ∧ upsert_user_stmt now tg name s = Some (uid, s').
Proof.
  unfold upsert_user. destruct (decide _) as [(?&?&?)|]; [|done]. done.
Qed.

Lemma upsert_user_raises (now tg : Z) (name : option text) (s : db) :
  upsert_user now tg name s = None
  ↔ ¬ (in_int64 tg ∧ bindable name
       ∧ has_room (seq_users s) (User.id <$> users s)).
Proof.
  unfold upsert_user. destruct (decide _) as [H|H].
  - split; [|done]. intros E.
    by destruct (upsert_user_stmt_total now tg name s) as [x Hx]; rewrite Hx in E.
  - done.
Qed.

Lemma add_habit_bound (now user_id : Z) (title : text) (s : db) :
  in_int64 user_id → encodable (strip title) →
  has_room (seq_habits s) (Habit.id <$> habits s) →
  add_habit now user_id title s = Some (insert_habit now user_id title s).
Proof. intros. unfold add_habit. by rewrite decide_True. Qed.

Lemma add_habit_Some (now user_id : Z) (title : text) (s : db)
    (hid : Z) (s' : db) :
  add_habit now user_id title s = Some (hid, s') →
  in_int64 user_id ∧ encodable (strip title)
  ∧ has_room (seq_habits s) (Habit.id <$> habits s)
  ∧ insert_habit now user_id title s = (hid, s').
Proof.
  unfold add_habit. destruct (decide _) as [(?&?&?)|]; [|done].
  intros E. split_and!; try done. congruence.
Qed.

Lemma list_habits_bound (user_id : Z) (s : db) :
  in_int64 user_id → list_habits user_id s = Some (select_habits user_id s).
Proof. intros. unfold list_habits. by rewrite decide_True. Qed.

Lemma list_habits_Some (user_id : Z) (s : db) (hs : list (Z * text)) :
  list_habits user_id s = Some hs →
  in_int64 user_id ∧ hs = select_habits user_id s.
Proof.
  unfold list_habits. destruct (decide _); [|done]. by intros [= <-].
Qed.

(** A call on the store that raises leaves the store as it was; one that
    returns leaves what its statement wrote. *)
Lemma step_cases (now : Z) (o : op) (s : db) :
  step now o s = s
  ∨ match o with
    | UpsertUser tg name =>
        ∃ uid, upsert_user_stmt now tg name s = Some (uid, step now o s)
    | AddHabit u t => step now o s = (insert_habit now u t s).2
    | MarkDone h d => step now o s = upsert_log now h (isoformat d) s
    | MarkDoneForUser u h d =>
        ∃ b, mark_done_for_user now u h d s = Some (b, step now o s)
    | ToggleDone u h d => step now o s = (toggle_done_for_user now u h d s).2
    | Deactivate u h => step now o s = (deactivate_habit_for_user u h s).2
    end.
Proof.
  destruct o as [tg name|u t|h d|u h d|u h d|u h]; cbn [step].
  - destruct (upsert_user now tg name s) as [[uid s']|] eqn:E; [|by left].
    right. exists uid. by apply upsert_user_Some in E as (_ & _ & _ & E).
  - destruct (add_habit now u t s) as [[hid s']|] eqn:E; [|by left].
    right. apply add_habit_Some in E as (_ & _ & _ & E). by rewrite E.
  - destruct (mark_done now h d s) as [[b s']|] eqn:E; [|by left].
    right. by apply mark_done_Some in E as (_ & _ & _ & ->).
  - destruct (mark_done_for_user now u h d s) as [[b s']|] eqn:E; [|by left].
    right. by exists b.
  - by right.
  - by right.
Qed.

Lemma toggle_done_for_user_users (now user_id habit_id : Z) (d : date) (s : db) :
  users (toggle_done_for_user now user_id habit_id d s).2 = users s.
Proof.
  unfold toggle_done_for_user.
  destruct (existsb _ (habits s)); [|done]. by destruct (is_done _ _ s).
Qed.

Lemma lookup_through_rename (tg tg2 : Z) (v : option text) (r : User.row) :
  bool_decide
    (User.tg_user_id (if bool_decide (User.tg_user_id r = tg2)
                      then set_tg_username v r else r) = tg)
  = bool_decide (User.tg_user_id r = tg).
Proof. by destruct (bool_decide (User.tg_user_id r = tg2)) eqn:E. Qed.

Lemma upsert_user_stmt_known (now tg : Z) (name : option text) (s : db)
    (r : User.row) :
  lookup_user tg s = Some r →
  ∃ s', upsert_user_stmt now tg name s = Some (User.id r, s')
        ∧ lookup_user tg s' = Some (set_tg_username name r)
        ∧ ∀ x, x ∈ users s' → User.tg_user_id x = tg → User.tg_username x = name.
Proof.
  intros Hr. unfold lookup_user in Hr.
  destruct (find_some _ _ Hr) as [Hin%list_elem_of_In Htg%bool_decide_eq_true].
  assert (Hmem : tg ∈ User.tg_user_id <$> users s)
    by (apply list_elem_of_fmap; by exists r).
  destruct (upsert_user_stmt_update now tg name s Hmem) as (r' & Hf & _ & _ & E).
  rewrite Hr in Hf. inversion Hf; subst r'.
  eexists. split; [exact E|]. split.
  - unfold lookup_user. simpl.
    rewrite (find_fmap_stable _
               (λ r, if bool_decide (User.tg_user_id r = tg)
                     then set_tg_username name r else r))
      by (intros x; apply lookup_through_rename).
    rewrite Hr. simpl. by rewrite bool_decide_eq_true_2.
  - simpl. intros x (x0 & -> & _)%list_elem_of_fmap.
    case_bool_decide; [done|]. by intros ?.
Qed.

(** No call removes a user or changes the id under which an external id
    is known. *)
Lemma step_keeps_user (now : Z) (o : op) (tg : Z) (s : db) (r : User.row) :
  lookup_user tg s = Some r →
  ∃ r', lookup_user tg (step now o s) = Some r' ∧ User.id r' = User.id r.
Proof.
  intros Hr. destruct (step_cases now o s) as [->|H]; [by exists r|].
  destruct o as [tg2 name2| | | | |].
  - destruct H as [uid E]. set (s' := step _ _ _) in *. clearbody s'.
    destruct (decide (tg2 ∈ User.tg_user_id <$> users s)) as [Hin|Hin].
    + destruct (upsert_user_stmt_update now tg2 name2 s Hin) as (x & _ & _ & _ & E').
      rewrite E' in E. injection E as _ <-. unfold lookup_user in *. simpl.
      rewrite (find_fmap_stable _
                 (λ r, if bool_decide (User.tg_user_id r = tg2)
                       then set_tg_username name2 r else r))
        by (intros y; apply lookup_through_rename).
      rewrite Hr. simpl. eexists. split; [done|]. by case_bool_decide.
    + rewrite upsert_user_stmt_insert in E by done. injection E as _ <-.
      exists r. split; [|done].
      unfold lookup_user in *. simpl. by apply find_snoc_found.
  - rewrite H. by exists r.
  - rewrite H. by exists r.
  - destruct H as [b (Hu & _)%mark_done_for_user_Some].
    exists r. split; [|done]. unfold lookup_user. by rewrite Hu.
  - rewrite H. exists r. split; [|done]. unfold lookup_user.
    by rewrite toggle_done_for_user_users.
  - rewrite H. by exists r.
Qed.

Lemma run_keeps_user (calls : list (Z * op)) (tg : Z) (s : db) (r : User.row) :
  lookup_user tg s = Some r →
  ∃ r', lookup_user tg (run calls s) = Some r' ∧ User.id r' = User.id r.
Proof.
  revert s r. induction calls as [|[now o] calls IH]; intros s r Hr.
  - by exists r.
  - destruct (step_keeps_user now o tg s r Hr) as (r1 & H1 & E1).
    destruct (IH _ _ H1) as (r2 & H2 & E2).
    exists r2. split; [done|]. by rewrite E2.
Qed.

(** C7, as the code has it.  For an external id that fits in 64 signed
    bits and a name that SQLite can store, while [users] has a row id to
    give: the first [upsert_user] for the external id appends a user row
    and returns its id, which no row had before; whatever calls follow,
    every later [upsert_user] for that external id returns the same id and
    leaves the latest name, and only it, under that external id. *)
Theorem upsert_user_stable_identity (now tg : Z) (name : option text) (s : db) :
  tg ∉ User.tg_user_id <$> users s →
  in_int64 tg → bindable name →
  has_room (seq_users s) (User.id <$> users s) →
  ∃ uid s1,
    upsert_user now tg name s = Some (uid, s1)
    ∧ (uid ∉ User.id <$> users s)
    ∧ users s1 = users s ++ [ {| User.id := uid; User.tg_user_id := tg;
                                 User.tg_username := name;
                                 User.created_at := now |} ]
    ∧ ∀ calls now' name',
        bindable name' →
        has_room (seq_users (run calls s1)) (User.id <$> users (run calls s1)) →
        ∃ s3, upsert_user now' tg name' (run calls s1) = Some (uid, s3)
              ∧ (∃ r, lookup_user tg s3 = Some r ∧ User.id r = uid
                      ∧ User.tg_username r = name')
              ∧ (∀ r, r ∈ users s3 → User.tg_user_id r = tg
                      → User.tg_username r = name').
Proof.
  intros Hnew Htg Hname Hroom. eexists _, _.
  split; [rewrite upsert_user_bound by done; by apply upsert_user_stmt_insert|].
  split; [apply next_rowid_fresh|]. split; [done|].
  intros calls now' name' Hname' Hroom'.
  set (s1 := with_users _ _ _) in *.
  assert (H1 : lookup_user tg s1
               = Some {| User.id := next_rowid (seq_users s) (User.id <$> users s);
                         User.tg_user_id := tg; User.tg_username := name;
                         User.created_at := now |}).
  { unfold lookup_user. simpl. apply find_snoc_fresh.
    - intros y Hy. apply bool_decide_eq_false. intros <-.
      apply Hnew, list_elem_of_fmap. by exists y.
    - by apply bool_decide_eq_true. }
  destruct (run_keeps_user calls tg s1 _ H1) as (r2 & H2 & E2). simpl in E2.
  destruct (upsert_user_stmt_known now' tg name' _ r2 H2) as (s3 & E3 & L3 & A3).
  exists s3. rewrite E2 in E3. rewrite upsert_user_bound by done.
  split; [done|]. split; [|done].
  eexists. split; [exact L3|]. by split.
Qed.

(** C7 as stated fails: an external id that does not fit in 64 signed bits
    is refused when it is bound ([OverflowError]); the first call creates
    no row and returns no id. *)
Lemma upsert_user_refuses_wide_id :
  upsert_user 10 9223372036854775808 (Some (lit "ann")) empty_db = None
  ∧ users (step 10 (UpsertUser 9223372036854775808 (Some (lit "ann")))
             empty_db) = [].
Proof. split; vm_compute; reflexivity. Qed.

Example upsert_user_twice :
  (upsert_user 10 1001 (Some (lit "ann")) empty_db
     ≫= λ p, upsert_user 11 1001 (Some (lit "anna")) p.2)
  = Some (1%Z,
          {| users := [ {| User.id := 1; User.tg_user_id := 1001;
                           User.tg_username := Some (lit "anna");
                           User.created_at := 10 |} ];
             seq_users := 2; habits := []; seq_habits := 0;
             habit_logs := []; seq_habit_logs := 0 |}).
Proof. vm_compute. reflexivity. Qed.

(** One more [mark_done_for_user] writes, when it writes, the row of its
    pair. *)
Lemma mark_done_for_user_step (now user_id habit_id : Z) (d : date) (s : db) :
  NoDup (Habit.id <$> habits s) →
  step now (MarkDoneForUser user_id habit_id d) s = s
  ∨ step now (MarkDoneForUser user_id habit_id d) s
    = upsert_log now habit_id (isoformat d) s.
Proof.
  intros Hnd. cbn [step].
  destruct (mark_done_for_user now user_id habit_id d s) as [[b s']|] eqn:E;
    [|by left].
  destruct (mark_done_for_user_ids _ _ _ _ _ _ _ E) as [Hh Hu].
  destruct (mark_done_for_user_cases now user_id habit_id d s Hnd Hh Hu)
    as [[_ E']|[_ E']]; rewrite E' in E.
  - left. by injection E as _ <-.
  - right. destruct (insert_log now habit_id (isoformat d) s) as [s1|] eqn:E1;
      [|done].
    apply insert_log_Some in E1 as [_ ->]. by injection E as _ <-.
Qed.

(** Marking again a pair that has its row changes no row, however often
    it is done. *)
Lemma mark_done_for_user_again (user_id habit_id : Z) (d : date)
    (clock : list Z) (s : db) :
  db_wf s → (habit_id, isoformat d) ∈ log_key <$> habit_logs s →
  let again :=
    run ((λ now', (now', MarkDoneForUser user_id habit_id d)) <$> clock) s in
  habit_logs again = habit_logs s
  ∧ habits again = habits s ∧ users again = users s.
Proof.
  revert s. induction clock as [|now' clock IH]; intros s Hwf Hin; [done|].
  cbn zeta in *. rewrite fmap_cons. unfold run in *. cbn [foldl fst snd].
  destruct (mark_done_for_user_step now' user_id habit_id d s
              (wf_habit_ids s Hwf)) as [->| ->]; [by apply IH|].
  pose proof (upsert_log_confirm now' habit_id (isoformat d) s Hin
                (wf_log_done s Hwf)) as Hsame.
  destruct (IH (upsert_log now' habit_id (isoformat d) s)) as (H1 & H2 & H3).
  - by apply upsert_log_wf.
  - by rewrite Hsame.
  - by rewrite H1, H2, H3, Hsame.
Qed.

(** C2, as the code has it.  For ids that fit in 64 signed bits,
    [mark_done_for_user] returns false and changes nothing when no habit
    with that id exists, is active and belongs to the user; when there is
    one and [habit_logs] still has a row id to give, it returns true,
    whether the pair already had a log row or not, the pair then has a done
    row, a further call (made while a row id is left) returns true, and
    any number of further calls leaves the rows of [habit_logs] and the
    other tables as they are. *)
Theorem mark_done_for_user_idempotent (now user_id habit_id : Z)
    (target_date : date) (s : db) :
  db_wf s → in_int64 user_id → in_int64 habit_id →
  ((¬ ∃ h, h ∈ habits s ∧ owned_active user_id habit_id h) →
   mark_done_for_user now user_id habit_id target_date s = Some (false, s))
  ∧ ((∃ h, h ∈ habits s ∧ owned_active user_id habit_id h) →
     has_room (seq_habit_logs s) (Log.id <$> habit_logs s) →
     ∃ s1,
       mark_done_for_user now user_id habit_id target_date s = Some (true, s1)
       ∧ (∃ row, row ∈ habit_logs s1 ∧ Log.habit_id row = habit_id
                 ∧ Log.log_date row = isoformat target_date
                 ∧ Log.done row = 1%Z)
       ∧ (∀ now',
            has_room (seq_habit_logs s1) (Log.id <$> habit_logs s1) →
            ∃ s2,
              mark_done_for_user now' user_id habit_id target_date s1
              = Some (true, s2)
              ∧ habit_logs s2 = habit_logs s1
              ∧ habits s2 = habits s1 ∧ users s2 = users s1)
       ∧ ∀ clock : list Z,
           let again :=
             run ((λ now', (now', MarkDoneForUser user_id habit_id target_date))
                    <$> clock) s1 in
           habit_logs again = habit_logs s1
           ∧ habits again = habits s1 ∧ users again = users s1).
Proof.
  intros Hwf Hu Hh.
  destruct (mark_done_for_user_cases now user_id habit_id target_date s
              (wf_habit_ids s Hwf) Hh Hu) as [[Hno E]|[Hyes E]].
  - split; [done|]. by intros ?%Hno.
  - split; [by intros []|]. intros _ Hroom.
    rewrite E, insert_log_room by done.
    eexists. split; [reflexivity|]. split; [apply upsert_log_marks|]. split.
    + intros now' Hroom'.
      destruct (mark_done_for_user_cases now' user_id habit_id target_date
                  (upsert_log now habit_id (isoformat target_date) s)
                  (wf_habit_ids s Hwf) Hh Hu) as [[Hno' _]|[_ E']].
      * by destruct Hno'.
      * rewrite E', insert_log_room by done.
        eexists. split; [reflexivity|]. split_and!; try done.
        apply upsert_log_idem.
    + intros clock. apply mark_done_for_user_again.
      * by apply upsert_log_wf.
      * destruct (upsert_log_marks now habit_id (isoformat target_date) s)
          as (r & Hr & Hk1 & Hk2 & _).
        apply list_elem_of_fmap. exists r. split; [|done].
        unfold log_key. by rewrite Hk1, Hk2.
Qed.

(** C2 as stated fails: with a user id that does not fit in 64 signed
    bits, [mark_done_for_user] does not return false, it raises
    ([OverflowError]). *)
Lemma mark_done_for_user_refuses_wide_id :
  (¬ ∃ h, h ∈ habits sample_db ∧ owned_active 9223372036854775808 1 h)
  ∧ mark_done_for_user 0 9223372036854775808 1 738886%Z sample_db = None.
Proof.
  split; [|vm_compute; reflexivity].
  intros (h & Hh & _ & Hu & _). revert Hh. vm_compute.
  intros ->%list_elem_of_singleton. discriminate Hu.
Qed.

(** ** The invariants hold in every reachable state *)

Lemma empty_db_wf : db_wf empty_db.
Proof. split; simpl; constructor. Qed.

Lemma insert_habit_wf (now user_id : Z) (title : text) (s : db) :
  db_wf s → db_wf (insert_habit now user_id title s).2.
Proof.
  intros [H1 H2 H3 H4 H5 H6]. split; try done. simpl.
  rewrite fmap_app. apply NoDup_snoc; [apply next_rowid_fresh|done].
Qed.

Lemma deactivate_habit_ids (user_id habit_id : Z) (s : db) :
  Habit.id <$> habits (deactivate_habit_for_user user_id habit_id s).2
  = Habit.id <$> habits s.
Proof.
  simpl. rewrite <- list_fmap_compose.
  apply Forall_fmap_ext_1, Forall_forall. intros h _. simpl.
  by destruct (bool_decide _).
Qed.

Lemma deactivate_habit_wf (user_id habit_id : Z) (s : db) :
  db_wf s → db_wf (deactivate_habit_for_user user_id habit_id s).2.
Proof.
  intros [H1 H2 H3 H4 H5 H6]. split; try done.
  by rewrite deactivate_habit_ids.
Qed.

(** What holds before the [INSERT ... SELECT] of [mark_done_for_user] and
    is kept by the upsert of one row holds after it. *)
Lemma mark_done_for_user_keeps (P : db → Prop) (now user_id habit_id : Z)
    (d : date) (s : db) (b : bool) (s' : db) :
  (∀ s0, P s0 → P (upsert_log now habit_id (isoformat d) s0)) →
  mark_done_for_user now user_id habit_id d s = Some (b, s') →
  P s → P s'.
Proof.
  intros HP. unfold mark_done_for_user. destruct (decide _); [|done].
  intros (s1 & H & [= _ <-])%bind_Some. revert H.
  assert (Hsel : Forall (λ h, Habit.id h = habit_id)
                   (filter (λ h, Habit.id h = habit_id
                                 ∧ Habit.user_id h = user_id
                                 ∧ Habit.is_active h = 1%Z) (habits s))).
  { apply Forall_forall. by intros h [[? _] _]%list_elem_of_filter. }
  revert Hsel. generalize (filter (λ h, Habit.id h = habit_id
                                        ∧ Habit.user_id h = user_id
                                        ∧ Habit.is_active h = 1%Z) (habits s)).
  intros sel. revert s. induction sel as [|h sel IH]; intros s Hsel.
  - by intros [= <-].
  - apply Forall_cons in Hsel as [Eh Hsel]. cbn [foldl mbind option_bind].
    rewrite Eh.
    destruct (insert_log now habit_id (isoformat d) s) as [s2|] eqn:E.
    + apply insert_log_Some in E as [_ ->]. intros H Hs.
      eapply IH; [done|exact H|]. by apply HP.
    + intros H. exfalso. revert H. clear.
      induction sel as [|? ? IH]; [done|exact IH].
Qed.

Lemma toggle_done_for_user_wf (now user_id habit_id : Z) (d : date) (s : db) :
  db_wf s → db_wf (toggle_done_for_user now user_id habit_id d s).2.
Proof.
  intros Hwf. unfold toggle_done_for_user.
  destruct (existsb _ (habits s)); [|done].
  destruct (is_done _ _ s); [|by apply upsert_log_wf].
  destruct Hwf as [H1 H2 H3 H4 H5 H6]. split; try done; simpl.
  - eapply sublist_NoDup; [exact H4|]. apply fmap_sublist, sublist_filter.
  - eapply sublist_NoDup; [exact H5|]. apply fmap_sublist, sublist_filter.
  - apply Forall_forall. intros r [_ Hr]%list_elem_of_filter.
    by eapply Forall_forall in H6.
Qed.

Lemma step_wf (now : Z) (o : op) (s : db) : db_wf s → db_wf (step now o s).
Proof.
  intros Hwf. destruct (step_cases now o s) as [->|H]; [done|].
  destruct o as [tg name|u t|h d|u h d|u h d|u h].
  - destruct H as [uid E]. by eapply upsert_user_stmt_wf.
  - rewrite H. by apply insert_habit_wf.
  - rewrite H. by apply upsert_log_wf.
  - destruct H as [b E].
    eapply (mark_done_for_user_keeps db_wf); [|exact E|done].
    intros s0. apply upsert_log_wf.
  - rewrite H. by apply toggle_done_for_user_wf.
  - rewrite H. by apply deactivate_habit_wf.
Qed.

Lemma reachable_wf (s : db) : reachable s → db_wf s.
Proof.
  induction 1 as [|now o s _ IH]; [apply empty_db_wf|by apply step_wf].
Qed.

(** ** The integers of a reachable store fit in 64 bits *)

Lemma has_room_fits (seq : Z) (ids : list Z) :
  has_room seq ids → in_int64 (next_rowid seq ids).
Proof.
  unfold has_room, MAX_ROWID, in_int64. intros H.
  pose proof (next_rowid_positive seq ids). lia.
Qed.

Lemma upsert_log_fits (now habit_id : Z) (d : text) (s : db) :
  in_int64 habit_id → db_fits s → db_fits (upsert_log now habit_id d s).
Proof.
  intros Hh [H1 H2 H3 H4]. split; try done.
  destruct (decide ((habit_id, d) ∈ log_key <$> habit_logs s)) as [Hin|Hin].
  - rewrite upsert_log_update by done. rewrite <- list_fmap_compose.
    erewrite (Forall_fmap_ext_1 _ Log.habit_id); [done|].
    apply Forall_forall. intros r _. simpl. by destruct (bool_decide _).
  - rewrite upsert_log_insert by done. rewrite fmap_app.
    apply Forall_app. split; [done|]. by apply Forall_singleton.
Qed.

Lemma upsert_user_fits (now tg : Z) (name : option text) (s : db) (uid : Z)
    (s' : db) :
  upsert_user now tg name s = Some (uid, s') → db_fits s → db_fits s'.
Proof.
  intros (_ & _ & Hroom & E)%upsert_user_Some [H1 H2 H3 H4].
  destruct (decide (tg ∈ User.tg_user_id <$> users s)) as [Hin|Hin].
  - destruct (upsert_user_stmt_update now tg name s Hin) as (r & _ & _ & _ & E').
    rewrite E' in E. injection E as _ <-. split; try done. simpl.
    rewrite <- list_fmap_compose.
    erewrite (Forall_fmap_ext_1 _ User.id); [done|].
    apply Forall_forall. intros x _. simpl. by destruct (bool_decide _).
  - rewrite upsert_user_stmt_insert in E by done. injection E as _ <-.
    split; try done. simpl. rewrite fmap_app. apply Forall_app.
    split; [done|]. apply Forall_singleton. by apply has_room_fits.
Qed.

Lemma add_habit_fits (now user_id : Z) (title : text) (s : db) (hid : Z)
    (s' : db) :
  add_habit now user_id title s = Some (hid, s') → db_fits s → db_fits s'.
Proof.
  intros (Hu & _ & Hroom & E)%add_habit_Some [H1 H2 H3 H4].
  injection E as _ <-. split; try done; simpl; rewrite fmap_app;
    (apply Forall_app; split; [done|]); apply Forall_singleton; [|done].
  by apply has_room_fits.
Qed.

Lemma owned_active_exists (user_id habit_id : Z) (s : db) :
  existsb (λ h, bool_decide (owned_active user_id habit_id h)) (habits s) = true
  ↔ ∃ h, h ∈ habits s ∧ owned_active user_id habit_id h.
Proof.
  rewrite existsb_elem_of. by setoid_rewrite bool_decide_eq_true.
Qed.

Lemma toggle_done_for_user_fits (now user_id habit_id : Z) (d : date) (s : db) :
  db_fits s → db_fits (toggle_done_for_user now user_id habit_id d s).2.
Proof.
  intros Hf. unfold toggle_done_for_user.
  destruct (existsb _ (habits s)) eqn:Ex; [|done].
  destruct (is_done _ _ s).
  - destruct Hf as [H1 H2 H3 H4]. split; try done. simpl.
    rewrite Forall_fmap, Forall_forall in H4.
    apply Forall_fmap, Forall_forall. intros r [_ Hr]%list_elem_of_filter.
    by apply H4.
  - apply upsert_log_fits; [|done].
    apply owned_active_exists in Ex as (h & Hh & <- & _).
    destruct Hf as [_ H2 _ _]. rewrite Forall_fmap, Forall_forall in H2.
    by apply H2.
Qed.

Lemma deactivate_habit_fits (user_id habit_id : Z) (s : db) :
  db_fits s → db_fits (deactivate_habit_for_user user_id habit_id s).2.
Proof.
  intros [H1 H2 H3 H4]. split; try done.
  - by rewrite deactivate_habit_ids.
  - simpl. rewrite <- list_fmap_compose.
    erewrite (Forall_fmap_ext_1 _ Habit.user_id); [done|].
    apply Forall_forall. intros h _. simpl. by destruct (bool_decide _).
Qed.

Lemma step_fits (now : Z) (o : op) (s : db) : db_fits s → db_fits (step now o s).
Proof.
  intros Hf. destruct o as [tg name|u t|h d|u h d|u h d|u h]; cbn [step].
  - destruct (upsert_user now tg name s) as [[uid s']|] eqn:E; [|done].
    by eapply upsert_user_fits.
  - destruct (add_habit now u t s) as [[hid s']|] eqn:E; [|done].
    by eapply add_habit_fits.
  - destruct (mark_done now h d s) as [[b s']|] eqn:E; [|done].
    apply mark_done_Some in E as (Hh & _ & _ & ->). by apply upsert_log_fits.
  - destruct (mark_done_for_user now u h d s) as [[b s']|] eqn:E; [|done].
    destruct (mark_done_for_user_ids _ _ _ _ _ _ _ E) as [Hh _].
    eapply (mark_done_for_user_keeps db_fits); [|exact E|done].
    intros s0. by apply upsert_log_fits.
  - by apply toggle_done_for_user_fits.
  - by apply deactivate_habit_fits.
Qed.

Lemma reachable_fits (s : db) : reachable s → db_fits s.
Proof.
  induction 1 as [|now o s _ IH]; [|by apply step_fits].
  split; simpl; constructor.
Qed.

(** ** One log row per (habit, date) *)

Lemma upsert_log_unique (now habit_id : Z) (d : text) (s : db) :
  logs_unique s → logs_unique (upsert_log now habit_id d s).
Proof.
  unfold logs_unique. intros H. rewrite upsert_log_keys.
  case_bool_decide; [done|]. by apply NoDup_snoc.
Qed.

(** The uniqueness of log rows is preserved by every call on its own,
    whatever the other tables hold. *)
Lemma step_unique (now : Z) (o : op) (s : db) :
  logs_unique s → logs_unique (step now o s).
Proof.
  intros Hs. destruct (step_cases now o s) as [->|H]; [done|].
  destruct o as [tg name|u t|h d|u h d|u h d|u h].
  - destruct H as [uid E]. unfold logs_unique.
    by destruct (upsert_user_stmt_other_tables _ _ _ _ _ _ E) as (_ & _ & -> & _).
  - by rewrite H.
  - rewrite H. by apply upsert_log_unique.
  - destruct H as [b E].
    eapply (mark_done_for_user_keeps logs_unique); [|exact E|done].
    intros s0. apply upsert_log_unique.
  - rewrite H. unfold toggle_done_for_user.
    destruct (existsb _ (habits s)); [|done].
    destruct (is_done _ _ s); [|by apply upsert_log_unique].
    unfold logs_unique. simpl.
    eapply sublist_NoDup; [exact Hs|]. apply fmap_sublist, sublist_filter.
  - by rewrite H.
Qed.

(** C3. In every reachable state [habit_logs] holds at most one row per
    (habit_id, log_date); every call ([mark_done], [mark_done_for_user],
    the toggle and the others) keeps it so, from any state where it holds;
    and marking a pair that already has its row, while the table has a row
    id to give, succeeds without adding a row: the conflict is resolved by
    the update. *)
Theorem habit_logs_one_row_per_day (s : db) :
  reachable s →
  logs_unique s
  ∧ (∀ now o, logs_unique (step now o s))
  ∧ (∀ s' now o, logs_unique s' → logs_unique (step now o s'))
  ∧ (∀ now habit_id d,
       (habit_id, isoformat d) ∈ log_key <$> habit_logs s →
       has_room (seq_habit_logs s) (Log.id <$> habit_logs s) →
       ∃ s', mark_done now habit_id d s = Some (true, s')
             ∧ habit_logs s' = habit_logs s)
  ∧ (∀ now user_id habit_id d,
       (habit_id, isoformat d) ∈ log_key <$> habit_logs s →
       in_int64 user_id →
       has_room (seq_habit_logs s) (Log.id <$> habit_logs s) →
       ∃ b s', mark_done_for_user now user_id habit_id d s = Some (b, s')
               ∧ habit_logs s' = habit_logs s).
Proof.
  intros Hr. pose proof (reachable_wf s Hr) as Hwf.
  pose proof (reachable_fits s Hr) as Hf.
  assert (Hkey : ∀ habit_id d,
            (habit_id, d) ∈ log_key <$> habit_logs s → in_int64 habit_id).
  { intros habit_id d (r & [= -> _] & Hin)%list_elem_of_fmap.
    destruct Hf as [_ _ _ H4]. rewrite Forall_fmap, Forall_forall in H4.
    by apply H4. }
  split_and!.
  - apply Hwf.
  - intros now o. apply step_unique, Hwf.
  - intros s' now o. apply step_unique.
  - intros now habit_id d Hin Hroom. eexists. split.
    + unfold mark_done. rewrite decide_True by by eapply Hkey.
      by rewrite insert_log_room.
    + apply upsert_log_confirm; [done|apply Hwf].
  - intros now user_id habit_id d Hin Hu Hroom.
    destruct (mark_done_for_user_cases now user_id habit_id d s
                (wf_habit_ids s Hwf)) as [[_ ->]|[_ ->]];
      [by eapply Hkey|done|by eexists _, _| ].
    rewrite insert_log_room by done. eexists _, _. split; [done|].
    apply upsert_log_confirm; [done|apply Hwf].
Qed.

Lemma sample_db_reachable : reachable sample_db.
Proof. unfold sample_db. apply reach_step, reach_step, reach_init. Defined.

Lemma sample_marked_reachable : reachable sample_marked.
Proof. unfold sample_marked. apply reach_step, sample_db_reachable. Defined.

(** ** Stripping *)

Lemma lstrip_idem (s : text) : lstrip (lstrip s) = lstrip s.
Proof.
  induction s as [|c s IH]; simpl; [done|].
  destruct (isspace c) eqn:E; [done|]. simpl. by rewrite E.
Qed.

Lemma lstrip_snoc (s : text) (c : N) :
  isspace c = false → lstrip (s ++ [c]) = lstrip s ++ [c].
Proof.
  intros Hc. induction s as [|x s IH]; simpl.
  - by rewrite Hc.
  - by destruct (isspace x).
Qed.

(** A text that starts with no white space still does so after
    [rstrip]. *)
Lemma lstrip_rstrip (s : text) : lstrip s = s → lstrip (rstrip s) = rstrip s.
Proof.
  destruct s as [|c s]; [done|]. simpl.
  destruct (isspace c) eqn:E.
  - intros H. exfalso.
    assert (length (lstrip s) ≤ length s) as Hlen.
    { clear. induction s as [|x s IH]; simpl; [done|].
      destruct (isspace x); simpl; lia. }
    rewrite H in Hlen. simpl in Hlen. lia.
  - intros _. unfold rstrip. rewrite reverse_cons, lstrip_snoc by done.
    rewrite reverse_app. simpl. by rewrite E.
Qed.

Lemma strip_idem (s : text) : strip (strip s) = strip s.
Proof.
  unfold strip. rewrite lstrip_rstrip by apply lstrip_idem.
  unfold rstrip. by rewrite reverse_involutive, lstrip_idem.
Qed.

(** ** Habits: adding, listing, deactivating *)

Lemma with_habits_same (s : db) : with_habits s (habits s) (seq_habits s) = s.
Proof. by destruct s. Qed.

Lemma select_habits_perm (user_id : Z) (s : db) :
  select_habits user_id s
  ≡ₚ (λ h, (Habit.id h, Habit.title h))
       <$> filter (λ h, Habit.user_id h = user_id ∧ Habit.is_active h = 1%Z)
                  (habits s).
Proof. unfold select_habits. by rewrite merge_sort_Permutation. Qed.

Lemma select_habits_elem (user_id : Z) (s : db) (i : Z) (t : text) :
  (i, t) ∈ select_habits user_id s
  ↔ ∃ h, h ∈ habits s ∧ Habit.id h = i ∧ Habit.title h = t
         ∧ Habit.user_id h = user_id ∧ Habit.is_active h = 1%Z.
Proof.
  rewrite select_habits_perm, list_elem_of_fmap. split.
  - intros (h & E & [[Hu Ha] Hh]%list_elem_of_filter). inversion E; subst.
    by exists h.
  - intros (h & Hh & <- & <- & Hu & Ha). exists h. split; [done|].
    by apply list_elem_of_filter.
Qed.

(** The listing comes in ascending id order. *)
Lemma select_habits_sorted (user_id : Z) (s : db) :
  Sorted Z.le (fst <$> select_habits user_id s).
Proof.
  unfold select_habits. rewrite <- list_fmap_compose.
  assert (Total id_asc) by (intros a b; unfold id_asc; lia).
  pose proof (Sorted_merge_sort id_asc
                (filter (λ h, Habit.user_id h = user_id
                              ∧ Habit.is_active h = 1%Z) (habits s))) as Hs.
  induction Hs as [|h l Hl IH Hhd]; simpl; constructor; [done|].
  destruct Hhd; simpl; constructor. done.
Qed.

Lemma select_habits_add (now user_id : Z) (title : text) (s : db) :
  select_habits user_id (insert_habit now user_id title s).2
  ≡ₚ select_habits user_id s
     ++ [(next_rowid (seq_habits s) (Habit.id <$> habits s), strip title)].
Proof.
  rewrite !select_habits_perm. simpl. rewrite filter_app, fmap_app.
  by rewrite filter_cons_True, filter_nil by done.
Qed.

Lemma select_habits_ids_known (user_id : Z) (s : db) (p : Z * text) :
  p ∈ select_habits user_id s → p.1 ∈ Habit.id <$> habits s.
Proof.
  destruct p as [i t]. intros (h & Hh & <- & _)%select_habits_elem.
  apply list_elem_of_fmap. by exists h.
Qed.

Lemma filter_none {A} (P : A → Prop) `{!∀ x, Decision (P x)} (l : list A) :
  (∀ x, x ∈ l → ¬ P x) → filter P l = [].
Proof.
  intros HP. induction l as [|x l IH]; [done|].
  rewrite filter_cons_False by (apply HP; left).
  apply IH. intros y Hy. apply HP. by right.
Qed.

(** C6, as the code has it.  For a user id and a title that SQLite can
    store, while [habits] has a row id to give: after [add_habit], the
    listing of the user's active habits holds the new habit exactly once,
    under the stripped title; titles are not deduplicated, so the stripped
    title occurs once more than it did before (exactly once when the user
    had no active habit of that title). *)
Theorem add_habit_listed_once (now user_id : Z) (t : text) (s : db) :
  2 ≤ length (strip t) →
  in_int64 user_id → encodable (strip t) →
  has_room (seq_habits s) (Habit.id <$> habits s) →
  ∃ habit_id s' before after,
    add_habit now user_id t s = Some (habit_id, s')
    ∧ list_habits user_id s = Some before
    ∧ list_habits user_id s' = Some after
    ∧ length (filter (λ p, p.1 = habit_id) after) = 1
    ∧ (habit_id, strip t) ∈ after
    ∧ length (filter (λ p, p.2 = strip t) after)
      = S (length (filter (λ p, p.2 = strip t) before)).
Proof.
  intros _ Hu Ht Hroom.
  pose proof (select_habits_add now user_id t s) as Hperm.
  eexists _, _, _, _.
  split; [by apply add_habit_bound|].
  split; [by apply list_habits_bound|].
  split; [by apply list_habits_bound|].
  cbn [insert_habit fst snd] in *.
  set (rowid := next_rowid (seq_habits s) (Habit.id <$> habits s)) in *.
  split_and!.
  - rewrite Hperm, filter_app, length_app.
    rewrite (filter_none (λ p, p.1 = rowid) (select_habits user_id s)).
    + by rewrite filter_cons_True, filter_nil by done.
    + intros p Hp%select_habits_ids_known E. rewrite E in Hp.
      by apply next_rowid_fresh in Hp.
  - rewrite Hperm. apply elem_of_app. right. by apply list_elem_of_singleton.
  - rewrite Hperm, filter_app, length_app.
    rewrite filter_cons_True, filter_nil by done. simpl. lia.
Qed.

(** C6 as stated fails: a title that the user already has is listed
    twice after it is added again. *)
Lemma add_habit_title_listed_twice :
  reachable sample_db
  ∧ strip (lit "Water 2L") = lit "Water 2L"
  ∧ 2 ≤ length (strip (lit "Water 2L"))
  ∧ (add_habit 30 1 (lit "Water 2L") sample_db
       ≫= λ r, list_habits 1 r.2)
    = Some [(1%Z, lit "Water 2L"); (2%Z, lit "Water 2L")]
  ∧ length (filter (λ p, p.2 = lit "Water 2L")
              [(1%Z, lit "Water 2L"); (2%Z, lit "Water 2L")])
    = 2.
Proof.
  split; [exact sample_db_reachable|].
  split; [vm_compute; reflexivity|].
  split; [vm_compute; lia|].
  split; vm_compute; reflexivity.
Qed.

Lemma filter_length_pos {A} (P : A → Prop) `{!∀ x, Decision (P x)} (l : list A) :
  0 < length (filter P l) ↔ ∃ x, x ∈ l ∧ P x.
Proof.
  split.
  - destruct (filter P l) as [|x l'] eqn:E; simpl; [lia|]. intros _.
    assert (x ∈ filter P l) as [Px Hx]%list_elem_of_filter by (rewrite E; left).
    by exists x.
  - intros (x & Hx & Px).
    assert (x ∈ filter P l) as Hin by by apply list_elem_of_filter.
    destruct (filter P l); [by apply elem_of_nil in Hin|simpl; lia].
Qed.

Lemma deactivate_returns (user_id habit_id : Z) (s : db) :
  (deactivate_habit_for_user user_id habit_id s).1 = true
  ↔ ∃ h, h ∈ habits s ∧ owned_active user_id habit_id h.
Proof.
  unfold deactivate_habit_for_user. cbn [fst].
  rewrite bool_decide_eq_true. apply filter_length_pos.
Qed.

(** When no row qualifies the [UPDATE] changes nothing. *)
Lemma deactivate_miss (user_id habit_id : Z) (s : db) :
  (¬ ∃ h, h ∈ habits s ∧ owned_active user_id habit_id h) →
  deactivate_habit_for_user user_id habit_id s = (false, s).
Proof.
  intros Hno. unfold deactivate_habit_for_user. f_equal.
  - apply bool_decide_eq_false. by intros ?%filter_length_pos.
  - replace (_ <$> habits s) with (habits s); [apply with_habits_same|].
    rewrite <- (list_fmap_id (habits s)) at 1.
    apply Forall_fmap_ext_1, Forall_forall. intros h Hh.
    case_bool_decide; [|done]. destruct Hno. by exists h.
Qed.

(** After the call no row qualifies any more. *)
Lemma deactivate_leaves_none (user_id habit_id : Z) (s : db) :
  ¬ ∃ h, h ∈ habits (deactivate_habit_for_user user_id habit_id s).2
         ∧ owned_active user_id habit_id h.
Proof.
  simpl. intros (h & (h0 & -> & Hh0)%list_elem_of_fmap & Hown).
  case_bool_decide as Hhit; [|done].
  destruct Hown as (_ & _ & Hact). simpl in Hact. lia.
Qed.

(** With unique ids the rows that qualify are the row of that id. *)
Lemma deactivate_hit (user_id habit_id : Z) (s : db) (h : Habit.row) :
  NoDup (Habit.id <$> habits s) →
  h ∈ habits s → owned_active user_id habit_id h →
  habits (deactivate_habit_for_user user_id habit_id s).2
  = (λ x, if bool_decide (Habit.id x = habit_id) then set_is_active 0 x else x)
      <$> habits s.
Proof.
  intros Hnd Hh Hown. simpl.
  apply Forall_fmap_ext_1, Forall_forall. intros x Hx.
  destruct (decide (Habit.id x = habit_id)) as [Hid|Hid].
  - assert (x = h) as ->.
    { destruct Hown as (Hhid & _).
      apply list_elem_of_lookup in Hx as [i Hi], Hh as [j Hj].
      assert (i = j) as ->; [|congruence].
      eapply NoDup_lookup; [exact Hnd| |]; rewrite list_lookup_fmap.
      - by rewrite Hi.
      - rewrite Hj. simpl. by rewrite Hhid, Hid. }
    by rewrite !bool_decide_eq_true_2.
  - rewrite !bool_decide_eq_false_2; [done|done|]. by intros (? & _).
Qed.

Lemma habit_user_fits (s : db) (h : Habit.row) :
  db_fits s → h ∈ habits s → in_int64 (Habit.id h) ∧ in_int64 (Habit.user_id h).
Proof.
  intros [_ H2 H3 _] Hh. rewrite Forall_fmap, Forall_forall in H2, H3.
  split; [by apply H2|by apply H3].
Qed.

(** C4. [deactivate_habit_for_user] returns true exactly when the habit
    exists, belongs to the user and is active, and then clears the flag of
    that habit and of no other, so that it leaves the user's listing; in
    every other case it returns false and changes nothing; a second call
    returns false and changes nothing; a call by another user leaves the
    habit active and listed for its owner.  Users and logs are never
    touched. *)
Theorem deactivate_habit_for_user_owner_only (user_id habit_id : Z) (s : db) :
  db_wf s → db_fits s →
  let r := deactivate_habit_for_user user_id habit_id s in
  (r.1 = true ↔ ∃ h, h ∈ habits s ∧ owned_active user_id habit_id h)
  ∧ (r.1 = true →
     habits r.2
     = (λ x, if bool_decide (Habit.id x = habit_id)
             then set_is_active 0 x else x) <$> habits s
     ∧ ∃ listed, list_habits user_id r.2 = Some listed
                 ∧ habit_id ∉ fst <$> listed)
  ∧ (r.1 = false → r.2 = s)
  ∧ deactivate_habit_for_user user_id habit_id r.2 = (false, r.2)
  ∧ users r.2 = users s ∧ habit_logs r.2 = habit_logs s
  ∧ (∀ h, h ∈ habits s → Habit.id h = habit_id → Habit.user_id h ≠ user_id →
          r = (false, s)
          ∧ (Habit.is_active h = 1%Z →
             ∃ listed, list_habits (Habit.user_id h) r.2 = Some listed
                       ∧ (habit_id, Habit.title h) ∈ listed)).
Proof.
  intros Hwf Hf r. split_and!.
  - apply deactivate_returns.
  - intros (h & Hh & Hown)%deactivate_returns. split.
    + by eapply deactivate_hit; [apply Hwf|..].
    + eexists. split.
      * apply list_habits_bound. destruct Hown as (_ & <- & _).
        by eapply habit_user_fits.
      * intros ([i t] & Hi & Hp)%list_elem_of_fmap. simpl in Hi. subst i.
        apply select_habits_elem in Hp as (x & Hx & Hid & _ & Hu & Ha).
        apply (deactivate_leaves_none user_id habit_id s). by exists x.
  - intros E. subst r. rewrite deactivate_miss; [done|].
    intros H%deactivate_returns. congruence.
  - apply deactivate_miss, deactivate_leaves_none.
  - done.
  - done.
  - intros h Hh Hid Hother.
    assert (r = (false, s)) as E.
    { apply deactivate_miss. intros (x & Hx & Hxid & Hxu & _).
      assert (x = h) as ->; [|done].
      apply list_elem_of_lookup in Hx as [i Hi], Hh as [j Hj].
      assert (i = j) as ->; [|congruence].
      eapply NoDup_lookup; [exact (wf_habit_ids s Hwf)| |];
        rewrite list_lookup_fmap.
      - by rewrite Hi.
      - rewrite Hj. simpl. by rewrite Hxid, Hid. }
    split; [done|]. intros Hact. rewrite E. cbn [snd]. eexists. split.
    + apply list_habits_bound. by eapply habit_user_fits.
    + apply select_habits_elem. by exists h.
Qed.

(** The scenario of the specification: user 2 cannot deactivate the habit
    of user 1, user 1 can, once. *)
Example deactivate_scenario :
  deactivate_habit_for_user 2 1 sample_db = (false, sample_db)
  ∧ list_habits 1 sample_db = Some [(1%Z, lit "Water 2L")]
  ∧ (deactivate_habit_for_user 1 1 sample_db).1 = true
  ∧ list_habits 1 (deactivate_habit_for_user 1 1 sample_db).2 = Some []
  ∧ (deactivate_habit_for_user 1 1
       (deactivate_habit_for_user 1 1 sample_db).2).1 = false.
Proof. vm_compute. done. Qed.

(** The id that [upsert_user] returns can be bound again. *)
Lemma upsert_user_id_fits (now tg : Z) (name : option text) (s : db)
    (uid : Z) (s' : db) :
  upsert_user now tg name s = Some (uid, s') → db_fits s → in_int64 uid.
Proof.
  intros (_ & _ & Hroom & E)%upsert_user_Some [H1 _ _ _].
  destruct (decide (tg ∈ User.tg_user_id <$> users s)) as [Hin|Hin].
  - destruct (upsert_user_stmt_update now tg name s Hin) as (r & _ & Hr & _ & E').
    rewrite E' in E. injection E as <- _.
    rewrite Forall_fmap, Forall_forall in H1. by apply H1.
  - rewrite upsert_user_stmt_insert in E by done. injection E as <- _.
    by apply has_room_fits.
Qed.

Lemma upsert_user_returns (now tg : Z) (name : option text) (s : db) :
  in_int64 tg → bindable name →
  has_room (seq_users s) (User.id <$> users s) →
  ∃ uid s', upsert_user now tg name s = Some (uid, s').
Proof.
  intros Htg Hname Hroom. rewrite upsert_user_bound by done.
  destruct (upsert_user_stmt_total now tg name s) as [[uid s'] E]. by exists uid, s'.
Qed.

Lemma upsert_user_other_tables (now tg : Z) (name : option text) (s : db)
    (uid : Z) (s' : db) :
  upsert_user now tg name s = Some (uid, s') →
  habits s' = habits s ∧ seq_habits s' = seq_habits s
  ∧ habit_logs s' = habit_logs s ∧ seq_habit_logs s' = seq_habit_logs s.
Proof.
  intros (_ & _ & _ & E)%upsert_user_Some.
  by eapply upsert_user_stmt_other_tables.
Qed.

(** ** The title handler *)

(** C9, as the code has it.  [add_habit] makes no length check: for every
    title that SQLite can store, the empty one included (and a user id of
    64 bits, while [habits] has a row id to give), it appends an active
    row holding the stripped title under a fresh id and returns that id.
    The check is the caller's: [handle_habit_title] leaves [habits] and the
    logs untouched and stays in its state when the text has fewer than two
    characters after stripping, and answers with a prompt; any other text
    that SQLite can store is stored, stripped, as a new habit of the
    sender. *)
Theorem title_checked_by_caller_only (now now' : Z) (today : date)
    (from_id user_id : Z) (username message_text : option text)
    (title : text) (s : db) :
  db_fits s →
  in_int64 from_id → bindable username →
  has_room (seq_users s) (User.id <$> users s) →
  has_room (seq_habits s) (Habit.id <$> habits s) →
  (in_int64 user_id → encodable (strip title) →
   add_habit now user_id title s
   = Some (next_rowid (seq_habits s) (Habit.id <$> habits s),
           with_habits s
             (habits s
              ++ [ {| Habit.id := next_rowid (seq_habits s)
                                             (Habit.id <$> habits s);
                      Habit.user_id := user_id; Habit.title := strip title;
                      Habit.is_active := 1; Habit.created_at := now |} ])
             (next_rowid (seq_habits s) (Habit.id <$> habits s)))
   ∧ (next_rowid (seq_habits s) (Habit.id <$> habits s)
        ∉ Habit.id <$> habits s))
  ∧ let r := handle_habit_title now now' today from_id username message_text s in
    let stripped := strip (default [] message_text) in
    if bool_decide (length stripped < 2)
    then habits (db_after r) = habits s
         ∧ seq_habits (db_after r) = seq_habits s
         ∧ habit_logs (db_after r) = habit_logs s
         ∧ state_after r = waiting_for_title
         ∧ answers r = [plain (lit "Habit name is too short. Try again.")]
         ∧ raised r = false
    else encodable stripped →
         ∃ uid s1 habit_id,
           upsert_user now from_id username s = Some (uid, s1)
           ∧ add_habit now' uid stripped s1 = Some (habit_id, db_after r)
           ∧ habits (db_after r)
             = habits s
               ++ [ {| Habit.id := next_rowid (seq_habits s)
                                              (Habit.id <$> habits s);
                       Habit.user_id := uid; Habit.title := stripped;
                       Habit.is_active := 1; Habit.created_at := now' |} ]
           ∧ state_after r = no_state.
Proof.
  intros Hf Hfrom Hname Hroom Hroom'.
  split; [intros Hu Ht; split; [by apply add_habit_bound|apply next_rowid_fresh]|].
  cbn zeta. unfold handle_habit_title.
  destruct (upsert_user_returns now from_id username s) as (uid & s1 & E);
    [done..|].
  rewrite E.
  destruct (upsert_user_other_tables _ _ _ _ _ _ E) as (Hh & Hs & Hl & _).
  case_bool_decide as Hshort.
  - simpl. by rewrite Hh, Hs, Hl.
  - intros Henc. exists uid, s1.
    rewrite add_habit_bound;
      [|by eapply upsert_user_id_fits|by rewrite strip_idem|by rewrite Hh, Hs].
    destruct (insert_habit now' uid _ s1) as [habit_id s2] eqn:E2.
    exists habit_id. split; [done|].
    assert (habits s2
            = habits s
              ++ [ {| Habit.id := next_rowid (seq_habits s) (Habit.id <$> habits s);
                      Habit.user_id := uid;
                      Habit.title := strip (default [] message_text);
                      Habit.is_active := 1; Habit.created_at := now' |} ]) as Hs2.
    { unfold insert_habit in E2. inversion E2. simpl.
      by rewrite Hh, Hs, strip_idem. }
    by destruct (send_week_view today uid s2).
Qed.

(** C9 as stated fails: a title with a lone surrogate is long enough for
    the caller, and [add_habit] cannot store it ([UnicodeEncodeError]); no
    row is inserted and no id returned. *)
Lemma add_habit_refuses_lone_surrogate :
  length (strip [55296%N; 55296%N]) = 2
  ∧ add_habit 10 1 [55296%N; 55296%N] sample_db = None
  ∧ habits (db_after (handle_habit_title 10 11 738521%Z 1001 None
                        (Some [55296%N; 55296%N]) sample_db))
    = habits sample_db.
Proof. split_and!; vm_compute; reflexivity. Qed.

Example short_title_rejected :
  habits (db_after (handle_habit_title 10 11 738521%Z 1001 None
                      (Some (lit "  x ")) empty_db)) = []
  ∧ (snd <$> add_habit 10 1 (lit "  x ") empty_db)
    = Some (with_habits empty_db
              [ {| Habit.id := 1; Habit.user_id := 1; Habit.title := lit "x";
                   Habit.is_active := 1; Habit.created_at := 10 |} ] 1).
Proof. vm_compute. done. Qed.

(** ** The toggle *)

Lemma is_done_spec (habit_id : Z) (d : text) (s : db) :
  is_done habit_id d s = true
  ↔ ∃ r, r ∈ habit_logs s ∧ Log.habit_id r = habit_id ∧ Log.log_date r = d
         ∧ Log.done r = 1%Z.
Proof.
  unfold is_done. rewrite existsb_elem_of.
  by setoid_rewrite bool_decide_eq_true.
Qed.

Lemma is_done_key (habit_id : Z) (d : text) (s : db) :
  Forall (λ r, Log.done r = 1%Z) (habit_logs s) →
  is_done habit_id d s = true ↔ (habit_id, d) ∈ log_key <$> habit_logs s.
Proof.
  intros Hdone. rewrite is_done_spec, list_elem_of_fmap. split.
  - intros (r & Hr & <- & <- & _). by exists r.
  - intros (r & E & Hr). inversion E; subst. exists r. split_and!; try done.
    by eapply Forall_forall in Hdone.
Qed.

Lemma owned_active_found (user_id habit_id : Z) (s : db) :
  (∃ h, h ∈ habits s ∧ owned_active user_id habit_id h) →
  existsb (λ h, bool_decide (owned_active user_id habit_id h)) (habits s) = true.
Proof.
  intros (h & Hh & Hown). apply existsb_elem_of. exists h.
  split; [done|]. by apply bool_decide_eq_true.
Qed.

(** The toggle of an undone pair marks it: one row is appended. *)
Lemma toggle_marks (now user_id habit_id : Z) (d : date) (s : db) :
  db_wf s →
  (∃ h, h ∈ habits s ∧ owned_active user_id habit_id h) →
  is_done habit_id (isoformat d) s = false →
  toggle_done_for_user now user_id habit_id d s
  = (Marked, upsert_log now habit_id (isoformat d) s)
  ∧ habit_logs (upsert_log now habit_id (isoformat d) s)
    = habit_logs s
      ++ [ {| Log.id := next_rowid (seq_habit_logs s) (Log.id <$> habit_logs s);
              Log.habit_id := habit_id; Log.log_date := isoformat d;
              Log.done := 1; Log.created_at := now |} ].
Proof.
  intros Hwf Hown Hundone. unfold toggle_done_for_user.
  rewrite owned_active_found, Hundone by done. split; [done|].
  apply upsert_log_insert. intros Hin%is_done_key; [congruence|apply Hwf].
Qed.

(** The toggle of a done pair removes its row. *)
Lemma toggle_removes (now user_id habit_id : Z) (d : date) (s : db) :
  (∃ h, h ∈ habits s ∧ owned_active user_id habit_id h) →
  is_done habit_id (isoformat d) s = true →
  toggle_done_for_user now user_id habit_id d s
  = (Removed,
     with_habit_logs s
       (filter (λ r, ¬ (Log.habit_id r = habit_id
                        ∧ Log.log_date r = isoformat d)) (habit_logs s))
       (seq_habit_logs s)).
Proof.
  intros Hown Hdone. unfold toggle_done_for_user.
  by rewrite owned_active_found, Hdone.
Qed.

Lemma filter_all {A} (P : A → Prop) `{!∀ x, Decision (P x)} (l : list A) :
  (∀ x, x ∈ l → P x) → filter P l = l.
Proof.
  intros HP. induction l as [|x l IH]; [done|].
  rewrite filter_cons_True by (apply HP; left). f_equal.
  apply IH. intros y Hy. apply HP. by right.
Qed.

Lemma is_done_after_removal (habit_id h' : Z) (d d' : text) (s : db)
    (seq : Z) :
  is_done h' d'
    (with_habit_logs s
       (filter (λ r, ¬ (Log.habit_id r = habit_id ∧ Log.log_date r = d))
               (habit_logs s)) seq)
  = if bool_decide (h' = habit_id ∧ d' = d) then false else is_done h' d' s.
Proof.
  case_bool_decide as Hsame.
  - destruct Hsame as [-> ->]. apply not_true_is_false.
    intros (r & [Hr _]%list_elem_of_filter & E1 & E2 & _)%is_done_spec.
    by apply Hr.
  - apply eq_true_iff_eq. rewrite !is_done_spec. simpl. split.
    + intros (r & [_ Hr]%list_elem_of_filter & ?). by exists r.
    + intros (r & Hr & E1 & E2 & E3). exists r. split; [|done].
      apply list_elem_of_filter. split; [|done].
      intros [F1 F2]. apply Hsame. by rewrite <- E1, <- E2.
Qed.

Lemma is_done_after_upsert (now habit_id h' : Z) (d d' : text) (s : db) :
  is_done h' d' (upsert_log now habit_id d s)
  = if bool_decide (h' = habit_id ∧ d' = d) then true else is_done h' d' s.
Proof.
  case_bool_decide as Hsame.
  - destruct Hsame as [-> ->]. apply is_done_spec, upsert_log_marks.
  - apply eq_true_iff_eq. rewrite !is_done_spec.
    destruct (decide ((habit_id, d) ∈ log_key <$> habit_logs s)) as [Hin|Hin].
    + rewrite upsert_log_update by done. split.
      * intros (r & (r0 & -> & Hr0)%list_elem_of_fmap & E1 & E2 & E3).
        exists r0. case_bool_decide as Hk; [|done].
        destruct Hk as [K1 K2]. simpl in *. destruct Hsame. by subst.
      * intros (r & Hr & E1 & E2 & E3). exists r. split; [|done].
        apply list_elem_of_fmap. exists r. split; [|done].
        rewrite bool_decide_eq_false_2; [done|].
        intros [K1 K2]. apply Hsame. by rewrite <- E1, <- E2.
    + rewrite upsert_log_insert by done. split.
      * intros (r & [Hr| ->%list_elem_of_singleton]%elem_of_app & E1 & E2 & E3).
        -- by exists r.
        -- simpl in *. destruct Hsame. by subst.
      * intros (r & Hr & ?). exists r. split; [|done].
        apply elem_of_app. by left.
Qed.

(** C1. For a habit that exists, is active and belongs to the user, two
    toggles in a row for the same date bring every (habit, date) pair back
    to the state it had, and change neither habits nor users.  From
    [Undone] the first call returns [Marked] and the second [Removed], and
    the rows of [habit_logs] are again those of the start; from [Done] the
    calls return [Removed], then [Marked]. *)
Theorem toggle_done_twice (now now' user_id habit_id : Z) (d : date) (s : db) :
  db_wf s →
  (∃ h, h ∈ habits s ∧ owned_active user_id habit_id h) →
  let r1 := toggle_done_for_user now user_id habit_id d s in
  let r2 := toggle_done_for_user now' user_id habit_id d r1.2 in
  (∀ h' d', is_done h' d' r2.2 = is_done h' d' s)
  ∧ habits r2.2 = habits s ∧ users r2.2 = users s
  ∧ is_done habit_id (isoformat d) r1.2
    = negb (is_done habit_id (isoformat d) s)
  ∧ (is_done habit_id (isoformat d) s = false →
     r1.1 = Marked ∧ r2.1 = Removed ∧ habit_logs r2.2 = habit_logs s
     ∧ is_done habit_id (isoformat d) r2.2 = false)
  ∧ (is_done habit_id (isoformat d) s = true →
     r1.1 = Removed ∧ r2.1 = Marked).
Proof.
  intros Hwf Hown r1 r2.
  destruct (is_done habit_id (isoformat d) s) eqn:Hstate.
  - (* Done, then Undone, then Done again *)
    pose proof (toggle_removes now user_id habit_id d s Hown Hstate) as E1.
    assert (Hwf1 : db_wf r1.2) by by apply toggle_done_for_user_wf.
    assert (Hown1 : ∃ h, h ∈ habits r1.2 ∧ owned_active user_id habit_id h)
      by (subst r1; by rewrite E1).
    assert (Hstate1 : is_done habit_id (isoformat d) r1.2 = false).
    { subst r1. rewrite E1. cbn [snd]. rewrite is_done_after_removal.
      by rewrite bool_decide_eq_true_2. }
    destruct (toggle_marks now' user_id habit_id d r1.2 Hwf1 Hown1 Hstate1)
      as [E2 _].
    subst r2. rewrite E2. cbn [fst snd]. split_and!; try done.
    + intros h' d'. rewrite is_done_after_upsert.
      subst r1. rewrite E1. cbn [snd]. rewrite is_done_after_removal.
      case_bool_decide as Hsame; [|done]. by destruct Hsame as [-> ->].
    + subst r1. by rewrite E1.
    + subst r1. by rewrite E1.
    + intros _. subst r1. by rewrite E1.
  - (* Undone, then Done, then Undone again *)
    destruct (toggle_marks now user_id habit_id d s Hwf Hown Hstate)
      as [E1 Hlogs1].
    assert (Hstate1 : is_done habit_id (isoformat d) r1.2 = true).
    { subst r1. rewrite E1. cbn [snd]. rewrite is_done_after_upsert.
      by rewrite bool_decide_eq_true_2. }
    assert (Hown1 : ∃ h, h ∈ habits r1.2 ∧ owned_active user_id habit_id h)
      by (subst r1; by rewrite E1).
    pose proof (toggle_removes now' user_id habit_id d r1.2 Hown1 Hstate1) as E2.
    assert (Hback : habit_logs r2.2 = habit_logs s).
    { subst r2. rewrite E2. subst r1. rewrite E1. cbn [snd].
      cbn [with_habit_logs habit_logs]. rewrite Hlogs1, filter_app.
      rewrite filter_cons_False, filter_nil, app_nil_r by (simpl; tauto).
      apply filter_all. intros r Hr [K1 K2].
      assert (is_done habit_id (isoformat d) s = true); [|congruence].
      apply is_done_key; [apply Hwf|]. apply list_elem_of_fmap.
      exists r. split; [|done]. unfold log_key. by rewrite K1, K2. }
    split_and!; try done.
    + intros h' d'. unfold is_done. by rewrite Hback.
    + subst r2. rewrite E2. subst r1. by rewrite E1.
    + subst r2. rewrite E2. subst r1. by rewrite E1.
    + intros _. split_and!.
      * subst r1. by rewrite E1.
      * subst r2. by rewrite E2.
      * done.
      * unfold is_done. rewrite Hback. exact Hstate.
Qed.

Lemma toggle_done_twice_witness :
  db_wf sample_db
  ∧ (∃ h, h ∈ habits sample_db ∧ owned_active 1 1 h)
  ∧ (toggle_done_for_user 30 1 1 738521%Z sample_db).1 = Marked
  ∧ (toggle_done_for_user 40 1 1 738521%Z
       (toggle_done_for_user 30 1 1 738521%Z sample_db).2).1 = Removed
  ∧ habit_logs (toggle_done_for_user 40 1 1 738521%Z
                  (toggle_done_for_user 30 1 1 738521%Z sample_db).2).2
    = habit_logs sample_db.
Proof.
  assert (Hwf : db_wf sample_db)
    by (refine (bool_decide_unpack (db_wf sample_db) _); vm_compute; exact I).
  assert (Hown : ∃ h, h ∈ habits sample_db ∧ owned_active 1 1 h).
  { eexists. split; [vm_compute; left|]. vm_compute. done. }
  pose proof (toggle_done_twice 30 40 1 1 738521%Z sample_db Hwf Hown)
    as (_ & _ & _ & _ & Hundone & _).
  destruct Hundone as (H1 & H2 & H3 & _); [vm_compute; reflexivity|].
  split; [exact Hwf|]. split; [exact Hown|].
  split; [exact H1|]. split; [exact H2|exact H3].
Defined.

(** The scenario of the specification: mark, see the pair in the week's
    statuses, unmark, see it gone. *)
Example toggle_scenario :
  let r1 := toggle_done_for_user 30 1 1 738886%Z sample_db in
  let r2 := toggle_done_for_user 40 1 1 738886%Z r1.2 in
  r1.1 = Marked
  ∧ weekly_status [1%Z] [738886%Z] r1.2
    = Some {[ (1%Z, lit "2024-01-01") := 1%Z ]}
  ∧ r2.1 = Removed
  ∧ weekly_status [1%Z] [738886%Z] r2.2 = Some ∅
  ∧ toggle_done_for_user 50 2 1 738886%Z sample_db = (NotFound, sample_db).
Proof. cbv zeta. split_and!; vm_compute; reflexivity. Qed.

(** ** The calendar: [ord2ymd] and the order of dates *)

Section calendar_order.
Local Open Scope Z_scope.

Lemma ord2ymd_spec (o : date) :
  valid_date o →
  ∃ Y doy leap,
    o - 1 = days_before_year Y + doy
    ∧ 0 ≤ doy < year_length leap
    ∧ days_before_year (Y + 1) = days_before_year Y + year_length leap
    ∧ 1 ≤ Y
    ∧ ord2ymd o = (Y, (month_day leap doy).1, (month_day leap doy).2).
Proof.
  intros [Hlo Hhi]. unfold MAXORDINAL in Hhi.
  unfold ord2ymd. cbv zeta.
  set (n := o - 1).
  set (n400 := n / 146097). set (r400 := n mod 146097).
  set (n100 := r400 / 36524). set (r100 := r400 mod 36524).
  set (n4 := r100 / 1461). set (r4 := r100 mod 1461).
  set (n1 := r4 / 365). set (r1 := r4 mod 365).
  assert (n = 146097 * n400 + r400 ∧ 0 ≤ r400 < 146097) as [E400 B400]
    by (subst n400 r400; split; [apply Z.div_mod; lia|apply Z.mod_pos_bound; lia]).
  assert (r400 = 36524 * n100 + r100 ∧ 0 ≤ r100 < 36524) as [E100 B100]
    by (subst n100 r100; split; [apply Z.div_mod; lia|apply Z.mod_pos_bound; lia]).
  assert (r100 = 1461 * n4 + r4 ∧ 0 ≤ r4 < 1461) as [E4 B4]
    by (subst n4 r4; split; [apply Z.div_mod; lia|apply Z.mod_pos_bound; lia]).
  assert (r4 = 365 * n1 + r1 ∧ 0 ≤ r1 < 365) as [E1 B1]
    by (subst n1 r1; split; [apply Z.div_mod; lia|apply Z.mod_pos_bound; lia]).
  assert (0 ≤ n) by (subst n; lia).
  clearbody n400 r400 n100 r100 n4 r4 n1 r1.
  assert (0 ≤ n400 ∧ 0 ≤ n100 ≤ 4 ∧ 0 ≤ n4 ≤ 24 ∧ 0 ≤ n1 ≤ 4) as (?&?&?&?) by lia.
  destruct ((n1 =? 4) || (n100 =? 4)) eqn:Hspecial.
  - exists (n400 * 400 + 1 + n100 * 100 + n4 * 4 + n1 - 1), 365, true.
    assert (n1 = 4 ∨ n100 = 4) as Hcase by lia.
    unfold days_before_year, year_length.
    split_and!; try done; try lia.
    + destruct Hcase; Z.div_mod_to_equations; lia.
    + destruct Hcase; Z.div_mod_to_equations; lia.
  - assert (n1 ≤ 3 ∧ n100 ≤ 3) as [? ?] by lia.
    exists (n400 * 400 + 1 + n100 * 100 + n4 * 4 + n1), r1,
      ((n1 =? 3) && (negb (n4 =? 24) || (n100 =? 3))).
    unfold days_before_year, year_length.
    split_and!; try lia.
    + Z.div_mod_to_equations; lia.
    + destruct ((n1 =? 3) && (negb (n4 =? 24) || (n100 =? 3))) eqn:Hl; lia.
    + destruct ((n1 =? 3) && (negb (n4 =? 24) || (n100 =? 3))) eqn:Hl;
        Z.div_mod_to_equations; lia.
    + unfold month_day. cbv zeta. by repeat case_match.
Qed.

Lemma all_in_range_spec (P : Z → bool) (lo : Z) (n : positive) :
  all_in_range P lo n = true →
  ∀ o, (lo ≤ o < lo + Z.pos n)%Z → P o = true.
Proof.
  unfold all_in_range.
  set (f := λ st : Z * bool, ((st.1 + 1)%Z, st.2 && P st.1)).
  assert (∀ n, (Pos.iter f (lo, true) n).1 = (lo + Z.pos n)%Z
               ∧ ((Pos.iter f (lo, true) n).2 = true →
                  ∀ o, (lo ≤ o < lo + Z.pos n)%Z → P o = true)) as H.
  { clear n. intros n. induction n as [|n [IH1 IH2]] using Pos.peano_ind.
    - simpl. split; [done|]. intros HP o Ho.
      assert (o = lo) as -> by lia. done.
    - rewrite Pos.iter_succ. unfold f at 1. simpl. rewrite IH1. split; [lia|].
      intros [Hb HP]%andb_true_iff o Ho.
      destruct (decide (o = lo + Z.pos n)%Z) as [->|]; [done|].
      apply IH2; [done|lia]. }
  intros Hn. by apply H.
Qed.

(** A step-wise increasing function is increasing. *)
Lemma increasing_by_steps (f : Z → Z) (lo hi : Z) :
  (∀ n, lo ≤ n → n + 1 < hi → f n < f (n + 1)) →
  ∀ a b, lo ≤ a → a < b → b < hi → f a < f b.
Proof.
  intros Hstep a b Ha Hab Hb.
  assert (∀ k : nat, a + 1 + Z.of_nat k < hi → f a < f (a + 1 + Z.of_nat k)) as H.
  { induction k as [|k IH]; intros Hk.
    - replace (a + 1 + Z.of_nat 0) with (a + 1) by lia. apply Hstep; lia.
    - replace (a + 1 + Z.of_nat (S k)) with (a + 1 + Z.of_nat k + 1) by lia.
      etrans; [apply IH; lia|]. apply Hstep; lia. }
  replace b with (a + 1 + Z.of_nat (Z.to_nat (b - a - 1))) by lia.
  apply H. lia.
Qed.

Lemma month_day_checked :
  all_in_range (month_day_ok false) 0 365 = true
  ∧ all_in_range (month_day_ok true) 0 366 = true.
Proof. split; vm_compute; reflexivity. Qed.

Lemma month_day_facts (leapyear : bool) (n : Z) :
  0 ≤ n < year_length leapyear →
  1 ≤ (month_day leapyear n).1 ≤ 12 ∧ 1 ≤ (month_day leapyear n).2 ≤ 31
  ∧ (n + 1 < year_length leapyear →
     month_day_key leapyear n < month_day_key leapyear (n + 1)).
Proof.
  intros Hn.
  assert (month_day_ok leapyear n = true) as Hok.
  { destruct month_day_checked as [Hf Ht].
    destruct leapyear; simpl in Hn;
      [eapply all_in_range_spec in Ht|eapply all_in_range_spec in Hf];
      try done; lia. }
  unfold month_day_ok in Hok.
  destruct (month_day leapyear n) as [m d] eqn:E. simpl.
  repeat (apply andb_true_iff in Hok as [Hok ?]).
  split_and!; lia.
Qed.

Lemma month_day_increasing (leapyear : bool) (a b : Z) :
  0 ≤ a → a < b → b < year_length leapyear →
  month_day_key leapyear a < month_day_key leapyear b.
Proof.
  apply (increasing_by_steps (month_day_key leapyear) 0 (year_length leapyear)).
  intros n Hn Hn1. apply month_day_facts; lia.
Qed.

Lemma days_before_year_mono (y y' : Z) :
  y ≤ y' → days_before_year y ≤ days_before_year y'.
Proof. intros H. unfold days_before_year. Z.div_mod_to_equations. lia. Qed.

(** The fields of a valid date are in range. *)
Lemma date_fields_range (o : date) :
  valid_date o →
  1 ≤ year o ≤ 9999 ∧ 1 ≤ month o ≤ 12 ∧ 1 ≤ day o ≤ 31.
Proof.
  intros Hv. destruct (ord2ymd_spec o Hv) as (Y & doy & leap & E & Hdoy & _ & HY & Eo).
  unfold year, month, day. rewrite Eo. simpl.
  destruct (month_day_facts leap doy Hdoy) as (Hm & Hd & _).
  split_and!; try lia.
  destruct (decide (Y ≤ 9999)) as [|Hbig]; [done|].
  pose proof (days_before_year_mono 10000 Y ltac:(lia)) as Hmono.
  assert (days_before_year 10000 = 3652059) by reflexivity.
  destruct Hv as [_ Hhi]. unfold MAXORDINAL in Hhi. lia.
Qed.

(** Later dates have lexicographically larger (year, month, day). *)
Lemma date_fields_increasing (a b : date) :
  valid_date a → valid_date b → a < b →
  year a < year b
  ∨ year a = year b
    ∧ (month a < month b ∨ month a = month b ∧ day a < day b).
Proof.
  intros Ha Hb Hab.
  destruct (ord2ymd_spec a Ha) as (Ya & da & la & Ea & Hda & Hla & _ & Eqa).
  destruct (ord2ymd_spec b Hb) as (Yb & db & lb & Eb & Hdb & Hlb & _ & Eqb).
  unfold year, month, day. rewrite Eqa, Eqb. simpl.
  destruct (Z.lt_trichotomy Ya Yb) as [Hlt|[Heq|Hgt]].
  - by left.
  - right. split; [done|]. subst Yb.
    assert (la = lb) as <- by (destruct la, lb; simpl in *; lia).
    pose proof (month_day_increasing la da db ltac:(lia) ltac:(lia) ltac:(lia)) as Hk.
    unfold month_day_key in Hk.
    destruct (month_day_facts la da Hda) as (? & ? & _).
    destruct (month_day_facts la db Hdb) as (? & ? & _). lia.
  - exfalso.
    pose proof (days_before_year_mono (Yb + 1) Ya ltac:(lia)). lia.
Qed.

End calendar_order.

(** ** Order of texts *)

Lemma text_leb_refl (a : text) : text_leb a a = true.
Proof.
  induction a as [|x a IH]; simpl; [done|].
  by rewrite N.eqb_refl, IH, orb_true_r.
Qed.

Lemma text_leb_antisym (a b : text) :
  text_leb a b = true → text_leb b a = true → a = b.
Proof.
  revert b. induction a as [|x a IH]; intros [|y b]; simpl; try done.
  destruct (N.ltb_spec x y), (N.ltb_spec y x), (N.eqb_spec x y),
    (N.eqb_spec y x); simpl; try lia; try done.
  intros H1 H2. subst. f_equal. by apply IH.
Qed.

Lemma text_ltb_leb (a b : text) : text_ltb a b = true → text_leb a b = true.
Proof.
  revert b. induction a as [|x a IH]; intros [|y b]; simpl; try done.
  destruct (N.ltb_spec x y), (N.eqb_spec x y); simpl; try done. apply IH.
Qed.

Lemma text_ltb_not_geb (a b : text) :
  text_ltb a b = true → text_leb b a = false.
Proof.
  revert b. induction a as [|x a IH]; intros [|y b]; simpl; try done.
  destruct (N.ltb_spec x y), (N.ltb_spec y x), (N.eqb_spec x y),
    (N.eqb_spec y x); simpl; try lia; try done.
  apply IH.
Qed.

Lemma text_ltb_trans (a b c : text) :
  text_ltb a b = true → text_ltb b c = true → text_ltb a c = true.
Proof.
  revert b c. induction a as [|x a IH]; intros [|y b] [|z c]; simpl; try done.
  destruct (N.ltb_spec x y), (N.ltb_spec y z), (N.ltb_spec x z),
    (N.eqb_spec x y), (N.eqb_spec y z), (N.eqb_spec x z);
    simpl; try lia; try done.
  apply IH.
Qed.

(** Two texts that start with fields of the same width compare by the
    first field, then by the rest. *)
Lemma text_ltb_fields (a a' b b' : text) :
  length a = length a' →
  text_ltb (a ++ b) (a' ++ b')
  = text_ltb a a' || (bool_decide (a = a') && text_ltb b b').
Proof.
  revert a'. induction a as [|x a IH]; intros [|y a'] Hlen; simpl in *; try done.
  rewrite IH by lia. destruct (x <? y)%N eqn:Hlt; simpl; [done|].
  destruct (x =? y)%N eqn:Heq; simpl.
  - apply N.eqb_eq in Heq as ->.
    destruct (text_ltb a a'); simpl; [done|].
    destruct (decide (a = a')) as [->|Hne].
    + by rewrite !bool_decide_eq_true_2.
    + rewrite !bool_decide_eq_false_2; [done| |done]. by intros [= ?].
  - rewrite bool_decide_eq_false_2; [done|].
    intros [= -> _]. by rewrite N.eqb_refl in Heq.
Qed.

Lemma text_ltb_irrefl (a : text) : text_ltb a a = false.
Proof.
  induction a as [|x a IH]; simpl; [done|].
  by rewrite N.ltb_irrefl, N.eqb_refl, IH.
Qed.

(** ** Zero-padded numbers compare like the numbers *)

Lemma zfill_checked :
  all_in_range (zfill_ok 4) 0 9999 = true ∧ all_in_range (zfill_ok 2) 0 99 = true.
Proof. split; vm_compute; reflexivity. Qed.

Section zfill.
Context (w : nat) (bound : positive).
Context (Hchecked : all_in_range (zfill_ok w) 0 bound = true).

Lemma zfill_width (n : Z) :
  (0 ≤ n ≤ Z.pos bound)%Z → length (zfill w (Z.to_N n)) = w.
Proof.
  intros Hn. destruct (decide (n = Z.pos bound)) as [->|Hne].
  - assert (zfill_ok w (Z.pos bound - 1) = true) as Hok
      by (eapply all_in_range_spec; [done|lia]).
    unfold zfill_ok in Hok. apply andb_true_iff in Hok as [_ Hok].
    apply bool_decide_eq_true in Hok.
    by replace (Z.pos bound - 1 + 1)%Z with (Z.pos bound) in Hok by lia.
  - assert (zfill_ok w n = true) as Hok
      by (eapply all_in_range_spec; [done|lia]).
    unfold zfill_ok in Hok. apply andb_true_iff in Hok as [Hok _].
    apply andb_true_iff in Hok as [_ Hok]. by apply bool_decide_eq_true in Hok.
Qed.

Lemma zfill_increasing (a b : Z) :
  (0 ≤ a)%Z → (a < b)%Z → (b ≤ Z.pos bound)%Z →
  text_ltb (zfill w (Z.to_N a)) (zfill w (Z.to_N b)) = true.
Proof.
  intros Ha Hab Hb.
  assert (∀ k : nat, (a + 1 + Z.of_nat k ≤ Z.pos bound)%Z →
            text_ltb (zfill w (Z.to_N a))
                     (zfill w (Z.to_N (a + 1 + Z.of_nat k))) = true) as H.
  { induction k as [|k IH]; intros Hk.
    - replace (a + 1 + Z.of_nat 0)%Z with (a + 1)%Z by lia.
      assert (zfill_ok w a = true) as Hok
        by (eapply all_in_range_spec; [done|lia]).
      unfold zfill_ok in Hok. apply andb_true_iff in Hok as [Hok _].
      by apply andb_true_iff in Hok as [Hok _].
    - eapply text_ltb_trans; [apply IH; lia|].
      replace (a + 1 + Z.of_nat (S k))%Z with (a + 1 + Z.of_nat k + 1)%Z by lia.
      assert (zfill_ok w (a + 1 + Z.of_nat k) = true) as Hok
        by (eapply all_in_range_spec; [done|lia]).
      unfold zfill_ok in Hok. apply andb_true_iff in Hok as [Hok _].
      by apply andb_true_iff in Hok as [Hok _]. }
  replace b with (a + 1 + Z.of_nat (Z.to_nat (b - a - 1)))%Z by lia.
  apply H. lia.
Qed.

End zfill.

(** [isoformat] keeps the order of dates: the text of an earlier date
    sorts strictly before the text of a later one. *)
Lemma isoformat_increasing (a b : date) :
  valid_date a → valid_date b → (a < b)%Z →
  text_ltb (isoformat a) (isoformat b) = true.
Proof.
  intros Ha Hb Hab.
  destruct (date_fields_range a Ha) as (Hya & Hma & Hda).
  destruct (date_fields_range b Hb) as (Hyb & Hmb & Hdb).
  destruct zfill_checked as [H4 H2].
  unfold isoformat.
  rewrite text_ltb_fields
    by (rewrite !(zfill_width 4 9999 H4) by lia; done).
  rewrite (text_ltb_fields (lit "-") (lit "-")) by done.
  rewrite text_ltb_fields
    by (rewrite !(zfill_width 2 99 H2) by lia; done).
  rewrite (text_ltb_fields (lit "-") (lit "-")) by done.
  rewrite (bool_decide_eq_true_2 (lit "-" = lit "-")) by done.
  rewrite !(text_ltb_irrefl (lit "-")). cbn [orb andb].
  destruct (date_fields_increasing a b Ha Hb Hab)
    as [Hy|[Hy [Hm|[Hm Hd]]]].
  - by rewrite (zfill_increasing 4 9999 H4) by lia.
  - rewrite Hy, (bool_decide_eq_true_2 (zfill 4 _ = zfill 4 _)) by done.
    rewrite (zfill_increasing 2 99 H2 (month a)) by lia.
    by rewrite orb_true_r.
  - rewrite Hy, Hm, !(bool_decide_eq_true_2 (zfill _ _ = zfill _ _)) by done.
    rewrite (zfill_increasing 2 99 H2 (day a)) by lia.
    by rewrite !orb_true_r.
Qed.

Lemma isoformat_inj (a b : date) :
  valid_date a → valid_date b → isoformat a = isoformat b → a = b.
Proof.
  intros Ha Hb E.
  destruct (Z.lt_trichotomy a b) as [Hlt|[Heq|Hgt]]; [|done|].
  - pose proof (isoformat_increasing a b Ha Hb Hlt) as H.
    by rewrite E, text_ltb_irrefl in H.
  - pose proof (isoformat_increasing b a Hb Ha Hgt) as H.
    by rewrite E, text_ltb_irrefl in H.
Qed.

(** The comparison of SQLite on the stored texts is the comparison of
    the dates. *)
Lemma text_leb_isoformat (a b : date) :
  valid_date a → valid_date b →
  text_leb (isoformat a) (isoformat b) = bool_decide (a ≤ b)%Z.
Proof.
  intros Ha Hb. case_bool_decide as Hab.
  - destruct (decide (a = b)) as [->|Hne]; [apply text_leb_refl|].
    apply text_ltb_leb, isoformat_increasing; try done. lia.
  - apply text_ltb_not_geb, isoformat_increasing; try done. lia.
Qed.

(** ** The week of a date *)

Lemma add_days_valid (d : date) (n : Z) :
  valid_date (d + n)%Z → add_days d n = Some (d + n)%Z.
Proof.
  intros [Hlo Hhi]. unfold add_days. cbv zeta.
  replace (0 <? d + n)%Z with true by lia.
  by replace (d + n <=? MAXORDINAL)%Z with true by lia.
Qed.

Lemma add_days_overflow (d : date) (n : Z) :
  (MAXORDINAL < d + n)%Z → add_days d n = None.
Proof.
  intros Hhi. unfold add_days. cbv zeta.
  replace (d + n <=? MAXORDINAL)%Z with false by lia.
  by rewrite andb_false_r.
Qed.

Lemma weekday_range (d : date) : (0 ≤ weekday d < 7)%Z.
Proof. unfold weekday. apply Z.mod_pos_bound. lia. Qed.

(** The Monday on or before a valid date is a valid date. *)
Lemma monday_valid (today : date) :
  valid_date today →
  valid_date (today - weekday today)%Z
  ∧ weekday (today - weekday today)%Z = 0%Z.
Proof.
  intros [Hlo Hhi]. unfold valid_date, weekday, MAXORDINAL in *.
  Z.div_mod_to_equations. lia.
Qed.

(** The days after a Monday carry the week days in order. *)
Lemma weekday_after_monday (monday k : Z) :
  weekday monday = 0%Z → (0 ≤ k < 7)%Z → weekday (monday + k)%Z = k.
Proof. unfold weekday. intros H Hk. Z.div_mod_to_equations. lia. Qed.

Lemma week_dates_in_range (today : date) :
  valid_date today → (today ≤ 3652054)%Z →
  let monday := (today - weekday today)%Z in
  week_dates today
  = Some [monday; monday + 1; monday + 2; monday + 3; monday + 4;
          monday + 5; monday + 6]%Z
  ∧ valid_date monday ∧ valid_date (monday + 6)%Z.
Proof.
  intros Hv Hmax monday.
  destruct (monday_valid today Hv) as [Hm Hw]. fold monday in Hm, Hw.
  pose proof (weekday_range today) as Hr.
  assert (valid_date (monday + 6)%Z) as H6.
  { destruct Hv as [Hlo Hhi]. destruct Hm as [Hmlo Hmhi].
    unfold valid_date, MAXORDINAL, weekday in *. subst monday.
    Z.div_mod_to_equations. lia. }
  split; [|done].
  unfold week_dates, sub_days.
  assert (add_days today (- weekday today) = Some monday) as ->.
  { change (add_days today (- weekday today)
            = Some (today + - weekday today)%Z).
    apply add_days_valid.
    by replace (today + - weekday today)%Z with monday
      by (subst monday; lia). }
  simpl. change (seqZ 0 7) with [0; 1; 2; 3; 4; 5; 6]%Z. simpl.
  destruct Hm as [Hmlo Hmhi], H6 as [H6lo H6hi].
  rewrite !add_days_valid by (unfold valid_date; lia). simpl.
  by rewrite Z.add_0_r.
Qed.

(** In the last days of year 9999 the week does not fit in [date]. *)
Lemma week_dates_overflow (today : date) :
  valid_date today → (3652054 < today)%Z → week_dates today = None.
Proof.
  intros Hv Hbig.
  destruct (monday_valid today Hv) as [Hm Hw].
  unfold week_dates, sub_days.
  assert (add_days today (- weekday today) = Some (today - weekday today)%Z)
    as ->.
  { change (add_days today (- weekday today)
            = Some (today + - weekday today)%Z).
    apply add_days_valid.
    by replace (today + - weekday today)%Z with (today - weekday today)%Z
      by lia. }
  cbn [mbind option_bind].
  apply mapM_None, Exists_exists. exists 6%Z. split.
  - apply elem_of_seqZ. lia.
  - apply add_days_overflow.
    destruct Hv as [Hlo Hhi].
    unfold valid_date, MAXORDINAL, weekday in *.
    Z.div_mod_to_equations. lia.
Qed.

(** ** Reading the statuses *)

Lemma statuses_lookup (rows : list Log.row) (k : Z * text) (v : Z) :
  NoDup (log_key <$> rows) →
  foldl (λ (m : gmap (Z * text) Z) r,
           <[(Log.habit_id r, Log.log_date r) := Log.done r]> m) ∅ rows !! k
  = Some v
  ↔ ∃ r, r ∈ rows ∧ log_key r = k ∧ Log.done r = v.
Proof.
  induction rows as [|r rows IH] using rev_ind; intros Hnd.
  - simpl. rewrite lookup_empty. split; [done|].
    intros (r & Hr & _). by apply elem_of_nil in Hr.
  - rewrite fmap_app in Hnd. apply NoDup_app in Hnd as (Hnd & Hfresh & _).
    rewrite foldl_app. simpl.
    destruct (decide (log_key r = k)) as [<-|Hne].
    + unfold log_key at 1. rewrite lookup_insert_eq. split.
      * intros [= <-]. exists r. split; [|done].
        apply elem_of_app. right. by apply list_elem_of_singleton.
      * intros (r' & [Hr'| ->%list_elem_of_singleton]%elem_of_app & Hk & <-);
          [|done].
        exfalso. apply (Hfresh (log_key r)).
        -- apply list_elem_of_fmap. by exists r'.
        -- simpl. by apply list_elem_of_singleton.
    + rewrite lookup_insert_ne by done. rewrite IH by done. split.
      * intros (r' & Hr' & ?). exists r'. split; [|done].
        apply elem_of_app. by left.
      * intros (r' & [Hr'| ->%list_elem_of_singleton]%elem_of_app & Hk & Hv).
        -- by exists r'.
        -- done.
Qed.

(** [weekly_status] on at least one habit and one day: the mapping holds
    exactly the log rows of the listed habits whose date text lies
    between the texts of the first and the last day. *)
Lemma weekly_status_lookup (habit_ids : list Z) (days : list date)
    (first final : date) (s : db) :
  logs_unique s → habit_ids ≠ [] → Forall in_int64 habit_ids →
  head days = Some first → last days = Some final →
  ∃ m, weekly_status habit_ids days s = Some m
       ∧ ∀ h t v,
           m !! (h, t) = Some v
           ↔ h ∈ habit_ids
             ∧ text_leb (isoformat first) t = true
             ∧ text_leb t (isoformat final) = true
             ∧ ∃ r, r ∈ habit_logs s ∧ Log.habit_id r = h
                    ∧ Log.log_date r = t ∧ Log.done r = v.
Proof.
  intros Huniq Hne Hfit Hfirst Hlast. unfold weekly_status.
  destruct habit_ids as [|i ids]; [done|].
  rewrite Hfirst, Hlast. cbn [mbind option_bind].
  rewrite decide_True by done. eexists.
  split; [reflexivity|].
  intros h t v. rewrite statuses_lookup.
  - split.
    + intros (r & [(Hin & H1 & H2) Hr]%list_elem_of_filter & Hk & Hv).
      unfold log_key in Hk. inversion Hk; subst.
      apply Is_true_true in H1, H2.
      split_and!; [exact Hin|exact H1|exact H2|].
      exists r. split_and!; [exact Hr|reflexivity..].
    + intros (Hin & H1 & H2 & r & Hr & <- & <- & Hv). exists r.
      split; [|split; [reflexivity|exact Hv]].
      apply list_elem_of_filter. split; [|exact Hr].
      apply Is_true_true in H1, H2. split_and!; [exact Hin|exact H1|exact H2].
  - eapply sublist_NoDup; [exact Huniq|]. apply fmap_sublist, sublist_filter.
Qed.

(** The statuses over days whose first and last are dates of the
    calendar: the order of the texts is the order of the dates. *)
Lemma weekly_status_dates (habit_ids : list Z) (days : list date)
    (first final : date) (s : db) :
  logs_unique s → habit_ids ≠ [] → Forall in_int64 habit_ids →
  head days = Some first → last days = Some final →
  valid_date first → valid_date final →
  ∃ m, weekly_status habit_ids days s = Some m
       ∧ ∀ h d v, valid_date d →
           (m !! (h, isoformat d) = Some v
            ↔ h ∈ habit_ids ∧ (first ≤ d ≤ final)%Z
              ∧ ∃ r, r ∈ habit_logs s ∧ Log.habit_id r = h
                     ∧ Log.log_date r = isoformat d ∧ Log.done r = v).
Proof.
  intros Huniq Hne Hfit Hfirst Hlast Hvf Hvl.
  destruct (weekly_status_lookup habit_ids days first final s
              Huniq Hne Hfit Hfirst Hlast) as (m & Hm & Hlookup).
  exists m. split; [done|]. intros h d v Hd.
  rewrite Hlookup, !text_leb_isoformat, !bool_decide_eq_true by done.
  tauto.
Qed.

Lemma weekly_status_raises (habit_ids : list Z) (days : list date) (s : db) :
  weekly_status habit_ids days s = None
  ↔ habit_ids ≠ [] ∧ (days = [] ∨ ¬ Forall in_int64 habit_ids).
Proof.
  unfold weekly_status. destruct habit_ids as [|i ids].
  - split; [done|]. by intros [? _].
  - destruct days as [|d days]; [split; [by auto|done]|].
    assert (is_Some (last (d :: days))) as [final ->].
    { rewrite last_is_Some. done. }
    cbn [head mbind option_bind]. destruct (decide _) as [Hfit|Hfit].
    + split; [done|]. by intros [_ [?|?]].
    + split; [by auto|done].
Qed.

(** ** Properties of the remaining functions *)

(** The dates that key the log rows keep their order as text: for valid
    dates, SQLite's comparison of two stored [log_date] values is the
    comparison of the dates, and two dates share a key only when they are
    the same date. *)
Theorem log_date_text_order (a b : date) :
  valid_date a → valid_date b →
  text_leb (isoformat a) (isoformat b) = bool_decide (a ≤ b)%Z
  ∧ (isoformat a = isoformat b ↔ a = b).
Proof.
  intros Ha Hb. split; [by apply text_leb_isoformat|].
  split; [by apply isoformat_inj|by intros ->].
Qed.

Lemma log_date_text_order_witness :
  valid_date 738886%Z ∧ valid_date 738892%Z
  ∧ text_leb (isoformat 738886%Z) (isoformat 738892%Z)
    = bool_decide (738886 ≤ 738892)%Z.
Proof.
  assert (Ha : valid_date 738886%Z) by (unfold valid_date, MAXORDINAL; lia).
  assert (Hb : valid_date 738892%Z) by (unfold valid_date, MAXORDINAL; lia).
  split; [exact Ha|]. split; [exact Hb|].
  exact (proj1 (log_date_text_order 738886%Z 738892%Z Ha Hb)).
Defined.

(** [weekly_status] over a range of days: with at least one habit id,
    all of 64 bits, the mapping has an entry for a (habit, day) pair
    exactly when the habit is among the ids, the day lies between the first
    and the last day of the list, and the pair has a log row; the entry is
    that row's [done]. *)
Theorem weekly_status_window (habit_ids : list Z) (days : list date)
    (first final : date) (s : db) :
  logs_unique s → habit_ids ≠ [] → Forall in_int64 habit_ids →
  head days = Some first → last days = Some final →
  valid_date first → valid_date final →
  ∃ m, weekly_status habit_ids days s = Some m
       ∧ ∀ h d v, valid_date d →
           (m !! (h, isoformat d) = Some v
            ↔ h ∈ habit_ids ∧ (first ≤ d ≤ final)%Z
              ∧ ∃ r, r ∈ habit_logs s ∧ Log.habit_id r = h
                     ∧ Log.log_date r = isoformat d ∧ Log.done r = v).
Proof. apply weekly_status_dates. Qed.

(** [weekly_status] raises exactly when it is given habit ids and either
    no day ([IndexError]) or an id that does not fit in 64 signed bits
    ([OverflowError]); without habit ids it returns the empty mapping
    before it looks at the days.  (The number of ids that one statement
    takes is a limit of the SQLite build and is not modelled.) *)
Theorem weekly_status_fails_without_days (habit_ids : list Z)
    (days : list date) (s : db) :
  (weekly_status habit_ids days s = None
   ↔ habit_ids ≠ [] ∧ (days = [] ∨ ¬ Forall in_int64 habit_ids))
  ∧ weekly_status [] days s = Some ∅.
Proof. split; [apply weekly_status_raises|done]. Qed.

(** Marking one (habit, day) pair done touches that pair only: for ids
    of 64 bits, while [habit_logs] has a row id to give, [mark_done]
    returns true, the pair is done afterwards, every other pair of a habit
    and a valid date keeps its state, and users and habits are left alone.
    The same holds for a successful [mark_done_for_user], and one that
    returns false changes no pair. *)
Theorem mark_done_touches_one_pair (now user_id habit_id h' : Z)
    (d d' : date) (s : db) :
  valid_date d → valid_date d' → NoDup (Habit.id <$> habits s) →
  in_int64 habit_id → in_int64 user_id →
  has_room (seq_habit_logs s) (Log.id <$> habit_logs s) →
  ∃ s1 b s2,
    mark_done now habit_id d s = Some (true, s1)
    ∧ is_done h' (isoformat d') s1
      = (if bool_decide (h' = habit_id ∧ d' = d) then true
         else is_done h' (isoformat d') s)
    ∧ users s1 = users s
    ∧ habits s1 = habits s
    ∧ mark_done_for_user now user_id habit_id d s = Some (b, s2)
    ∧ is_done h' (isoformat d') s2
      = (if b && bool_decide (h' = habit_id ∧ d' = d) then true
         else is_done h' (isoformat d') s).
Proof.
  intros Hd Hd' Hnd Hh Hu Hroom.
  assert (bool_decide (h' = habit_id ∧ isoformat d' = isoformat d)
          = bool_decide (h' = habit_id ∧ d' = d)) as Hkey.
  { apply bool_decide_ext. split; intros [? E]; split; try done.
    - by apply isoformat_inj.
    - by rewrite E. }
  exists (upsert_log now habit_id (isoformat d) s).
  assert (mark_done now habit_id d s
          = Some (true, upsert_log now habit_id (isoformat d) s)) as ->.
  { unfold mark_done. rewrite decide_True by done.
    by rewrite insert_log_room. }
  destruct (mark_done_for_user_cases now user_id habit_id d s Hnd Hh Hu)
    as [[_ ->]|[_ ->]].
  - exists false, s. split_and!; try done.
    by rewrite is_done_after_upsert, Hkey.
  - rewrite insert_log_room by done. eexists true, _.
    split_and!; try done; by rewrite is_done_after_upsert, Hkey.
Qed.

(** ** The week view *)

Lemma ljust_length (w : nat) (t : text) : length t ≤ w → length (ljust w t) = w.
Proof. intros H. unfold ljust. rewrite length_app, length_replicate. lia. Qed.

(** The field of the title is always 15 wide. *)
Lemma title_field_length (title : text) : length (ljust 15 (take 15 title)) = 15.
Proof. apply ljust_length. rewrite length_take. lia. Qed.

(** The grid is fixed-width: whatever the title, a habit's line is 15
    columns of title (cut or padded with spaces), one space, and one cell
    per day, in the order of the days; the cell of a day is the green
    square exactly when the statuses map the pair to 1. *)
Theorem habit_line_fixed_width (statuses : gmap (Z * text) Z)
    (days : list date) (h : Z * text) :
  length (habit_line statuses days h) = 16 + length days
  ∧ take 15 (habit_line statuses days h) = ljust 15 (take 15 h.2)
  ∧ habit_line statuses days h !! 15 = Some 32%N
  ∧ drop 16 (habit_line statuses days h)
    = (λ d, if bool_decide (statuses !! (h.1, isoformat d) = Some 1%Z)
            then DONE_CELL else UNDONE_CELL) <$> days.
Proof.
  unfold habit_line. cbv zeta.
  pose proof (title_field_length h.2) as Hlen.
  split_and!.
  - rewrite !length_app, Hlen, length_fmap. simpl. lia.
  - rewrite take_app_length'; done.
  - unfold text in *. rewrite lookup_app_r by (rewrite Hlen; lia).
    by rewrite Hlen.
  - rewrite (app_assoc _ (lit " ")), drop_app_length'
      by (rewrite length_app, Hlen; done).
    apply list_fmap_ext. intros _ d _. unfold cell.
    destruct (statuses !! (h.1, isoformat d)) as [v|] eqn:E;
      repeat case_bool_decide; simplify_eq/=; done.
Qed.

Lemma build_week_table_nonempty (habits : list (Z * text))
    (statuses : gmap (Z * text) Z) (first : date) (days : list date) :
  ∃ final, last (first :: days) = Some final
    ∧ build_week_table habits statuses (first :: days)
      = Some (join NL
                ((lit "Week " ++ strftime_d_b first ++ lit " - "
                  ++ strftime_d_b final)
                 :: (ljust 16 [] ++ day_header (first :: days))
                 :: (habit_line statuses (first :: days) <$> habits))).
Proof.
  assert (is_Some (last (first :: days))) as [final Hfinal]
    by (by rewrite last_is_Some).
  exists final. split; [done|]. unfold build_week_table.
  rewrite Hfinal. done.
Qed.

(** Under the header of a week stand the initials of Monday to Sunday. *)
Lemma day_header_of_week (monday : date) :
  weekday monday = 0%Z →
  day_header [monday; monday + 1; monday + 2; monday + 3; monday + 4;
              monday + 5; monday + 6]%Z
  = lit " M T W T F S S".
Proof.
  intros Hw. unfold day_header, strftime_a. simpl.
  rewrite Hw, !weekday_after_monday by (done || lia). reflexivity.
Qed.

(** The cell of a day of the range shows whether the pair is done. *)
Lemma cell_shows_is_done (m : gmap (Z * text) Z) (habit_ids : list Z)
    (first final : date) (s : db) (h : Z) (d : date) :
  (∀ h d v, valid_date d →
     (m !! (h, isoformat d) = Some v
      ↔ h ∈ habit_ids ∧ (first ≤ d ≤ final)%Z
        ∧ ∃ r, r ∈ habit_logs s ∧ Log.habit_id r = h
               ∧ Log.log_date r = isoformat d ∧ Log.done r = v)) →
  h ∈ habit_ids → valid_date d → (first ≤ d ≤ final)%Z →
  cell m h d
  = if is_done h (isoformat d) s then DONE_CELL else UNDONE_CELL.
Proof.
  intros Hm Hh Hd Hrange. unfold cell.
  assert (default 0%Z (m !! (h, isoformat d)) = 1%Z
          ↔ is_done h (isoformat d) s = true) as Hiff.
  { rewrite is_done_spec. split.
    - destruct (m !! (h, isoformat d)) as [v|] eqn:E; simpl; [|done].
      intros ->. by apply Hm in E as (_ & _ & ?).
    - intros Hrow. assert (m !! (h, isoformat d) = Some 1%Z) as ->; [|done].
      by apply Hm. }
  destruct (is_done h (isoformat d) s).
  - rewrite bool_decide_eq_true_2; [done|]. by apply Hiff.
  - rewrite bool_decide_eq_false_2; [done|]. intros ?%Hiff. done.
Qed.

(** The ids of the habits that are listed for a user can be bound
    again, and so can the user id when something is listed. *)
Lemma select_habits_fit (user_id : Z) (s : db) :
  db_fits s →
  Forall in_int64 (fst <$> select_habits user_id s)
  ∧ (select_habits user_id s ≠ [] → in_int64 user_id).
Proof.
  intros Hf. split.
  - apply Forall_fmap, Forall_forall.
    intros [i t] (h & Hh & <- & _)%select_habits_elem.
    by eapply habit_user_fits.
  - destruct (select_habits user_id s) as [|[i t] hs] eqn:E; [done|].
    intros _. assert ((i, t) ∈ select_habits user_id s) as Hin
      by (rewrite E; left).
    apply select_habits_elem in Hin as (h & Hh & _ & _ & <- & _).
    by eapply habit_user_fits.
Qed.

(** [send_week_view] raises exactly when the user id does not fit in 64
    signed bits, or the user has habits and today is one of the last five
    days of year 9999, whose week does not fit in [date]; a user without
    habits always gets the hint, whatever the date. *)
Theorem send_week_view_fails_on_overflow (today : date) (user_id : Z) (s : db) :
  valid_date today → db_fits s →
  (send_week_view today user_id s = None
   ↔ ¬ in_int64 user_id
     ∨ (list_habits user_id s ≠ Some [] ∧ (3652054 < today)%Z))
  ∧ (list_habits user_id s = Some [] →
     send_week_view today user_id s
     = Some [plain (lit "No habits yet. Use /add first.")]).
Proof.
  intros Hv Hf. unfold send_week_view, list_habits.
  destruct (decide (in_int64 user_id)) as [Hu|Hu];
    [|split; [split; [by left|done]|done]].
  cbn [mbind option_bind].
  destruct (select_habits_fit user_id s Hf) as [Hids _].
  destruct (select_habits user_id s) as [|h0 hs] eqn:E.
  { split; [|done]. split; [done|]. by intros [?|[? _]]. }
  split; [|done].
  destruct (decide (today ≤ 3652054)%Z) as [Hfit|Hover].
  - destruct (week_dates_in_range today Hv Hfit) as (-> & _ & _).
    cbn [mbind option_bind].
    destruct (weekly_status (fst <$> h0 :: hs) _ s) as [m|] eqn:Em.
    + cbn [mbind option_bind].
      match goal with
      | |- context [build_week_table ?hs ?m (?f :: ?ds)] =>
          destruct (build_week_table_nonempty hs m f ds) as (final & _ & Hb);
          destruct (build_week_table hs m (f :: ds)) as [table|] eqn:Eb
      end.
      * simpl. split; [done|]. intros [?|[_ ?]]; [done|lia].
      * discriminate (eq_trans (eq_sym Hb) Eb).
    + apply weekly_status_raises in Em as [_ [?|?]]; done.
  - rewrite week_dates_overflow by (done || lia).
    simpl. split; [|done]. intros _. right. split; [done|lia].
Qed.

(** The week view of a user with habits, on a day whose week fits in
    [date], from a store that holds 64-bit integers and at most one log
    row per pair: one HTML message whose [<pre>] block holds the span of
    the week, the initials of Monday to Sunday, and one fixed-width line
    per active habit in ascending id order, where the cell of each day is
    the green square exactly when the habit has a done row for that day. *)
Theorem send_week_view_grid (today : date) (user_id : Z) (s : db)
    (listed : list (Z * text)) :
  db_fits s → logs_unique s → valid_date today → (today ≤ 3652054)%Z →
  list_habits user_id s = Some listed → listed ≠ [] →
  let monday := (today - weekday today)%Z in
  let line (h : Z * text) : text :=
    ljust 15 (take 15 h.2) ++ lit " "
    ++ ((λ k, if is_done h.1 (isoformat (monday + k)%Z) s
              then DONE_CELL else UNDONE_CELL)
          <$> [0; 1; 2; 3; 4; 5; 6]%Z) in
  send_week_view today user_id s
  = Some [ {| body :=
                lit "<pre>"
                ++ join NL
                     ((lit "Week " ++ strftime_d_b monday ++ lit " - "
                       ++ strftime_d_b (monday + 6)%Z)
                      :: (replicate 16 32%N ++ lit " M T W T F S S")
                      :: (line <$> listed))
                ++ lit "</pre>";
              with_main_menu := false;
              parse_mode := Some (lit "HTML") |} ].
Proof.
  intros Hf Huniq Hv Hfit [Hu ->]%list_habits_Some Hhabits monday line.
  destruct (select_habits_fit user_id s Hf) as [Hids _].
  destruct (week_dates_in_range today Hv Hfit) as (Hweek & Hm & H6).
  destruct (monday_valid today Hv) as [_ Hw].
  fold monday in Hweek, Hm, H6, Hw.
  set (days := [monday; monday + 1; monday + 2; monday + 3; monday + 4;
                monday + 5; monday + 6]%Z) in *.
  unfold send_week_view. rewrite list_habits_bound by done.
  cbn [mbind option_bind].
  destruct (select_habits user_id s) as [|h0 hs] eqn:E; [done|].
  rewrite Hweek. cbn [mbind option_bind].
  destruct (weekly_status_dates (fst <$> h0 :: hs) days monday (monday + 6)%Z s)
    as (m & Hm_eq & Hlookup); try done.
  rewrite Hm_eq. cbn [mbind option_bind].
  destruct (build_week_table_nonempty (h0 :: hs) m monday (tail days))
    as (final & Hfinal & Hb).
  assert (final = (monday + 6)%Z) as -> by (simpl in Hfinal; congruence).
  change (monday :: tail days) with days in Hb. rewrite Hb.
  cbn [mbind option_bind]. do 3 f_equal. do 4 f_equal.
  f_equal.
  - unfold days. by rewrite day_header_of_week.
  - apply Forall_fmap_ext_1, Forall_forall. intros h Hh.
    unfold habit_line, line. cbv zeta. do 2 f_equal.
    assert (h.1 ∈ fst <$> h0 :: hs) as Hid
      by (apply list_elem_of_fmap; by exists h).
    assert (∀ k, (0 ≤ k ≤ 6)%Z →
              cell m h.1 (monday + k)%Z
              = if is_done h.1 (isoformat (monday + k)%Z) s
                then DONE_CELL else UNDONE_CELL) as Hcell.
    { intros k Hk.
      eapply cell_shows_is_done; [exact Hlookup|done| |lia].
      destruct Hm, H6. unfold valid_date in *. lia. }
    unfold days. simpl.
    rewrite <- (Z.add_0_r monday) at 1.
    by rewrite !Hcell by lia.
Qed.

(** ** Listing habits *)

#[local] Instance id_asc_trans : Transitive id_asc.
Proof. intros a b c. unfold id_asc. lia. Qed.

#[local] Instance id_asc_total : Total id_asc.
Proof. intros a b. unfold id_asc. lia. Qed.

Lemma select_habits_same_habits (user_id : Z) (s s' : db) :
  habits s' = habits s → select_habits user_id s' = select_habits user_id s.
Proof. unfold select_habits. by intros ->. Qed.

(** Rows with unique ids have only one arrangement in id order. *)
Lemma sorted_rows_unique (l1 l2 : list Habit.row) :
  NoDup (Habit.id <$> l1) →
  StronglySorted id_asc l1 → StronglySorted id_asc l2 → l1 ≡ₚ l2 → l1 = l2.
Proof.
  intros Hnd H1 H2 Hperm.
  apply (StronglySorted_unique_strong id_asc); try done.
  intros x1 x2 Hx1 Hx2 Hle Hge. rewrite <- Hperm in Hx2.
  unfold id_asc in *.
  apply list_elem_of_lookup in Hx1 as [i Hi], Hx2 as [j Hj].
  assert (i = j) as ->; [|congruence].
  eapply NoDup_lookup; [exact Hnd| |]; rewrite list_lookup_fmap.
  - by rewrite Hi.
  - rewrite Hj. simpl. f_equal. lia.
Qed.

(** Sorting a table to which a row of larger id was appended. *)
Lemma merge_sort_snoc_largest (l : list Habit.row) (x : Habit.row) :
  NoDup (Habit.id <$> l) →
  (∀ y, y ∈ l → (Habit.id y < Habit.id x)%Z) →
  merge_sort id_asc (l ++ [x]) = merge_sort id_asc l ++ [x].
Proof.
  intros Hnd Hmax. apply sorted_rows_unique.
  - rewrite merge_sort_Permutation, fmap_app. simpl.
    apply NoDup_snoc; [|done].
    intros (y & E & Hy)%list_elem_of_fmap. apply Hmax in Hy. lia.
  - apply StronglySorted_merge_sort; apply _.
  - apply StronglySorted_app_2.
    + intros y z Hy ->%list_elem_of_singleton.
      rewrite merge_sort_Permutation in Hy. apply Hmax in Hy.
      unfold id_asc. lia.
    + apply StronglySorted_merge_sort; apply _.
    + repeat constructor.
  - by rewrite !merge_sort_Permutation.
Qed.

Lemma select_habits_add_last (now user_id : Z) (title : text) (s : db) :
  NoDup (Habit.id <$> habits s) →
  select_habits user_id (insert_habit now user_id title s).2
  = select_habits user_id s
    ++ [(next_rowid (seq_habits s) (Habit.id <$> habits s), strip title)].
Proof.
  intros Hnd. unfold select_habits. simpl.
  rewrite filter_app, filter_cons_True, filter_nil by done.
  rewrite merge_sort_snoc_largest.
  - by rewrite fmap_app.
  - eapply sublist_NoDup; [exact Hnd|]. apply fmap_sublist, sublist_filter.
  - intros y [_ Hy]%list_elem_of_filter. simpl.
    apply next_rowid_above, list_elem_of_fmap. by exists y.
Qed.

Lemma select_habits_add_other (now user_id other : Z) (title : text) (s : db) :
  other ≠ user_id →
  select_habits other (insert_habit now user_id title s).2 = select_habits other s.
Proof.
  intros Hne. unfold select_habits. simpl.
  rewrite filter_app, filter_cons_False, filter_nil, app_nil_r; [done|].
  simpl. by intros [? _].
Qed.

Lemma sorted_strictly (l : list Z) : Sorted Z.le l → NoDup l → Sorted Z.lt l.
Proof.
  intros Hs%Sorted_StronglySorted Hnd; [|apply _].
  induction Hs as [|x l Hl IH Hx]; [constructor|].
  apply NoDup_cons in Hnd as [Hx' Hnd]. constructor; [by apply IH|].
  destruct l as [|y l']; constructor.
  apply Forall_cons in Hx as [Hxy _].
  assert (x ≠ y) by (intros ->; apply Hx'; left). lia.
Qed.

(** [list_habits], for a user id of 64 bits, gives the user's active
    habits, all of them and nothing else, each once, in strictly ascending
    order of id. *)
Theorem list_habits_active_in_id_order (user_id : Z) (s : db) :
  NoDup (Habit.id <$> habits s) → in_int64 user_id →
  ∃ listed,
    list_habits user_id s = Some listed
    ∧ (∀ i t, (i, t) ∈ listed
              ↔ ∃ h, h ∈ habits s ∧ Habit.id h = i ∧ Habit.title h = t
                     ∧ Habit.user_id h = user_id ∧ Habit.is_active h = 1%Z)
    ∧ Sorted Z.lt (fst <$> listed)
    ∧ length listed
      = length (filter (λ h, Habit.user_id h = user_id
                             ∧ Habit.is_active h = 1%Z) (habits s)).
Proof.
  intros Hnd Hu. exists (select_habits user_id s).
  split; [by apply list_habits_bound|]. split_and!.
  - intros i t. apply select_habits_elem.
  - apply sorted_strictly; [apply select_habits_sorted|].
    rewrite select_habits_perm, <- list_fmap_compose.
    eapply sublist_NoDup; [exact Hnd|].
    apply (fmap_sublist Habit.id), sublist_filter.
  - by rewrite select_habits_perm, length_fmap.
Qed.

(** A new habit goes to the end of its owner's listing, under the
    stripped title and an id larger than every id in the table, and leaves
    the listing of every other user as it was (for a user id and a title
    that SQLite can store, while [habits] has a row id to give). *)
Theorem add_habit_listed_last (now user_id other : Z) (title : text) (s : db) :
  NoDup (Habit.id <$> habits s) → other ≠ user_id →
  in_int64 user_id → encodable (strip title) →
  has_room (seq_habits s) (Habit.id <$> habits s) →
  ∃ habit_id s' before,
    add_habit now user_id title s = Some (habit_id, s')
    ∧ list_habits user_id s = Some before
    ∧ list_habits user_id s' = Some (before ++ [(habit_id, strip title)])
    ∧ list_habits other s' = list_habits other s
    ∧ Forall (λ i, (i < habit_id)%Z) (Habit.id <$> habits s).
Proof.
  intros Hnd Hne Hu Ht Hroom. eexists _, _, _.
  split; [by apply add_habit_bound|].
  split; [by apply list_habits_bound|]. split_and!.
  - rewrite list_habits_bound by done. f_equal.
    by apply select_habits_add_last.
  - unfold list_habits. destruct (decide _); [|done]. f_equal.
    by apply select_habits_add_other.
  - apply Forall_forall. intros i Hi. by apply next_rowid_above.
Qed.

(** ** Users *)

Lemma find_snoc_miss {A} (f : A → bool) (l : list A) (x : A) :
  f x = false → List.find f (l ++ [x]) = List.find f l.
Proof.
  intros Hx. induction l as [|y l IH]; simpl; [by rewrite Hx|].
  by destruct (f y).
Qed.

Lemma lookup_other_user (now tg tg' : Z) (name : option text) (s s' : db)
    (uid : Z) :
  tg' ≠ tg → upsert_user_stmt now tg name s = Some (uid, s') →
  lookup_user tg' s' = lookup_user tg' s.
Proof.
  intros Hne E. unfold lookup_user.
  destruct (decide (tg ∈ User.tg_user_id <$> users s)) as [Hin|Hin].
  - destruct (upsert_user_stmt_update now tg name s Hin) as (r & _ & _ & _ & E').
    rewrite E' in E. inversion E; subst. simpl.
    rewrite (find_fmap_stable _
               (λ r, if bool_decide (User.tg_user_id r = tg)
                     then set_tg_username name r else r))
      by (intros x; apply lookup_through_rename).
    destruct (List.find _ (users s)) as [x|] eqn:Ex; [|done]. simpl.
    apply find_some in Ex as [_ Ex%bool_decide_eq_true].
    rewrite bool_decide_eq_false_2; [done|congruence].
  - rewrite upsert_user_stmt_insert in E by done. inversion E; subst. simpl.
    apply find_snoc_miss. simpl. by apply bool_decide_eq_false.
Qed.

Lemma upsert_user_stmt_registers (now tg : Z) (name : option text) (s s' : db)
    (uid : Z) :
  upsert_user_stmt now tg name s = Some (uid, s') →
  ∃ r, lookup_user tg s' = Some r ∧ User.id r = uid
       ∧ User.tg_username r = name.
Proof.
  intros E.
  destruct (decide (tg ∈ User.tg_user_id <$> users s)) as [Hin|Hin].
  - destruct (upsert_user_stmt_update now tg name s Hin) as (r & Hf & _ & _ & E').
    rewrite E' in E. inversion E; subst.
    destruct (upsert_user_stmt_known now tg name s r Hf) as (s2 & E2 & L2 & _).
    rewrite E' in E2. inversion E2; subst.
    eexists. split; [exact L2|]. split; reflexivity.
  - rewrite upsert_user_stmt_insert in E by done. inversion E; subst.
    eexists. split.
    + unfold lookup_user. simpl. apply find_snoc_fresh.
      * intros y Hy. apply bool_decide_eq_false. intros <-.
        apply Hin, list_elem_of_fmap. by exists y.
      * by apply bool_decide_eq_true.
    + split; reflexivity.
Qed.

(** [upsert_user], for an external id of 64 bits and a name that SQLite
    can store, while [users] has a row id to give, returns and touches one
    user: the sender is known afterwards under the returned id and the
    given name, every other external id resolves to the row it had, the
    table grows by one row only for an unknown sender, and habits and logs
    are left alone. *)
Theorem upsert_user_touches_one_user (now tg : Z) (name : option text)
    (s : db) :
  in_int64 tg → bindable name →
  has_room (seq_users s) (User.id <$> users s) →
  ∃ uid s',
    upsert_user now tg name s = Some (uid, s')
    ∧ (∃ r, lookup_user tg s' = Some r ∧ User.id r = uid
            ∧ User.tg_username r = name)
    ∧ (∀ tg', tg' ≠ tg → lookup_user tg' s' = lookup_user tg' s)
    ∧ length (users s')
      = (if bool_decide (tg ∈ User.tg_user_id <$> users s)
         then length (users s) else S (length (users s)))
    ∧ habits s' = habits s ∧ habit_logs s' = habit_logs s.
Proof.
  intros Htg Hname Hroom. rewrite upsert_user_bound by done.
  destruct (upsert_user_stmt_total now tg name s) as [[uid s'] E].
  exists uid, s'. split; [done|].
  destruct (upsert_user_stmt_other_tables _ _ _ _ _ _ E) as (Hh & _ & Hl & _).
  split_and!; try done.
  - by eapply upsert_user_stmt_registers.
  - intros tg' Hne. by eapply lookup_other_user.
  - case_bool_decide as Hin.
    + destruct (upsert_user_stmt_update now tg name s Hin) as (r & _ & _ & _ & E').
      rewrite E' in E. inversion E; subst. simpl. by rewrite length_fmap.
    + rewrite upsert_user_stmt_insert in E by done. inversion E; subst. simpl.
      rewrite length_app. simpl. lia.
Qed.

(** ** When the store raises *)

(** The calls on the store raise exactly when SQLite cannot take a
    parameter (an integer beyond 64 signed bits, a text with a lone
    surrogate) or cannot give a row id to a row that the statement
    inserts; [mark_done_for_user] inserts a row only for a habit of the
    user. *)
Theorem store_raises_exactly_when (now user_id habit_id tg : Z)
    (name : option text) (title : text) (d : date) (s : db) :
  NoDup (Habit.id <$> habits s) →
  (upsert_user now tg name s = None
   ↔ ¬ (in_int64 tg ∧ bindable name
        ∧ has_room (seq_users s) (User.id <$> users s)))
  ∧ (add_habit now user_id title s = None
     ↔ ¬ (in_int64 user_id ∧ encodable (strip title)
          ∧ has_room (seq_habits s) (Habit.id <$> habits s)))
  ∧ (list_habits user_id s = None ↔ ¬ in_int64 user_id)
  ∧ (mark_done now habit_id d s = None
     ↔ ¬ (in_int64 habit_id
          ∧ has_room (seq_habit_logs s) (Log.id <$> habit_logs s)))
  ∧ (mark_done_for_user now user_id habit_id d s = None
     ↔ ¬ (in_int64 habit_id ∧ in_int64 user_id)
       ∨ ((∃ h, h ∈ habits s ∧ owned_active user_id habit_id h)
          ∧ ¬ has_room (seq_habit_logs s) (Log.id <$> habit_logs s))).
Proof.
  intros Hnd. split_and!.
  - apply upsert_user_raises.
  - unfold add_habit. by destruct (decide _).
  - unfold list_habits. by destruct (decide _).
  - unfold mark_done, insert_log.
    destruct (decide (in_int64 habit_id)) as [Hh|Hh]; [|split; [tauto|done]].
    destruct (decide (has_room _ _)) as [Hr|Hr]; cbn [mbind option_bind].
    + split; [done|tauto].
    + split; [tauto|done].
  - destruct (decide (in_int64 habit_id ∧ in_int64 user_id)) as [[Hh Hu]|Hno].
    + destruct (mark_done_for_user_cases now user_id habit_id d s Hnd Hh Hu)
        as [[Hmiss ->]|[Hhit ->]].
      * split; [done|]. intros [?|[? _]]; tauto.
      * unfold insert_log. destruct (decide (has_room _ _)) as [Hr|Hr]; simpl.
        -- split; [done|]. intros [?|[_ ?]]; tauto.
        -- split; [|done]. intros _. by right.
    + unfold mark_done_for_user. rewrite decide_False by done.
      split; [by left|done].
Qed.

(** ** Invariants of the tables *)

(** In every state that the calls can reach from an empty database, the
    primary keys of the three tables are unique, no two users share a
    Telegram id (the [UNIQUE] constraint of [users] is never violated),
    and every log row is a done row: an undone pair has no row. *)
Theorem reachable_tables_consistent (s : db) :
  reachable s →
  NoDup (User.id <$> users s)
  ∧ NoDup (User.tg_user_id <$> users s)
  ∧ NoDup (Habit.id <$> habits s)
  ∧ NoDup (Log.id <$> habit_logs s)
  ∧ Forall (λ r, Log.done r = 1%Z) (habit_logs s)
  ∧ (∀ h d, is_done h d s = true ↔ (h, d) ∈ log_key <$> habit_logs s).
Proof.
  intros [H1 H2 H3 H4 H5 H6]%reachable_wf. split_and!; try done.
  intros h d. by apply is_done_key.
Qed.

(** Every store that the calls can reach from an empty database holds
    values of 64 signed bits in the integer columns that the program
    reads, so that the ids which [list_habits] returns can be bound
    again. *)
Theorem reachable_store_fits (s : db) (user_id : Z) :
  reachable s → in_int64 user_id →
  db_fits s
  ∧ ∃ listed, list_habits user_id s = Some listed
              ∧ Forall in_int64 (fst <$> listed).
Proof.
  intros Hf%reachable_fits Hu. split; [done|].
  exists (select_habits user_id s). split; [by apply list_habits_bound|].
  by apply select_habits_fit.
Qed.

(** ** The keyboards *)

Lemma lit_inj (a b : string) : lit a = lit b → a = b.
Proof.
  unfold lit. intros H.
  assert (Inj (=) (=) (λ c : ascii, N_of_ascii c)) as Hinj.
  { intros x y E. by rewrite <- (ascii_N_embedding x), <- (ascii_N_embedding y), E. }
  apply (inj (fmap _)) in H.
  by rewrite <- (string_of_list_ascii_of_string a),
             <- (string_of_list_ascii_of_string b), H.
Qed.

(** The decimal text of an id determines the id. *)
Lemma str_int_inj (a b : Z) : str_int a = str_int b → a = b.
Proof. unfold str_int. intros H%lit_inj. by apply (inj pretty). Qed.

(** The statuses of a single day say whether each pair is done. *)
Lemma statuses_of_one_day (habit_ids : list Z) (today : date) (s : db)
    (h : Z) :
  logs_unique s → Forall in_int64 habit_ids → h ∈ habit_ids →
  ∃ m, weekly_status habit_ids [today] s = Some m
       ∧ bool_decide (default 0%Z (m !! (h, isoformat today)) = 1%Z)
         = is_done h (isoformat today) s.
Proof.
  intros Huniq Hfit Hh.
  destruct (weekly_status_lookup habit_ids [today] today today s)
    as (m & Hm & Hlookup); try done.
  { intros ->. by apply elem_of_nil in Hh. }
  exists m. split; [done|]. apply eq_true_iff_eq.
  rewrite bool_decide_eq_true, is_done_spec. split.
  - destruct (m !! (h, isoformat today)) as [v|] eqn:E; simpl; [|done].
    intros ->. by apply Hlookup in E as (_ & _ & _ & ?).
  - intros Hrow. assert (m !! (h, isoformat today) = Some 1%Z) as ->; [|done].
    apply Hlookup. split_and!; [done|apply text_leb_refl..|done].
Qed.

Lemma build_done_keyboard_eq (today : date) (habits : list (Z * text))
    (s : db) :
  logs_unique s → Forall in_int64 (fst <$> habits) →
  build_done_keyboard today habits s
  = Some ((λ h : Z * text,
             {| label := [if is_done h.1 (isoformat today) s
                          then DONE_MARK else UNDONE_MARK]
                         ++ lit " " ++ h.2;
                callback_data := DONE_PREFIX ++ str_int h.1 |}) <$> habits).
Proof.
  intros Huniq Hfit. unfold build_done_keyboard. cbv zeta.
  destruct habits as [|h0 hs]; [done|].
  destruct (statuses_of_one_day (fst <$> h0 :: hs) today s h0.1 Huniq Hfit)
    as (m & Hm & _); [left|].
  rewrite Hm. cbn [mbind option_bind]. f_equal.
  apply Forall_fmap_ext_1, Forall_forall. intros h Hh.
  destruct (statuses_of_one_day (fst <$> h0 :: hs) today s h.1 Huniq Hfit)
    as (m' & Hm' & Hcell).
  { apply list_elem_of_fmap. by exists h. }
  assert (m' = m) as -> by congruence.
  rewrite Hcell. by destruct (is_done h.1 (isoformat today) s).
Qed.

(** The [/done] keyboard, for habits whose ids fit in 64 bits, has one
    button per habit, in the order of the listing: the button carries the
    check mark exactly when the habit has a done row for today, then the
    title, and its callback data is ["done:"] followed by the decimal id,
    so that different habits get different callback data. *)
Theorem build_done_keyboard_buttons (today : date) (habits : list (Z * text))
    (s : db) :
  logs_unique s → Forall in_int64 (fst <$> habits) →
  build_done_keyboard today habits s
  = Some ((λ h : Z * text,
             {| label := [if is_done h.1 (isoformat today) s
                          then DONE_MARK else UNDONE_MARK]
                         ++ lit " " ++ h.2;
                callback_data := DONE_PREFIX ++ str_int h.1 |}) <$> habits)
  ∧ ∀ a b, DONE_PREFIX ++ str_int a = DONE_PREFIX ++ str_int b → a = b.
Proof.
  intros Huniq Hfit. split; [by apply build_done_keyboard_eq|].
  intros a b H%app_inv_head. by apply str_int_inj.
Qed.

(** ** The command handlers *)

Lemma upsert_user_registers (now tg : Z) (name : option text) (s s' : db)
    (uid : Z) :
  upsert_user now tg name s = Some (uid, s') →
  (∃ r, lookup_user tg s' = Some r ∧ User.id r = uid
        ∧ User.tg_username r = name)
  ∧ (∀ tg', tg' ≠ tg → lookup_user tg' s' = lookup_user tg' s).
Proof.
  intros (_ & _ & _ & E)%upsert_user_Some. split.
  - by eapply upsert_user_stmt_registers.
  - intros tg' Hne. by eapply lookup_other_user.
Qed.

(** What a command leaves: the store after its [upsert_user], whatever
    comes after it in the handler. *)
Lemma command_store (now : Z) (today : date) (from_id : Z)
    (username : option text) (st : fsm_state) (s : db) (uid : Z) (s1 : db) :
  upsert_user now from_id username s = Some (uid, s1) →
  store (start now from_id username st s) = s1
  ∧ store (add_command now from_id username st s) = s1
  ∧ store (done_command now today from_id username st s) = s1
  ∧ store (delete_command now from_id username st s) = s1
  ∧ store (week_command now today from_id username st s) = s1
  ∧ fsm (start now from_id username st s) = st
  ∧ fsm (add_command now from_id username st s) = waiting_for_title
  ∧ fsm (done_command now today from_id username st s) = st
  ∧ fsm (delete_command now from_id username st s) = st
  ∧ fsm (week_command now today from_id username st s) = st.
Proof.
  intros E.
  unfold start, add_command, done_command, delete_command, week_command.
  rewrite E.
  split_and!; try done;
    repeat match goal with
    | |- context [match list_habits ?u ?s with _ => _ end] =>
        destruct (list_habits u s) as [[|? ?]|]
    | |- context [match build_done_keyboard ?a ?b ?c with _ => _ end] =>
        destruct (build_done_keyboard a b c)
    | |- context [match send_week_view ?a ?b ?c with _ => _ end] =>
        destruct (send_week_view a b c)
    end; done.
Qed.

(** The five commands only register the sender (whose id and name SQLite
    can store, while [users] has a row id to give): each leaves the sender
    known under the name of the message, every other user, every habit
    and every log row as they were; only [/add] changes the conversation
    state, to waiting for a title. *)
Theorem commands_only_register_sender (now : Z) (today : date) (from_id : Z)
    (username : option text) (st : fsm_state) (s : db) :
  in_int64 from_id → bindable username →
  has_room (seq_users s) (User.id <$> users s) →
  Forall (λ r, habits (store r) = habits s
               ∧ habit_logs (store r) = habit_logs s
               ∧ (∃ row, lookup_user from_id (store r) = Some row
                         ∧ User.tg_username row = username)
               ∧ (∀ tg', tg' ≠ from_id →
                         lookup_user tg' (store r) = lookup_user tg' s))
         [start now from_id username st s;
          add_command now from_id username st s;
          done_command now today from_id username st s;
          delete_command now from_id username st s;
          week_command now today from_id username st s]
  ∧ fsm (start now from_id username st s) = st
  ∧ fsm (add_command now from_id username st s) = waiting_for_title
  ∧ fsm (done_command now today from_id username st s) = st
  ∧ fsm (delete_command now from_id username st s) = st
  ∧ fsm (week_command now today from_id username st s) = st.
Proof.
  intros Hfrom Hname Hroom.
  destruct (upsert_user_returns now from_id username s) as (uid & s1 & E);
    [done..|].
  destruct (command_store now today from_id username st s uid s1 E)
    as (H1 & H2 & H3 & H4 & H5 & Hfsm).
  destruct (upsert_user_other_tables _ _ _ _ _ _ E) as (Hh & _ & Hl & _).
  destruct (upsert_user_registers _ _ _ _ _ _ E)
    as [(row & Hrow & _ & Hrname) Hothers].
  assert (habits s1 = habits s ∧ habit_logs s1 = habit_logs s
          ∧ (∃ row, lookup_user from_id s1 = Some row
                    ∧ User.tg_username row = username)
          ∧ (∀ tg', tg' ≠ from_id → lookup_user tg' s1 = lookup_user tg' s))
    as Hs1.
  { split_and!; [done|done|by exists row|done]. }
  split; [|exact Hfsm].
  repeat (apply Forall_cons; split); [..|apply Forall_nil];
    by rewrite ?H1, ?H2, ?H3, ?H4, ?H5.
Qed.

(** The sender of a command, resolved, and what is listed for them. *)
Lemma sender_listing (now : Z) (from_id : Z) (username : option text)
    (s : db) :
  db_fits s → in_int64 from_id → bindable username →
  has_room (seq_users s) (User.id <$> users s) →
  ∃ uid s1,
    upsert_user now from_id username s = Some (uid, s1)
    ∧ list_habits uid s = Some (select_habits uid s)
    ∧ list_habits uid s1 = Some (select_habits uid s)
    ∧ habits s1 = habits s ∧ seq_habits s1 = seq_habits s
    ∧ habit_logs s1 = habit_logs s
    ∧ in_int64 uid.
Proof.
  intros Hf Hfrom Hname Hroom.
  destruct (upsert_user_returns now from_id username s) as (uid & s1 & E);
    [done..|].
  destruct (upsert_user_other_tables _ _ _ _ _ _ E) as (Hh & Hq & Hl & _).
  pose proof (upsert_user_id_fits _ _ _ _ _ _ E Hf) as Hu.
  exists uid, s1. split_and!; try done.
  - by apply list_habits_bound.
  - rewrite list_habits_bound by done. f_equal.
    by apply select_habits_same_habits.
Qed.

(** [/done], from a sender that SQLite can store (while [users] has a row
    id to give), answers a user without habits with the hint and a user
    with habits with one keyboard: a button per active habit of the sender,
    in id order, checked exactly for the habits done today. *)
Theorem done_command_keyboard (now : Z) (today : date) (from_id : Z)
    (username : option text) (st : fsm_state) (s : db) :
  logs_unique s → db_fits s →
  in_int64 from_id → bindable username →
  has_room (seq_users s) (User.id <$> users s) →
  ∃ uid s1 listed,
    upsert_user now from_id username s = Some (uid, s1)
    ∧ list_habits uid s = Some listed
    ∧ failed (done_command now today from_id username st s) = false
    ∧ replies (done_command now today from_id username st s)
      = match listed with
        | [] => [Plain (plain (lit "No habits yet. Use /add first."))]
        | hs =>
          [Inline (lit "Toggle done for today (tap again to undo):")
             ((λ h : Z * text,
                 {| label := [if is_done h.1 (isoformat today) s
                              then DONE_MARK else UNDONE_MARK]
                             ++ lit " " ++ h.2;
                    callback_data := DONE_PREFIX ++ str_int h.1 |}) <$> hs)]
        end.
Proof.
  intros Huniq Hf Hfrom Hname Hroom.
  destruct (sender_listing now from_id username s)
    as (uid & s1 & E & L & L1 & Hh & _ & Hl & Hu); [done..|].
  exists uid, s1, (select_habits uid s). split; [done|]. split; [done|].
  unfold done_command. rewrite E, L1.
  destruct (select_habits_fit uid s Hf) as [Hids _].
  destruct (select_habits uid s) as [|h0 hs] eqn:El; [done|].
  rewrite build_done_keyboard_eq
    by (done || unfold logs_unique; by rewrite Hl).
  split; [done|]. cbn [replies]. do 2 f_equal.
  apply Forall_fmap_ext_1, Forall_forall. intros h _.
  unfold is_done. by rewrite Hl.
Qed.

(** [/delete], from a sender that SQLite can store (while [users] has a
    row id to give), offers the sender's own active habits and nothing
    else: one button per listed habit, in id order, whose callback data is
    ["delete:"] followed by the decimal id; every id on a button belongs
    to an active habit of the sender, and different habits get different
    callback data. *)
Theorem delete_command_offers_own_habits (now : Z) (from_id : Z)
    (username : option text) (st : fsm_state) (s : db) :
  db_fits s → in_int64 from_id → bindable username →
  has_room (seq_users s) (User.id <$> users s) →
  ∃ uid s1 listed,
    upsert_user now from_id username s = Some (uid, s1)
    ∧ list_habits uid s = Some listed
    ∧ failed (delete_command now from_id username st s) = false
    ∧ replies (delete_command now from_id username st s)
      = match listed with
        | [] => [Plain (plain (lit "No habits to delete."))]
        | hs =>
          [Inline (lit "Pick a habit to delete:")
             ((λ h : Z * text,
                 {| label := [CROSS_MARK] ++ lit " " ++ h.2;
                    callback_data := DELETE_PREFIX ++ str_int h.1 |}) <$> hs)]
        end
    ∧ (∀ body kb b,
         replies (delete_command now from_id username st s) = [Inline body kb] →
         b ∈ kb →
         ∃ h, h ∈ habits s ∧ owned_active uid (Habit.id h) h
              ∧ callback_data b = DELETE_PREFIX ++ str_int (Habit.id h)
              ∧ label b = [CROSS_MARK] ++ lit " " ++ Habit.title h)
    ∧ (∀ a b, DELETE_PREFIX ++ str_int a = DELETE_PREFIX ++ str_int b → a = b).
Proof.
  intros Hf Hfrom Hname Hroom.
  destruct (sender_listing now from_id username s)
    as (uid & s1 & E & L & L1 & Hh & _ & Hl & Hu); [done..|].
  exists uid, s1, (select_habits uid s). split; [done|]. split; [done|].
  unfold delete_command. rewrite E, L1.
  destruct (select_habits uid s) as [|h0 hs] eqn:El.
  - split_and!; try done.
    intros a b H%app_inv_head. by apply str_int_inj.
  - split_and!; try done.
    + cbn [replies]. intros body kb b Heq Hb.
      assert (kb = (λ h : Z * text,
                      {| label := [CROSS_MARK] ++ lit " " ++ h.2;
                         callback_data := DELETE_PREFIX ++ str_int h.1 |})
                     <$> h0 :: hs) as -> by congruence.
      apply list_elem_of_fmap in Hb as ([i t] & -> & Hb).
      rewrite <- El in Hb.
      apply select_habits_elem in Hb as (h & Hh' & <- & <- & Hu' & Ha).
      exists h. by split_and!.
    + intros a b H%app_inv_head. by apply str_int_inj.
Qed.

Lemma foldr_max_snoc (ids : list Z) (r : Z) :
  foldr Z.max 0%Z (ids ++ [r]) = Z.max (foldr Z.max 0%Z ids) (Z.max r 0).
Proof. induction ids as [|i ids IH]; simpl; [lia|]. rewrite IH. lia. Qed.

(** Each [upsert_user] draws one row id, on the update path too. *)
Lemma upsert_user_draws_one (now tg : Z) (name : option text) (s : db)
    (uid : Z) (s' : db) :
  upsert_user now tg name s = Some (uid, s') →
  next_rowid (seq_users s') (User.id <$> users s')
  = (next_rowid (seq_users s) (User.id <$> users s) + 1)%Z.
Proof.
  intros (_ & _ & _ & E)%upsert_user_Some.
  assert (foldr Z.max 0 (User.id <$> users s)
          < next_rowid (seq_users s) (User.id <$> users s))%Z as Hlt
    by (unfold next_rowid; lia).
  destruct (decide (tg ∈ User.tg_user_id <$> users s)) as [Hin|Hin].
  - destruct (upsert_user_stmt_update now tg name s Hin) as (r & _ & _ & _ & E').
    rewrite E' in E. injection E as _ <-. cbn [seq_users users with_users].
    replace (User.id <$> (_ <$> users s)) with (User.id <$> users s).
    + unfold next_rowid in *. lia.
    + rewrite <- list_fmap_compose. apply Forall_fmap_ext_1, Forall_forall.
      intros x _. simpl. by destruct (bool_decide _).
  - rewrite upsert_user_stmt_insert in E by done. injection E as _ <-.
    cbn [seq_users users with_users]. rewrite fmap_app. simpl.
    unfold next_rowid at 1. rewrite foldr_max_snoc.
    pose proof (next_rowid_positive (seq_users s) (User.id <$> users s)). lia.
Qed.

(** The [/add] conversation, with a sender and a title that SQLite can
    store and tables that have row ids to give: after [/add] the bot waits
    for a title; the next text of the sender that is not a command goes to
    the title handler; a text of fewer than two characters after stripping
    leaves the bot waiting and the sender's listing as it was; any other
    text ends the conversation and appends the stripped text to the
    sender's listing, under the same internal id that [/add] resolved. *)
Theorem add_conversation (now1 now2 now3 : Z) (today : date) (from_id : Z)
    (username username' : option text) (t : text) (st : fsm_state)
    (s : db) :
  NoDup (Habit.id <$> habits s) → db_fits s →
  in_int64 from_id → bindable username → bindable username' →
  (next_rowid (seq_users s) (User.id <$> users s) < MAX_ROWID)%Z →
  has_room (seq_habits s) (Habit.id <$> habits s) →
  not_a_command t → encodable (strip t) →
  let r1 := add_command now1 from_id username st s in
  let r2 := handle_habit_title now2 now3 today from_id username'
              (Some t) (store r1) in
  let title := strip t in
  fsm r1 = waiting_for_title
  ∧ ∃ uid before,
      User.id <$> lookup_user from_id (store r1) = Some uid
      ∧ User.id <$> lookup_user from_id (db_after r2) = Some uid
      ∧ list_habits uid s = Some before
      ∧ if bool_decide (length title < 2)
        then state_after r2 = waiting_for_title
             ∧ list_habits uid (db_after r2) = Some before
        else state_after r2 = no_state
             ∧ list_habits uid (db_after r2)
               = Some (before
                       ++ [(next_rowid (seq_habits s) (Habit.id <$> habits s),
                            title)]).
Proof.
  intros Hnd Hf Hfrom Hname Hname' Hroom2 Hroomh _ Henc r1 r2 title.
  assert (has_room (seq_users s) (User.id <$> users s)) as Hroom
    by (unfold has_room; lia).
  destruct (sender_listing now1 from_id username s)
    as (uid & s1 & E1 & L & L1 & Hh1 & Hq1 & _ & Hu); [done..|].
  destruct (upsert_user_registers _ _ _ _ _ _ E1)
    as [(row & Hrow & Hid & _) _].
  assert (has_room (seq_users s1) (User.id <$> users s1)) as Hroom1.
  { unfold has_room. rewrite (upsert_user_draws_one _ _ _ _ _ _ E1). lia. }
  destruct (upsert_user_stmt_known now2 from_id username' s1 row Hrow)
    as (s2 & E2 & Hrow2 & _).
  rewrite <- upsert_user_bound in E2 by done.
  destruct (upsert_user_other_tables _ _ _ _ _ _ E2) as (Hh2 & Hq2 & _ & _).
  assert (store r1 = s1 ∧ fsm r1 = waiting_for_title) as [Hs1 Hf1]
    by (subst r1; unfold add_command; by rewrite E1).
  split; [done|]. exists uid, (select_habits uid s). rewrite Hs1, Hrow.
  split; [by rewrite <- Hid|].
  subst r2. rewrite Hs1. unfold handle_habit_title. rewrite E2, Hid.
  change (default [] (Some t)) with t. fold title. split_and!; [|done|].
  - case_bool_decide as Hshort; [by cbn [db_after]; rewrite Hrow2, <- Hid|].
    rewrite add_habit_bound;
      [|done|subst title; by rewrite strip_idem|by rewrite Hh2, Hh1, Hq2, Hq1].
    destruct (insert_habit now3 uid title s2) as [habit_id s3] eqn:E3.
    assert (users s3 = users s2) as Hu3
      by (unfold insert_habit in E3; by inversion E3).
    cbv beta iota zeta.
    destruct (send_week_view today uid s3); cbn [db_after];
      unfold lookup_user in *; by rewrite Hu3, Hrow2, <- Hid.
  - case_bool_decide as Hshort.
    + cbn [db_after state_after]. split; [done|].
      rewrite list_habits_bound by done. f_equal.
      apply select_habits_same_habits. congruence.
    + rewrite add_habit_bound;
        [|done|subst title; by rewrite strip_idem|by rewrite Hh2, Hh1, Hq2, Hq1].
      pose proof (select_habits_add_last now3 uid title s2) as Hlast.
      destruct (insert_habit now3 uid title s2) as [habit_id s3] eqn:E3.
      cbn [snd] in Hlast. cbv beta iota zeta.
      assert (list_habits uid s3
              = Some (select_habits uid s
                      ++ [(next_rowid (seq_habits s) (Habit.id <$> habits s),
                           title)])) as Hl3.
      { rewrite list_habits_bound by done. f_equal.
        rewrite Hlast by (by rewrite Hh2, Hh1).
        rewrite (select_habits_same_habits uid s s2) by congruence.
        subst title. by rewrite strip_idem, Hh2, Hh1, Hq2, Hq1. }
      by destruct (send_week_view today uid s3); cbn [db_after state_after].
Qed.

(** ** The week of a reference date *)

(** C5, as the code has it.  For every reference date up to 9999-12-26,
    [week_dates] returns seven consecutive dates, the first of which is a
    Monday, and the reference date is the one among them that its week day
    tells: they are Monday to Sunday of the week of the reference date (for
    a Sunday, the Monday six days before up to that Sunday).  The result
    is a function of the reference date alone. *)
Theorem week_dates_monday_to_sunday (today : date) :
  valid_date today → (today ≤ 3652054)%Z →
  ∃ monday,
    week_dates today
    = Some [monday; monday + 1; monday + 2; monday + 3; monday + 4;
            monday + 5; monday + 6]%Z
    ∧ weekday monday = 0%Z
    ∧ (∀ k, (0 ≤ k ≤ 6)%Z →
            valid_date (monday + k)%Z ∧ weekday (monday + k)%Z = k)
    ∧ today = (monday + weekday today)%Z
    ∧ (monday ≤ today ≤ monday + 6)%Z
    ∧ (weekday today = 6%Z → monday = (today - 6)%Z).
Proof.
  intros Hv Hfit. exists (today - weekday today)%Z.
  destruct (week_dates_in_range today Hv Hfit) as (Hweek & Hm & H6).
  destruct (monday_valid today Hv) as [_ Hw].
  pose proof (weekday_range today) as Hr.
  split_and!; [done|done| |lia..].
  intros k Hk. split.
  - destruct Hm, H6. unfold valid_date in *. lia.
  - apply weekday_after_monday; [done|lia].
Qed.

(** C5 as stated fails: 9999-12-27 is a date, and the Sunday of its week
    is not; [week_dates] raises ([OverflowError]) on the last five days of
    year 9999. *)
Lemma week_dates_of_last_week :
  mkdate 9999 12 27 = Some 3652055%Z
  ∧ valid_date 3652055%Z
  ∧ week_dates 3652055%Z = None.
Proof.
  split; [vm_compute; reflexivity|].
  split; [unfold valid_date, MAXORDINAL; lia|vm_compute; reflexivity].
Qed.

Example week_dates_of_a_sunday :
  weekday 738892%Z = 6%Z
  ∧ week_dates 738892%Z
    = Some [738886; 738887; 738888; 738889; 738890; 738891; 738892]%Z.
Proof. split; vm_compute; reflexivity. Qed.

(** ** The grid *)

(** C8.  [build_week_table] is determined by the habits, the days and
    what the statuses hold for the pairs of a habit and a day of these
    lists: two runs on mappings that agree there end alike, byte for byte.
    On days from a first to a last one the text is a line with the span
    between the two, a line with the initials of the days, then one line
    per habit in the order of the list, with one cell per day in the order
    of the days; without days both runs raise ([IndexError]). *)
Theorem build_week_table_deterministic (habits : list (Z * text))
    (statuses statuses' : gmap (Z * text) Z) (days : list date) :
  (∀ h d, h ∈ habits → d ∈ days →
     (statuses !! (h.1, isoformat d) = Some 1%Z
      ↔ statuses' !! (h.1, isoformat d) = Some 1%Z)) →
  build_week_table habits statuses days
  = build_week_table habits statuses' days
  ∧ (build_week_table habits statuses days = None ↔ days = [])
  ∧ ∀ first final,
      head days = Some first → last days = Some final →
      build_week_table habits statuses days
      = Some (join NL
                ((lit "Week " ++ strftime_d_b first ++ lit " - "
                  ++ strftime_d_b final)
                 :: (replicate 16 32%N ++ lit " "
                     ++ join (lit " ")
                          ((λ d, take 1 (strftime_a d)) <$> days))
                 :: ((λ h : Z * text,
                        ljust 15 (take 15 h.2) ++ lit " "
                        ++ ((λ d, if bool_decide
                                       (statuses !! (h.1, isoformat d)
                                        = Some 1%Z)
                                  then DONE_CELL else UNDONE_CELL) <$> days))
                       <$> habits))).
Proof.
  intros Hagree. destruct days as [|first rest];
    [split; [done|]; split; [done|]; by intros ? ? [=]|].
  destruct (build_week_table_nonempty habits statuses first rest)
    as (final & Hfinal & Hb).
  destruct (build_week_table_nonempty habits statuses' first rest)
    as (final' & Hfinal' & Hb').
  assert (final' = final) as -> by congruence.
  assert (∀ m : gmap (Z * text) Z, ∀ h d,
            cell m h d
            = if bool_decide (m !! (h, isoformat d) = Some 1%Z)
              then DONE_CELL else UNDONE_CELL) as Hcell.
  { intros m h d. unfold cell. generalize (isoformat d). intros k.
    destruct (m !! (h, k)) as [v|]; cbn [default from_option id];
      repeat case_bool_decide; congruence. }
  assert (habit_line statuses' (first :: rest) <$> habits
          = habit_line statuses (first :: rest) <$> habits) as Hrows.
  { apply Forall_fmap_ext_1, Forall_forall. intros h Hh.
    unfold habit_line. cbv zeta. do 2 f_equal.
    apply Forall_fmap_ext_1, Forall_forall. intros d Hd.
    rewrite !Hcell. specialize (Hagree h d Hh Hd).
    repeat case_bool_decide; tauto. }
  split; [by rewrite Hb, Hb', Hrows|].
  split; [by rewrite Hb|].
  intros first' final' [= <-] Hlast.
  assert (final' = final) as -> by congruence.
  rewrite Hb. do 4 f_equal.
  apply Forall_fmap_ext_1, Forall_forall. intros h _.
  unfold habit_line. cbv zeta. do 2 f_equal.
  apply Forall_fmap_ext_1, Forall_forall. intros d _. apply Hcell.
Qed.

Example build_week_table_without_days :
  build_week_table [(1%Z, lit "Water 2L")] ∅ [] = None.
Proof. reflexivity. Qed.

(** ** The properties at work on the small stores *)

(** A decidable fact about a concrete store, by evaluation. *)
Ltac by_evaluation :=
  lazymatch goal with
  | |- ?P => refine (bool_decide_unpack P _); vm_compute; exact I
  end.

Example week_view_of_sample :
  send_week_view 738892%Z 1 sample_marked
  = Some [ {| body :=
                lit "<pre>Week 01 Jan - 07 Jan" ++ NL
                ++ lit "                 M T W T F S S" ++ NL
                ++ lit "Water 2L        "
                ++ [DONE_CELL; UNDONE_CELL; UNDONE_CELL; UNDONE_CELL;
                    UNDONE_CELL; UNDONE_CELL; UNDONE_CELL]
                ++ lit "</pre>";
              with_main_menu := false; parse_mode := Some (lit "HTML") |} ].
Proof. vm_compute. reflexivity. Qed.

Example listing_of_shared_sample :
  list_habits 1 sample_shared = Some [(1%Z, lit "Water 2L"); (4%Z, lit "Walk")]
  ∧ list_habits 2 sample_shared = Some [(2%Z, lit "Run")].
Proof. split; vm_compute; reflexivity. Qed.

(** A table that has handed out its last row id takes no row. *)
Example mark_done_on_full_table :
  mark_done 0 1 738886%Z (with_habit_logs sample_db [] MAX_ROWID) = None
  ∧ upsert_user 0 1001 None (with_users sample_db (users sample_db) MAX_ROWID)
    = None.
Proof. split; vm_compute; reflexivity. Qed.

Lemma sample_db_wf : db_wf sample_db.
Proof. by_evaluation. Defined.

Lemma sample_db_fits : db_fits sample_db.
Proof. by_evaluation. Defined.

Lemma sample_marked_unique : logs_unique sample_marked.
Proof. unfold logs_unique. by_evaluation. Defined.

Lemma sample_marked_fits : db_fits sample_marked.
Proof. by_evaluation. Defined.

Lemma sample_marked_habit_ids : NoDup (Habit.id <$> habits sample_marked).
Proof. by_evaluation. Defined.

Lemma sample_shared_habit_ids : NoDup (Habit.id <$> habits sample_shared).
Proof. by_evaluation. Defined.

Lemma sample_db_habit : ∃ h, h ∈ habits sample_db ∧ owned_active 1 1 h.
Proof. eexists. split; [vm_compute; left|]. vm_compute. done. Defined.

Lemma valid_2024_01_01 : valid_date 738886%Z.
Proof. unfold valid_date, MAXORDINAL. lia. Defined.

Lemma valid_2024_01_07 : valid_date 738892%Z.
Proof. unfold valid_date, MAXORDINAL. lia. Defined.

Lemma in_int64_small (z : Z) : (0 ≤ z ≤ 2000)%Z → in_int64 z.
Proof. unfold in_int64. lia. Defined.

Lemma mark_done_unscoped_witness :
  in_int64 42
  ∧ has_room (seq_habit_logs sample_db) (Log.id <$> habit_logs sample_db)
  ∧ (∀ h, h ∈ habits sample_db → Habit.id h ≠ 42%Z)
  ∧ ∃ s', mark_done 30 42 738886%Z sample_db = Some (true, s')
          ∧ ∃ r, r ∈ habit_logs s' ∧ Log.habit_id r = 42%Z
                 ∧ Log.log_date r = isoformat 738886%Z ∧ Log.done r = 1%Z.
Proof.
  assert (Hh : in_int64 42) by by_evaluation.
  assert (Hroom : has_room (seq_habit_logs sample_db)
                    (Log.id <$> habit_logs sample_db)) by by_evaluation.
  split; [exact Hh|]. split; [exact Hroom|]. split.
  - vm_compute. intros h ->%list_elem_of_singleton. discriminate.
  - destruct (mark_done_unscoped 30 42 738886%Z sample_db Hh Hroom)
      as (s' & E & Hrow & _).
    exists s'. split; [exact E|exact Hrow].
Defined.

Lemma mark_done_for_user_idempotent_witness :
  db_wf sample_db ∧ in_int64 1
  ∧ ∃ s1,
      mark_done_for_user 30 1 1 738521%Z sample_db = Some (true, s1)
      ∧ (has_room (seq_habit_logs s1) (Log.id <$> habit_logs s1) →
         ∃ s2, mark_done_for_user 40 1 1 738521%Z s1 = Some (true, s2)
               ∧ habit_logs s2 = habit_logs s1).
Proof.
  assert (Hu : in_int64 1) by by_evaluation.
  assert (Hroom : has_room (seq_habit_logs sample_db)
                    (Log.id <$> habit_logs sample_db)) by by_evaluation.
  split; [exact sample_db_wf|]. split; [exact Hu|].
  destruct (mark_done_for_user_idempotent 30 1 1 738521%Z sample_db
              sample_db_wf Hu Hu) as [_ Hhit].
  destruct (Hhit sample_db_habit Hroom) as (s1 & E & _ & Hnext & _).
  exists s1. split; [exact E|]. intros Hroom1.
  destruct (Hnext 40%Z Hroom1) as (s2 & E2 & Hlogs & _).
  exists s2. split; [exact E2|exact Hlogs].
Defined.

Lemma upsert_user_stable_identity_witness :
  (1001%Z ∉ User.tg_user_id <$> users empty_db)
  ∧ in_int64 1001 ∧ bindable (Some (lit "ann"))
  ∧ has_room (seq_users empty_db) (User.id <$> users empty_db)
  ∧ ∃ uid s1,
      upsert_user 10 1001 (Some (lit "ann")) empty_db = Some (uid, s1)
      ∧ users s1 = users empty_db
                   ++ [ {| User.id := uid; User.tg_user_id := 1001;
                           User.tg_username := Some (lit "ann");
                           User.created_at := 10 |} ].
Proof.
  assert (H : 1001%Z ∉ User.tg_user_id <$> users empty_db)
    by (simpl; apply not_elem_of_nil).
  assert (Htg : in_int64 1001) by by_evaluation.
  assert (Hname : bindable (Some (lit "ann"))) by by_evaluation.
  assert (Hroom : has_room (seq_users empty_db) (User.id <$> users empty_db))
    by by_evaluation.
  split; [exact H|]. split; [exact Htg|]. split; [exact Hname|].
  split; [exact Hroom|].
  destruct (upsert_user_stable_identity 10 1001 (Some (lit "ann")) empty_db
              H Htg Hname Hroom) as (uid & s1 & E & _ & Hrows & _).
  exists uid, s1. split; [exact E|exact Hrows].
Defined.

Lemma habit_logs_one_row_per_day_witness :
  reachable sample_marked
  ∧ length (habit_logs sample_marked) = 1
  ∧ logs_unique sample_marked
  ∧ (∀ now o, logs_unique (step now o sample_marked))
  ∧ ∃ s', mark_done 40 1 738886%Z sample_marked = Some (true, s')
          ∧ habit_logs s' = habit_logs sample_marked.
Proof.
  pose proof (habit_logs_one_row_per_day sample_marked sample_marked_reachable)
    as (H1 & H2 & _ & H4 & _).
  split; [exact sample_marked_reachable|].
  split; [vm_compute; reflexivity|].
  split; [exact H1|]. split; [exact H2|].
  apply H4.
  - vm_compute. left.
  - by_evaluation.
Defined.

Lemma add_habit_listed_once_witness :
  2 ≤ length (strip (lit " Run "))
  ∧ in_int64 1 ∧ encodable (strip (lit " Run "))
  ∧ has_room (seq_habits sample_db) (Habit.id <$> habits sample_db)
  ∧ ∃ habit_id s' after,
      add_habit 30 1 (lit " Run ") sample_db = Some (habit_id, s')
      ∧ list_habits 1 s' = Some after
      ∧ length (filter (λ p, p.1 = habit_id) after) = 1
      ∧ (habit_id, strip (lit " Run ")) ∈ after.
Proof.
  assert (H : 2 ≤ length (strip (lit " Run "))) by (vm_compute; lia).
  assert (Hu : in_int64 1) by by_evaluation.
  assert (Ht : encodable (strip (lit " Run "))) by by_evaluation.
  assert (Hroom : has_room (seq_habits sample_db)
                    (Habit.id <$> habits sample_db)) by by_evaluation.
  split; [exact H|]. split; [exact Hu|]. split; [exact Ht|].
  split; [exact Hroom|].
  destruct (add_habit_listed_once 30 1 (lit " Run ") sample_db H Hu Ht Hroom)
    as (habit_id & s' & before & after & E & _ & L & H1 & H2 & _).
  exists habit_id, s', after.
  split; [exact E|]. split; [exact L|]. split; [exact H1|exact H2].
Defined.

Lemma deactivate_habit_for_user_owner_only_witness :
  db_wf sample_db ∧ db_fits sample_db
  ∧ ((deactivate_habit_for_user 1 1 sample_db).1 = true
     ↔ ∃ h, h ∈ habits sample_db ∧ owned_active 1 1 h)
  ∧ deactivate_habit_for_user 1 1 (deactivate_habit_for_user 1 1 sample_db).2
    = (false, (deactivate_habit_for_user 1 1 sample_db).2).
Proof.
  pose proof (deactivate_habit_for_user_owner_only 1 1 sample_db
                sample_db_wf sample_db_fits) as (H1 & _ & _ & H4 & _).
  split; [exact sample_db_wf|]. split; [exact sample_db_fits|].
  split; [exact H1|exact H4].
Defined.

Lemma title_checked_by_caller_only_witness :
  db_fits sample_db ∧ in_int64 1001 ∧ bindable None
  ∧ has_room (seq_users sample_db) (User.id <$> users sample_db)
  ∧ has_room (seq_habits sample_db) (Habit.id <$> habits sample_db)
  ∧ habits (db_after (handle_habit_title 30 31 738886%Z 1001 None
                        (Some (lit " x ")) sample_db))
    = habits sample_db.
Proof.
  assert (Hfrom : in_int64 1001) by by_evaluation.
  assert (Hname : bindable None) by by_evaluation.
  assert (Hroom : has_room (seq_users sample_db) (User.id <$> users sample_db))
    by by_evaluation.
  assert (Hroom' : has_room (seq_habits sample_db)
                     (Habit.id <$> habits sample_db)) by by_evaluation.
  split; [exact sample_db_fits|]. split; [exact Hfrom|].
  split; [exact Hname|]. split; [exact Hroom|]. split; [exact Hroom'|].
  pose proof (title_checked_by_caller_only 30 31 738886%Z 1001 1 None
                (Some (lit " x ")) (lit " x ") sample_db sample_db_fits
                Hfrom Hname Hroom Hroom') as [_ Hcaller].
  cbv zeta in Hcaller.
  rewrite bool_decide_eq_true_2 in Hcaller by (vm_compute; lia).
  exact (proj1 Hcaller).
Defined.

Lemma week_dates_monday_to_sunday_witness :
  valid_date 738892%Z ∧ (738892 ≤ 3652054)%Z
  ∧ ∃ monday,
      week_dates 738892%Z
      = Some [monday; monday + 1; monday + 2; monday + 3; monday + 4;
              monday + 5; monday + 6]%Z
      ∧ weekday monday = 0%Z.
Proof.
  assert (Hfit : (738892 ≤ 3652054)%Z) by lia.
  split; [exact valid_2024_01_07|]. split; [exact Hfit|].
  destruct (week_dates_monday_to_sunday 738892%Z valid_2024_01_07 Hfit)
    as (monday & E & Hw & _).
  exists monday. split; [exact E|exact Hw].
Defined.

Lemma build_week_table_deterministic_witness :
  (∀ (h : Z * text) (d : date),
     h ∈ [(1%Z, lit "Water 2L")] → d ∈ [738886%Z; 738887%Z] →
     ((∅ : gmap (Z * text) Z) !! (h.1, isoformat d) = Some 1%Z
      ↔ ({[ (2%Z, lit "2024-01-01") := 1%Z ]} : gmap (Z * text) Z)
          !! (h.1, isoformat d) = Some 1%Z))
  ∧ build_week_table [(1%Z, lit "Water 2L")] ∅ [738886%Z; 738887%Z]
    = build_week_table [(1%Z, lit "Water 2L")]
        {[ (2%Z, lit "2024-01-01") := 1%Z ]} [738886%Z; 738887%Z].
Proof.
  assert (H : ∀ (h : Z * text) (d : date),
            h ∈ [(1%Z, lit "Water 2L")] → d ∈ [738886%Z; 738887%Z] →
            ((∅ : gmap (Z * text) Z) !! (h.1, isoformat d) = Some 1%Z
             ↔ ({[ (2%Z, lit "2024-01-01") := 1%Z ]} : gmap (Z * text) Z)
                 !! (h.1, isoformat d) = Some 1%Z)).
  { intros h d ->%list_elem_of_singleton _. cbn [fst].
    rewrite lookup_empty, lookup_singleton_ne; [done|]. intros [= ?]. }
  split; [exact H|].
  exact (proj1 (build_week_table_deterministic [(1%Z, lit "Water 2L")] ∅
                  {[ (2%Z, lit "2024-01-01") := 1%Z ]}
                  [738886%Z; 738887%Z] H)).
Defined.

Lemma weekly_status_window_witness :
  logs_unique sample_marked ∧ [1%Z] ≠ [] ∧ Forall in_int64 [1%Z]
  ∧ head [738886%Z; 738892%Z] = Some 738886%Z
  ∧ last [738886%Z; 738892%Z] = Some 738892%Z
  ∧ valid_date 738886%Z ∧ valid_date 738892%Z
  ∧ ∃ m, weekly_status [1%Z] [738886%Z; 738892%Z] sample_marked = Some m
         ∧ ∀ h d v, valid_date d →
             (m !! (h, isoformat d) = Some v
              ↔ h ∈ [1%Z] ∧ (738886 ≤ d ≤ 738892)%Z
                ∧ ∃ r, r ∈ habit_logs sample_marked ∧ Log.habit_id r = h
                       ∧ Log.log_date r = isoformat d ∧ Log.done r = v).
Proof.
  assert (Hne : [1%Z] ≠ []) by discriminate.
  assert (Hfit : Forall in_int64 [1%Z]) by by_evaluation.
  assert (Hhead : head [738886%Z; 738892%Z] = Some 738886%Z) by reflexivity.
  assert (Hlast : last [738886%Z; 738892%Z] = Some 738892%Z) by reflexivity.
  split; [exact sample_marked_unique|]. split; [exact Hne|].
  split; [exact Hfit|].
  split; [exact Hhead|]. split; [exact Hlast|].
  split; [exact valid_2024_01_01|]. split; [exact valid_2024_01_07|].
  exact (weekly_status_window [1%Z] [738886%Z; 738892%Z] 738886%Z 738892%Z
           sample_marked sample_marked_unique Hne Hfit Hhead Hlast
           valid_2024_01_01 valid_2024_01_07).
Defined.

Lemma mark_done_touches_one_pair_witness :
  valid_date 738886%Z ∧ valid_date 738892%Z
  ∧ NoDup (Habit.id <$> habits sample_marked) ∧ in_int64 1
  ∧ has_room (seq_habit_logs sample_marked)
             (Log.id <$> habit_logs sample_marked)
  ∧ ∃ s1, mark_done 40 1 738892%Z sample_marked = Some (true, s1)
          ∧ is_done 1 (isoformat 738886%Z) s1
            = (if bool_decide (1%Z = 1%Z ∧ 738886%Z = 738892%Z) then true
               else is_done 1 (isoformat 738886%Z) sample_marked).
Proof.
  assert (Hu : in_int64 1) by by_evaluation.
  assert (Hroom : has_room (seq_habit_logs sample_marked)
                    (Log.id <$> habit_logs sample_marked)) by by_evaluation.
  split; [exact valid_2024_01_01|]. split; [exact valid_2024_01_07|].
  split; [exact sample_marked_habit_ids|]. split; [exact Hu|].
  split; [exact Hroom|].
  destruct (mark_done_touches_one_pair 40 1 1 1 738892%Z 738886%Z
              sample_marked valid_2024_01_07 valid_2024_01_01
              sample_marked_habit_ids Hu Hu Hroom)
    as (s1 & b & s2 & E & H1 & _).
  exists s1. split; [exact E|exact H1].
Defined.

Lemma send_week_view_fails_on_overflow_witness :
  valid_date 3652055%Z ∧ db_fits sample_marked
  ∧ (send_week_view 3652055%Z 1 sample_marked = None
     ↔ ¬ in_int64 1
       ∨ (list_habits 1 sample_marked ≠ Some [] ∧ (3652054 < 3652055)%Z)).
Proof.
  assert (Hv : valid_date 3652055%Z) by (unfold valid_date, MAXORDINAL; lia).
  split; [exact Hv|]. split; [exact sample_marked_fits|].
  exact (proj1 (send_week_view_fails_on_overflow 3652055%Z 1 sample_marked
                  Hv sample_marked_fits)).
Defined.

Lemma send_week_view_grid_witness :
  db_fits sample_marked ∧ logs_unique sample_marked ∧ valid_date 738892%Z
  ∧ (738892 ≤ 3652054)%Z
  ∧ list_habits 1 sample_marked = Some [(1%Z, lit "Water 2L")]
  ∧ is_Some (send_week_view 738892%Z 1 sample_marked).
Proof.
  assert (Hfit : (738892 ≤ 3652054)%Z) by lia.
  assert (Hlist : list_habits 1 sample_marked = Some [(1%Z, lit "Water 2L")])
    by (vm_compute; reflexivity).
  assert (Hne : [(1%Z, lit "Water 2L")] ≠ []) by discriminate.
  split; [exact sample_marked_fits|]. split; [exact sample_marked_unique|].
  split; [exact valid_2024_01_07|].
  split; [exact Hfit|]. split; [exact Hlist|].
  pose proof (send_week_view_grid 738892%Z 1 sample_marked _
                sample_marked_fits sample_marked_unique
                valid_2024_01_07 Hfit Hlist Hne) as Hgrid.
  cbv zeta in Hgrid. rewrite Hgrid. eexists. reflexivity.
Defined.

Lemma list_habits_active_in_id_order_witness :
  NoDup (Habit.id <$> habits sample_shared) ∧ in_int64 1
  ∧ length (habits sample_shared) = 4
  ∧ ∃ listed, list_habits 1 sample_shared = Some listed
              ∧ Sorted Z.lt (fst <$> listed)
              ∧ length listed = 2.
Proof.
  assert (Hu : in_int64 1) by by_evaluation.
  split; [exact sample_shared_habit_ids|]. split; [exact Hu|].
  split; [vm_compute; reflexivity|].
  destruct (list_habits_active_in_id_order 1 sample_shared
              sample_shared_habit_ids Hu) as (listed & E & _ & Hs & Hlen).
  exists listed. split; [exact E|]. split; [exact Hs|].
  rewrite Hlen. vm_compute. reflexivity.
Defined.

Lemma add_habit_listed_last_witness :
  NoDup (Habit.id <$> habits sample_shared) ∧ 2%Z ≠ 1%Z
  ∧ in_int64 1 ∧ encodable (strip (lit " Swim "))
  ∧ has_room (seq_habits sample_shared) (Habit.id <$> habits sample_shared)
  ∧ ∃ habit_id s' before,
      add_habit 70 1 (lit " Swim ") sample_shared = Some (habit_id, s')
      ∧ list_habits 1 sample_shared = Some before
      ∧ list_habits 1 s' = Some (before ++ [(habit_id, strip (lit " Swim "))])
      ∧ list_habits 2 s' = list_habits 2 sample_shared.
Proof.
  assert (Hne : 2%Z ≠ 1%Z) by lia.
  assert (Hu : in_int64 1) by by_evaluation.
  assert (Ht : encodable (strip (lit " Swim "))) by by_evaluation.
  assert (Hroom : has_room (seq_habits sample_shared)
                    (Habit.id <$> habits sample_shared)) by by_evaluation.
  split; [exact sample_shared_habit_ids|]. split; [exact Hne|].
  split; [exact Hu|]. split; [exact Ht|]. split; [exact Hroom|].
  destruct (add_habit_listed_last 70 1 2 (lit " Swim ") sample_shared
              sample_shared_habit_ids Hne Hu Ht Hroom)
    as (habit_id & s' & before & E & L & L' & Lo & _).
  exists habit_id, s', before.
  split; [exact E|]. split; [exact L|]. split; [exact L'|exact Lo].
Defined.

Lemma upsert_user_touches_one_user_witness :
  in_int64 1002 ∧ bindable (Some (lit "bob"))
  ∧ has_room (seq_users sample_db) (User.id <$> users sample_db)
  ∧ ∃ uid s',
      upsert_user 30 1002 (Some (lit "bob")) sample_db = Some (uid, s')
      ∧ (∀ tg', tg' ≠ 1002%Z → lookup_user tg' s' = lookup_user tg' sample_db)
      ∧ length (users s') = 2.
Proof.
  assert (Htg : in_int64 1002) by by_evaluation.
  assert (Hname : bindable (Some (lit "bob"))) by by_evaluation.
  assert (Hroom : has_room (seq_users sample_db) (User.id <$> users sample_db))
    by by_evaluation.
  split; [exact Htg|]. split; [exact Hname|]. split; [exact Hroom|].
  destruct (upsert_user_touches_one_user 30 1002 (Some (lit "bob")) sample_db
              Htg Hname Hroom) as (uid & s' & E & _ & Ho & Hlen & _).
  exists uid, s'. split; [exact E|]. split; [exact Ho|].
  rewrite Hlen. vm_compute. reflexivity.
Defined.

Lemma store_raises_exactly_when_witness :
  NoDup (Habit.id <$> habits sample_db)
  ∧ (mark_done_for_user 30 1 1 738886%Z sample_db = None
     ↔ ¬ (in_int64 1 ∧ in_int64 1)
       ∨ ((∃ h, h ∈ habits sample_db ∧ owned_active 1 1 h)
          ∧ ¬ has_room (seq_habit_logs sample_db)
                (Log.id <$> habit_logs sample_db))).
Proof.
  assert (Hnd : NoDup (Habit.id <$> habits sample_db)) by by_evaluation.
  split; [exact Hnd|].
  pose proof (store_raises_exactly_when 30 1 1 1001 None (lit "Run")
                738886%Z sample_db Hnd) as (_ & _ & _ & _ & H).
  exact H.
Defined.

Lemma reachable_tables_consistent_witness :
  reachable sample_marked
  ∧ NoDup (User.tg_user_id <$> users sample_marked)
  ∧ Forall (λ r, Log.done r = 1%Z) (habit_logs sample_marked).
Proof.
  pose proof (reachable_tables_consistent sample_marked sample_marked_reachable)
    as (_ & H2 & _ & _ & H5 & _).
  split; [exact sample_marked_reachable|]. split; [exact H2|exact H5].
Defined.

Lemma build_done_keyboard_buttons_witness :
  logs_unique sample_marked
  ∧ Forall in_int64 (fst <$> [(1%Z, lit "Water 2L")])
  ∧ build_done_keyboard 738886%Z [(1%Z, lit "Water 2L")] sample_marked
    = Some ((λ h : Z * text,
               {| label := [if is_done h.1 (isoformat 738886%Z) sample_marked
                            then DONE_MARK else UNDONE_MARK]
                           ++ lit " " ++ h.2;
                  callback_data := DONE_PREFIX ++ str_int h.1 |})
              <$> [(1%Z, lit "Water 2L")]).
Proof.
  assert (Hfit : Forall in_int64 (fst <$> [(1%Z, lit "Water 2L")]))
    by by_evaluation.
  split; [exact sample_marked_unique|]. split; [exact Hfit|].
  exact (proj1 (build_done_keyboard_buttons 738886%Z [(1%Z, lit "Water 2L")]
                  sample_marked sample_marked_unique Hfit)).
Defined.

Lemma sender_of_sample :
  in_int64 1001 ∧ bindable None
  ∧ has_room (seq_users sample_marked) (User.id <$> users sample_marked).
Proof. split_and!; by_evaluation. Defined.

Lemma commands_only_register_sender_witness :
  in_int64 1001 ∧ bindable None
  ∧ has_room (seq_users sample_marked) (User.id <$> users sample_marked)
  ∧ fsm (add_command 60 1001 None no_state sample_marked) = waiting_for_title
  ∧ fsm (week_command 60 738886%Z 1001 None no_state sample_marked) = no_state.
Proof.
  destruct sender_of_sample as (Hfrom & Hname & Hroom).
  split; [exact Hfrom|]. split; [exact Hname|]. split; [exact Hroom|].
  pose proof (commands_only_register_sender 60 738886%Z 1001 None no_state
                sample_marked Hfrom Hname Hroom) as (_ & _ & H2 & _ & _ & H5).
  split; [exact H2|exact H5].
Defined.

Lemma done_command_keyboard_witness :
  logs_unique sample_marked ∧ db_fits sample_marked
  ∧ in_int64 1001 ∧ bindable None
  ∧ has_room (seq_users sample_marked) (User.id <$> users sample_marked)
  ∧ ∃ uid s1 listed,
      upsert_user 60 1001 None sample_marked = Some (uid, s1)
      ∧ list_habits uid sample_marked = Some listed
      ∧ failed (done_command 60 738886%Z 1001 None no_state sample_marked)
        = false.
Proof.
  destruct sender_of_sample as (Hfrom & Hname & Hroom).
  split; [exact sample_marked_unique|]. split; [exact sample_marked_fits|].
  split; [exact Hfrom|]. split; [exact Hname|]. split; [exact Hroom|].
  destruct (done_command_keyboard 60 738886%Z 1001 None no_state sample_marked
              sample_marked_unique sample_marked_fits Hfrom Hname Hroom)
    as (uid & s1 & listed & H1 & H2 & H3 & _).
  exists uid, s1, listed. split; [exact H1|]. split; [exact H2|exact H3].
Defined.

Lemma delete_command_offers_own_habits_witness :
  db_fits sample_marked ∧ in_int64 1001 ∧ bindable None
  ∧ has_room (seq_users sample_marked) (User.id <$> users sample_marked)
  ∧ ∃ uid s1 listed,
      upsert_user 60 1001 None sample_marked = Some (uid, s1)
      ∧ list_habits uid sample_marked = Some listed
      ∧ failed (delete_command 60 1001 None no_state sample_marked) = false.
Proof.
  destruct sender_of_sample as (Hfrom & Hname & Hroom).
  split; [exact sample_marked_fits|].
  split; [exact Hfrom|]. split; [exact Hname|]. split; [exact Hroom|].
  destruct (delete_command_offers_own_habits 60 1001 None no_state
              sample_marked sample_marked_fits Hfrom Hname Hroom)
    as (uid & s1 & listed & H1 & H2 & H3 & _).
  exists uid, s1, listed. split; [exact H1|]. split; [exact H2|exact H3].
Defined.

Lemma add_conversation_witness :
  NoDup (Habit.id <$> habits sample_marked) ∧ db_fits sample_marked
  ∧ in_int64 1001 ∧ bindable None
  ∧ (next_rowid (seq_users sample_marked) (User.id <$> users sample_marked)
     < MAX_ROWID)%Z
  ∧ has_room (seq_habits sample_marked) (Habit.id <$> habits sample_marked)
  ∧ not_a_command (lit " Run ") ∧ encodable (strip (lit " Run "))
  ∧ fsm (add_command 60 1001 None no_state sample_marked) = waiting_for_title.
Proof.
  assert (Hfrom : in_int64 1001) by by_evaluation.
  assert (Hname : bindable None) by by_evaluation.
  assert (Hroom : (next_rowid (seq_users sample_marked)
                     (User.id <$> users sample_marked) < MAX_ROWID)%Z)
    by by_evaluation.
  assert (Hroom' : has_room (seq_habits sample_marked)
                     (Habit.id <$> habits sample_marked)) by by_evaluation.
  assert (Htext : not_a_command (lit " Run ")) by by_evaluation.
  assert (Henc : encodable (strip (lit " Run "))) by by_evaluation.
  split; [exact sample_marked_habit_ids|]. split; [exact sample_marked_fits|].
  split; [exact Hfrom|]. split; [exact Hname|]. split; [exact Hroom|].
  split; [exact Hroom'|]. split; [exact Htext|]. split; [exact Henc|].
  exact (proj1 (add_conversation 60 61 62 738886%Z 1001 None None
                  (lit " Run ") no_state sample_marked
                  sample_marked_habit_ids sample_marked_fits Hfrom Hname Hname
                  Hroom Hroom' Htext Henc)).
Defined.

(** The conversation on the small store: [/add], a text that is too
    short, then a title. *)
Example add_conversation_of_sample :
  let r1 := add_command 60 1001 None no_state sample_marked in
  let r2 := handle_habit_title 61 62 738886%Z 1001 None (Some (lit " x "))
              (store r1) in
  let r3 := handle_habit_title 63 64 738886%Z 1001 None (Some (lit " Run "))
              (db_after r2) in
  fsm r1 = waiting_for_title
  ∧ state_after r2 = waiting_for_title
  ∧ list_habits 1 (db_after r2) = Some [(1%Z, lit "Water 2L")]
  ∧ state_after r3 = no_state
  ∧ list_habits 1 (db_after r3)
    = Some [(1%Z, lit "Water 2L"); (2%Z, lit "Run")].
Proof. vm_compute. done. Qed.

Lemma reachable_store_fits_witness :
  reachable sample_shared ∧ in_int64 1
  ∧ db_fits sample_shared
  ∧ ∃ listed, list_habits 1 sample_shared = Some listed
              ∧ Forall in_int64 (fst <$> listed).
Proof.
  assert (Hr : reachable sample_shared).
  { unfold sample_shared. do 5 apply reach_step. exact sample_db_reachable. }
  assert (Hu : in_int64 1) by by_evaluation.
  split; [exact Hr|]. split; [exact Hu|].
  exact (reachable_store_fits sample_shared 1 Hr Hu).
Defined.
